(** * Finals-matrix crawler: a shallow embedding of [Parse.py] and [Revise.py]

    The development follows the two source files of the crawler.

    - [Text]     : the [str] methods the code calls ([lower], [strip],
                   [split], [replace], slicing, [int], [str]).
    - [Re]       : a backtracking matcher for the fragment of Python's [re]
                   the patterns of the program are written in, with
                   [match], [findall] and [sub].
    - [Strptime] : [datetime.strptime], [replace(year=...)] and [strftime]
                   for the directives the program uses.
    - [Parse]    : [Parser.convertTimeGroup], [Parser.parseBlock] (both
                   versions), [Parser.parseCommon] and the assembling loops
                   of [ParserV1/V2/V3.parseFile].
    - [Revise]   : [Section], [Revise.iterFiles] and [Revise.process].

    Conventions.  A Python [str] is a [string] of bytes; the one non-ASCII
    character of the program, the hyphen U+2010, is its three UTF-8 bytes.
    The classes [\d], [\w], [\s] and [str.lower] are the ASCII ones, so the
    embedding is exact on ASCII text (plus U+2010).  A data-frame cell is a
    [str] or missing ([NaN]/[None]).  Exceptions are values of [exn] carried
    by the [result] type; a [try ... except] is a [match] on it. *)

From Stdlib Require Import String Ascii List Bool Arith ZArith Lia Sorted OrdersEx.
Import ListNotations.
Open Scope list_scope.
Open Scope string_scope.

(* ===================================================================== *)
(** * Exceptions *)
(* ===================================================================== *)

Inductive exn : Type :=
| ValueError
| TypeError
| AttributeError
| IndexError
| KeyError
| LookupError
| OverflowError.

Inductive result (A : Type) : Type :=
| Ok (a : A)
| Raise (e : exn).
Arguments Ok {A} a.
Arguments Raise {A} e.

Definition bind {A B} (r : result A) (k : A -> result B) : result B :=
  match r with
  | Ok a => k a
  | Raise e => Raise e
  end.

Notation "x <- r ;; k" := (bind r (fun x => k))
  (at level 61, r at next level, right associativity).

Fixpoint mapM {A B} (f : A -> result B) (l : list A) : result (list B) :=
  match l with
  | [] => Ok []
  | a :: l' => b <- f a ;; bs <- mapM f l' ;; Ok (b :: bs)
  end.

(* ===================================================================== *)
(** * [str] methods *)
(* ===================================================================== *)

Module Text.

Definition code (c : ascii) : nat := nat_of_ascii c.

Definition between (lo hi : nat) (c : ascii) : bool :=
  (lo <=? code c)%nat && (code c <=? hi)%nat.

(** [str.isspace] on ASCII: TAB, LF, VT, FF, CR, FS, GS, RS, US, SPACE. *)
Definition is_space (c : ascii) : bool :=
  between 9 13 c || between 28 32 c.

Definition is_digit (c : ascii) : bool := between 48 57 c.
Definition is_upper (c : ascii) : bool := between 65 90 c.
Definition is_lower (c : ascii) : bool := between 97 122 c.

(** [\w]: letters, digits and the underscore. *)
Definition is_word (c : ascii) : bool :=
  is_digit c || is_upper c || is_lower c || (code c =? 95)%nat.

Definition lower_char (c : ascii) : ascii :=
  if is_upper c then ascii_of_nat (code c + 32) else c.

Definition upper_char (c : ascii) : ascii :=
  if is_lower c then ascii_of_nat (code c - 32) else c.

Definition chars (s : string) : list ascii := list_ascii_of_string s.
Definition text (l : list ascii) : string := string_of_list_ascii l.

(** [s.lower()] *)
Fixpoint lower (s : string) : string :=
  match s with
  | EmptyString => EmptyString
  | String c s' => String (lower_char c) (lower s')
  end.

(** [s.lstrip()], [s.strip()] *)
Fixpoint lstrip (s : string) : string :=
  match s with
  | EmptyString => EmptyString
  | String c s' => if is_space c then lstrip s' else s
  end.

Definition rev_string (s : string) : string := text (rev (chars s)).

Definition strip (s : string) : string :=
  rev_string (lstrip (rev_string (lstrip s))).

(** [s[:n]] *)
Fixpoint take (n : nat) (s : string) : string :=
  match n, s with
  | S n', String c s' => String c (take n' s')
  | _, _ => EmptyString
  end.

(** [s.split(sep)] for a non-empty separator: the occurrences of [sep] are
    found from the left and do not overlap.  [skip] counts the characters of
    the current occurrence still to be passed; [cur] is the field being
    read, reversed. *)
Fixpoint split_aux (sep s : string) (skip : nat) (cur : list ascii)
  : list string :=
  match s with
  | EmptyString => [text (rev cur)]
  | String c s' =>
      match skip with
      | S k => split_aux sep s' k cur
      | O =>
          if prefix sep s
          then text (rev cur) :: split_aux sep s' (String.length sep - 1) []
          else split_aux sep s' 0 (c :: cur)
      end
  end.

Definition split (sep s : string) : list string := split_aux sep s 0 [].

(** [s.replace(old, new)] for a non-empty [old]. *)
Definition replace (old new s : string) : string :=
  String.concat new (split old s).

(** [s.split()]: the maximal runs of non-blank characters. *)
Fixpoint words_aux (s : string) (cur : list ascii) : list string :=
  let flush := match cur with [] => [] | _ => [text (rev cur)] end in
  match s with
  | EmptyString => flush
  | String c s' =>
      if is_space c then (flush ++ words_aux s' [])%list else words_aux s' (c :: cur)
  end.

Definition words (s : string) : list string := words_aux s [].

(** [int(s)] on a string of decimal digits (the only strings the program
    converts are matched by [\d] patterns beforehand). *)
Definition digit_val (c : ascii) : nat := code c - 48.

Fixpoint int_aux (s : string) (acc : nat) : nat :=
  match s with
  | EmptyString => acc
  | String c s' => int_aux s' (10 * acc + digit_val c)
  end.

Definition int (s : string) : nat := int_aux s 0.

(** [str(n)] for a natural number. *)
Definition digit_char (d : nat) : ascii := ascii_of_nat (48 + d).

Fixpoint str_aux (fuel n : nat) (acc : string) : string :=
  match fuel with
  | O => acc
  | S fuel' =>
      let acc' := String (digit_char (n mod 10)) acc in
      if (n / 10 =? 0)%nat then acc' else str_aux fuel' (n / 10) acc'
  end.

Definition str (n : nat) : string := str_aux (S n) n EmptyString.

(** ["%0<w>d" % n]: decimal, padded with zeros on the left to width [w]. *)
Fixpoint zeros (n : nat) : string :=
  match n with
  | O => EmptyString
  | S n' => String "0" (zeros n')
  end.

Definition zfill (w n : nat) : string :=
  let s := str n in zeros (w - String.length s) ++ s.

(** The hyphen U+2010 as the program's source file holds it (UTF-8). *)
Definition u2010 : string :=
  String (ascii_of_nat 226) (String (ascii_of_nat 128)
    (String (ascii_of_nat 144) EmptyString)).

End Text.

(* ===================================================================== *)
(** * The [re] module *)
(* ===================================================================== *)

Module Re.
Import Text.

(** Character sets: [\d], [\w], [\s], [.], a literal, a range [lo-hi] and
    unions of them ([[A-Za-z]]). *)
Inductive cset : Type :=
| Digit
| Word
| Space
| Dot
| One (c : ascii)
| Range (lo hi : ascii)
| Or (a b : cset).

Fixpoint mem (cs : cset) (c : ascii) : bool :=
  match cs with
  | Digit => is_digit c
  | Word => is_word c
  | Space => is_space c
  | Dot => negb (code c =? 10)%nat
  | One x => (code x =? code c)%nat
  | Range lo hi => between (code lo) (code hi) c
  | Or a b => mem a c || mem b c
  end.

(** Under [re.IGNORECASE] a character belongs to a set when one of its two
    cases does. *)
Definition mem_flag (ci : bool) (cs : cset) (c : ascii) : bool :=
  if ci then mem cs c || mem cs (lower_char c) || mem cs (upper_char c)
  else mem cs c.

(** The patterns of the program: sets, sequences, alternatives, a greedy or
    lazy repetition [{lo,hi}] of a set ([hi = None] for no upper bound),
    numbered capture groups, a look-ahead [(?=...)] and a look-behind
    [(?<=...)] over a fixed sequence of sets. *)
Inductive regex : Type :=
| Eps
| Chr (cs : cset)
| Seq (a b : regex)
| Alt (a b : regex)
| Rep (greedy : bool) (lo : nat) (hi : option nat) (cs : cset)
| Grp (n : nat) (a : regex)
| Ahead (a : regex)
| Behind (l : list cset).

(** The position of the matcher in the subject: the characters passed
    (nearest first), the characters ahead, the groups captured so far. *)
Record pos : Type := mkPos {
  seen : list ascii;
  rest : list ascii;
  caps : list (nat * string)
}.

Definition step (p : pos) : option (ascii * pos) :=
  match rest p with
  | [] => None
  | c :: r => Some (c, mkPos (c :: seen p) r (caps p))
  end.

(** The text between two positions of one run. *)
Definition consumed (p q : pos) : string :=
  text (firstn (List.length (rest p) - List.length (rest q)) (rest p)).

Definition set_cap (n : nat) (s : string) (p : pos) : pos :=
  mkPos (seen p) (rest p) ((n, s) :: caps p).

Definition may_take (hi : option nat) : bool :=
  match hi with
  | Some O => false
  | _ => true
  end.

Definition dec_hi (hi : option nat) : option nat := option_map pred hi.

Section Matcher.
Variable ci : bool.
Context {A : Type}.

(** Greedy repetition: take one more character whenever possible and give
    it back only when the continuation fails. *)
Fixpoint rep_greedy (cs : cset) (lo : nat) (hi : option nat)
    (sn rs : list ascii) (cp : list (nat * string))
    (k : pos -> option A) : option A :=
  let stop := if (lo =? 0)%nat then k (mkPos sn rs cp) else None in
  match rs with
  | c :: rs' =>
      if mem_flag ci cs c && may_take hi then
        match rep_greedy cs (pred lo) (dec_hi hi) (c :: sn) rs' cp k with
        | Some a => Some a
        | None => stop
        end
      else stop
  | [] => stop
  end.

(** Lazy repetition: stop as soon as the lower bound is reached and take
    one more character only when the continuation fails. *)
Fixpoint rep_lazy (cs : cset) (lo : nat) (hi : option nat)
    (sn rs : list ascii) (cp : list (nat * string))
    (k : pos -> option A) : option A :=
  let more :=
    match rs with
    | c :: rs' =>
        if mem_flag ci cs c && may_take hi
        then rep_lazy cs (pred lo) (dec_hi hi) (c :: sn) rs' cp k
        else None
    | [] => None
    end in
  if (lo =? 0)%nat then
    match k (mkPos sn rs cp) with
    | Some a => Some a
    | None => more
    end
  else more.

Fixpoint behind_ok (l : list cset) (sn : list ascii) : bool :=
  match l, sn with
  | [], _ => true
  | cs :: l', c :: sn' => mem_flag ci cs c && behind_ok l' sn'
  | _ :: _, [] => false
  end.

End Matcher.

(** [exec ci r p k]: the first way, in the priority order of a backtracking
    matcher, of matching [r] at [p] such that the continuation [k]
    accepts the position reached. *)
Fixpoint exec (ci : bool) {A : Type} (r : regex) (p : pos)
    (k : pos -> option A) : option A :=
  match r with
  | Eps => k p
  | Chr cs =>
      match step p with
      | Some (c, p') => if mem_flag ci cs c then k p' else None
      | None => None
      end
  | Seq a b => exec ci a p (fun q => exec ci b q k)
  | Alt a b =>
      match exec ci a p k with
      | Some x => Some x
      | None => exec ci b p k
      end
  | Rep true lo hi cs => rep_greedy ci cs lo hi (seen p) (rest p) (caps p) k
  | Rep false lo hi cs => rep_lazy ci cs lo hi (seen p) (rest p) (caps p) k
  | Grp n a => exec ci a p (fun q => k (set_cap n (consumed p q) q))
  | Ahead a =>
      match exec ci a p (fun q => Some q) with
      | Some _ => k p
      | None => None
      end
  | Behind l => if behind_ok ci (rev l) (seen p) then k p else None
  end.

(** A match object: [m.group()] and the numbered groups. *)
Record rmatch : Type := mkMatch {
  whole : string;
  groups : list (nat * string)
}.

Fixpoint lookup (n : nat) (l : list (nat * string)) : option string :=
  match l with
  | [] => None
  | (m, s) :: l' => if (n =? m)%nat then Some s else lookup n l'
  end.

(** [m.group(n)], the empty string standing for a group that took no part
    (what [findall] reports for it). *)
Definition group (m : rmatch) (n : nat) : string :=
  match lookup n (groups m) with
  | Some s => s
  | None => ""
  end.

(** One attempt at a given position; [must_advance] refuses the empty
    match. *)
Definition attempt (ci : bool) (r : regex) (must_advance : bool)
    (sn rs : list ascii) : option rmatch :=
  let p := mkPos sn rs [] in
  exec ci r p (fun q =>
    if must_advance && (List.length (rest q) =? List.length rs)%nat
    then None
    else Some (mkMatch (consumed p q) (caps q))).

(** [re.match(r, s)]: the pattern is tried at the start of [s] only. *)
Definition rematch (ci : bool) (r : regex) (s : string) : option rmatch :=
  attempt ci r false [] (chars s).

(** The subject cut into the matches found from left to right ([Hit]) and
    the text between them ([Gap]).  After a match the search resumes where
    it ended; after an empty match a non-empty one is looked for at the same
    place before moving on by one character. *)
Inductive piece : Type :=
| Gap (s : string)
| Hit (m : rmatch).

Definition flush (gap : list ascii) : list piece :=
  match gap with
  | [] => []
  | _ => [Gap (text (rev gap))]
  end.

Fixpoint scan (ci : bool) (r : regex) (sn rs : list ascii) (skip : nat)
    (gap : list ascii) : list piece :=
  match rs with
  | [] =>
      match skip with
      | S _ => []
      | O =>
          match attempt ci r false sn [] with
          | Some m => flush gap ++ [Hit m]
          | None => flush gap
          end
      end
  | c :: rs' =>
      match skip with
      | S k => scan ci r (c :: sn) rs' k gap
      | O =>
          match attempt ci r false sn rs with
          | Some m =>
              match String.length (whole m) with
              | S n => flush gap ++ Hit m :: scan ci r (c :: sn) rs' n []
              | O =>
                  match attempt ci r true sn rs with
                  | Some m' =>
                      flush gap ++ Hit m :: Hit m' ::
                        scan ci r (c :: sn) rs' (String.length (whole m') - 1) []
                  | None =>
                      flush gap ++ Hit m :: scan ci r (c :: sn) rs' 0 [c]
                  end
              end
          | None => scan ci r (c :: sn) rs' 0 (c :: gap)
          end
      end
  end%list.

Definition pieces (r : regex) (s : string) : list piece :=
  scan false r [] (chars s) 0 [].

(** [r.finditer(s)] *)
Fixpoint hits (l : list piece) : list rmatch :=
  match l with
  | [] => []
  | Gap _ :: l' => hits l'
  | Hit m :: l' => m :: hits l'
  end.

Definition finditer (r : regex) (s : string) : list rmatch :=
  hits (pieces r s).

(** [r.sub(repl, s)] with a callable [repl] that reads and writes a
    variable of the enclosing function: [repl] is called on the matches in
    order with the current value of the variable; what it returns replaces
    the match, [None] counting as the empty string. *)
Fixpoint sub_pieces {S : Type} (repl : S -> rmatch -> S * option string)
    (l : list piece) (st : S) : S * string :=
  match l with
  | [] => (st, "")
  | Gap g :: l' =>
      let '(st', out) := sub_pieces repl l' st in (st', g ++ out)
  | Hit m :: l' =>
      let '(st1, o) := repl st m in
      let '(st2, out) := sub_pieces repl l' st1 in
      (st2, match o with Some x => x ++ out | None => out end)
  end.

Definition sub_call {S : Type} (r : regex)
    (repl : S -> rmatch -> S * option string) (s : string) (st : S)
  : S * string :=
  sub_pieces repl (pieces r s) st.

(** [r.sub(new, s)] with a constant replacement. *)
Definition sub (r : regex) (new : string) (s : string) : string :=
  snd (sub_call r (fun (u : unit) _ => (u, Some new)) s tt).

(** Pattern syntax helpers. *)
Fixpoint seq (l : list regex) : regex :=
  match l with
  | [] => Eps
  | [r] => r
  | r :: l' => Seq r (seq l')
  end.

Fixpoint alt (l : list regex) : regex :=
  match l with
  | [] => Eps
  | [r] => r
  | r :: l' => Alt r (alt l')
  end.

(** A literal word, character by character. *)
Fixpoint lit (s : string) : regex :=
  match s with
  | EmptyString => Eps
  | String c EmptyString => Chr (One c)
  | String c s' => Seq (Chr (One c)) (lit s')
  end.

Definition plus (cs : cset) : regex := Rep true 1 None cs.
Definition star (cs : cset) : regex := Rep true 0 None cs.
Definition times (lo hi : nat) (cs : cset) : regex := Rep true lo (Some hi) cs.

End Re.

(* ===================================================================== *)
(** * [datetime.strptime], [replace] and [strftime] *)
(* ===================================================================== *)

Module Strptime.
Import Text Re.

(** The directives the program uses. *)
Inductive directive : Type := Dm | Dd | DA | Da | DB | Db.

(** A format string, read left to right: a directive, a literal character,
    or a run of blanks (which [strptime] turns into [\s+]). *)
Inductive item : Type :=
| Dir (d : directive)
| Lit (c : ascii)
| Blank.

(** The names of the C locale, in lower case as [strptime] keeps them. *)
Definition f_weekday : list string :=
  ["monday"; "tuesday"; "wednesday"; "thursday"; "friday"; "saturday";
   "sunday"].
Definition a_weekday : list string :=
  ["mon"; "tue"; "wed"; "thu"; "fri"; "sat"; "sun"].
Definition f_month : list string :=
  ["january"; "february"; "march"; "april"; "may"; "june"; "july"; "august";
   "september"; "october"; "november"; "december"].
Definition a_month : list string :=
  ["jan"; "feb"; "mar"; "apr"; "may"; "jun"; "jul"; "aug"; "sep"; "oct";
   "nov"; "dec"].

(** [sorted(names, key=len, reverse=True)]: longest first, names of equal
    length in their original order. *)
Fixpoint insert_by_len (x : string) (l : list string) : list string :=
  match l with
  | [] => [x]
  | y :: l' =>
      if (String.length y <? String.length x)%nat then x :: l
      else y :: insert_by_len x l'
  end.

Definition sort_by_len (l : list string) : list string :=
  fold_left (fun acc x => insert_by_len x acc) l [].

(** The group a directive is captured in. *)
Definition group_of (d : directive) : nat :=
  match d with
  | Dm => 1 | Dd => 2 | DA => 3 | Da => 4 | DB => 5 | Db => 6
  end.

Definition seqToRE (names : list string) (d : directive) : regex :=
  Grp (group_of d) (alt (map lit (sort_by_len names))).

Definition digit_range (lo hi : ascii) : regex := Chr (Range lo hi).

(** The pattern of a directive, as [TimeRE] defines it:
    [%d] is [3[0-1]|[1-2]\d|0[1-9]|[1-9]| [1-9]] and
    [%m] is [1[0-2]|0[1-9]|[1-9]]. *)
Definition directive_re (d : directive) : regex :=
  match d with
  | Dd =>
      Grp (group_of Dd)
        (alt [Seq (lit "3") (digit_range "0" "1");
              Seq (digit_range "1" "2") (Chr Digit);
              Seq (lit "0") (digit_range "1" "9");
              digit_range "1" "9";
              Seq (lit " ") (digit_range "1" "9")])
  | Dm =>
      Grp (group_of Dm)
        (alt [Seq (lit "1") (digit_range "0" "2");
              Seq (lit "0") (digit_range "1" "9");
              digit_range "1" "9"])
  | DA => seqToRE f_weekday DA
  | Da => seqToRE a_weekday Da
  | DB => seqToRE f_month DB
  | Db => seqToRE a_month Db
  end.

Definition item_re (i : item) : regex :=
  match i with
  | Dir d => directive_re d
  | Lit c => Chr (One c)
  | Blank => plus Space
  end.

Definition pattern (fmt : list item) : regex := seq (map item_re fmt).

(** A calendar date. *)
Record date : Type := mkDate { year : nat; month : nat; day : nat }.

Definition is_leap (y : nat) : bool :=
  ((y mod 4 =? 0) && (negb (y mod 100 =? 0) || (y mod 400 =? 0)))%nat.

Definition days_in_month (y m : nat) : nat :=
  match m with
  | 2 => if is_leap y then 29 else 28
  | 4 | 6 | 9 | 11 => 30
  | _ => 31
  end.

(** [datetime.MAXYEAR], 9999 *)
Definition MAXYEAR : nat := 99 * 101.

(** [datetime(year, month, day)] raises [ValueError] outside these bounds. *)
Definition valid_date (d : date) : bool :=
  ((1 <=? year d) && (year d <=? MAXYEAR) &&
   (1 <=? month d) && (month d <=? 12) &&
   (1 <=? day d) && (day d <=? days_in_month (year d) (month d)))%nat.

(** [names.index(s)] *)
Fixpoint index_of (s : string) (names : list string) : option nat :=
  match names with
  | [] => None
  | x :: names' =>
      if (x =? s)%string then Some 0 else option_map S (index_of s names')
  end.

Definition month_of (m : rmatch) : nat :=
  match lookup (group_of Dm) (groups m) with
  | Some s => int s
  | None =>
      match lookup (group_of DB) (groups m) with
      | Some s =>
          match index_of (lower s) f_month with Some i => S i | None => 1 end
      | None =>
          match lookup (group_of Db) (groups m) with
          | Some s =>
              match index_of (lower s) a_month with
              | Some i => S i
              | None => 1
              end
          | None => 1
          end
      end
  end.

Definition day_of (m : rmatch) : nat :=
  match lookup (group_of Dd) (groups m) with
  | Some s => int (lstrip s)
  | None => 1
  end.

(** [datetime.strptime(s, fmt)] for a format without a year: the pattern of
    the format must match the whole of [s], case being ignored; the year is
    1900; the weekday read is not compared with the date.  [None] stands
    for the [ValueError] raised otherwise (no match, text left over, or a
    day the month does not have in 1900). *)
Definition strptime (s : string) (fmt : list item) : option date :=
  match rematch true (pattern fmt) s with
  | None => None
  | Some m =>
      if negb (String.length (whole m) =? String.length s)%nat then None
      else
        let d := mkDate 1900 (month_of m) (day_of m) in
        if valid_date d then Some d else None
  end.

(** [d.replace(year=y)]; [None] for [ValueError]. *)
Definition replace_year (d : date) (y : nat) : option date :=
  let d' := mkDate y (month d) (day d) in
  if valid_date d' then Some d' else None.

Definition capitalize (s : string) : string :=
  match s with
  | EmptyString => EmptyString
  | String c s' => String (upper_char c) s'
  end.

(** [d.strftime("%b %d, %Y")].  CPython hands the format to the C
    library's [strftime]; glibc writes [%Y] as the year in decimal without
    padding, so a year below 1000 has fewer than four digits ("999"). *)
Definition strftime (d : date) : string :=
  capitalize (nth (month d - 1) a_month "") ++ " " ++ zfill 2 (day d)
  ++ ", " ++ str (year d).

End Strptime.

(* ===================================================================== *)
(** * [Parse.py] *)
(* ===================================================================== *)

(** A data-frame cell: a [str], or missing ([NaN] or [None]). *)
Inductive value : Type :=
| Null
| Str (s : string).

(** A data frame as [tabula] returns it: the column labels and the rows,
    each row having one cell per column. *)
Record frame : Type := mkFrame {
  columns : list value;
  rows : list (list value)
}.

(** [row[i]] *)
Definition cell (row : list value) (i : nat) : value := nth i row Null.

(** A row of the schedule table. *)
Record srow : Type := mkRow {
  Days : value;
  Time : value;
  finalDate : value;
  finalTime : value
}.

Module Parse.
Import Text Re.

(** ** Module-level patterns *)

Definition hyphens : regex := Alt (lit u2010) (lit "-").

(** [dateSearch = \w+,\s\w+\s\d+] *)
Definition dateSearch : regex :=
  seq [plus Word; lit ","; Chr Space; plus Word; Chr Space; plus Digit].

(** [timeSearch = \d+:\d\d\s[PA]M\s*(‐|-)\s*\d+:\d\d [PA]M] *)
Definition timeSearch : regex :=
  seq [plus Digit; lit ":"; Chr Digit; Chr Digit; Chr Space;
       Chr (Or (One "P") (One "A")); lit "M"; star Space;
       Grp 1 hyphens; star Space;
       plus Digit; lit ":"; Chr Digit; Chr Digit; lit " ";
       Chr (Or (One "P") (One "A")); lit "M"].

(** [titleSearch = \d+:\d\d [AP]M\s+(‐|-)\s+\d+:\d\d\s[AP]M\sExams] *)
Definition titleSearch : regex :=
  seq [plus Digit; lit ":"; Chr Digit; Chr Digit; lit " ";
       Chr (Or (One "A") (One "P")); lit "M"; plus Space;
       Grp 1 hyphens; plus Space;
       plus Digit; lit ":"; Chr Digit; Chr Digit; Chr Space;
       Chr (Or (One "A") (One "P")); lit "M"; Chr Space; lit "Exams"].

(** ** [Parser.convertTimeGroup] *)

(** [((\d{1,2}):(\d{2}) (a|p)m)] *)
Definition time_token : regex :=
  Grp 1 (seq [Grp 2 (times 1 2 Digit); lit ":"; Grp 3 (times 2 2 Digit);
              lit " "; Grp 4 (Alt (lit "a") (lit "p")); lit "m"]).

(** The body of the [for time in matching_groups] loop: one tuple
    [(_, hour, minute, ampm)] to ["HHMM"]. *)
Definition convert_time (m : rmatch) : string :=
  let hour := group m 2 in
  let minute := group m 3 in
  let ampm := group m 4 in
  let new_hour :=
    str (int hour mod 12 + (if (ampm =? "p")%string then 12 else 0)) in
  let new_hour :=
    if (String.length new_hour =? 2)%nat then new_hour else "0" ++ new_hour in
  new_hour ++ minute.

(** [findall] returns a list, never [None], of tuples of the four groups,
    so of the two tests that return "TBA" only the count of the matches
    can hold. *)
Definition convertTimeGroup (time_group : string) : string :=
  let matching_groups := finditer time_token time_group in
  if negb (List.length matching_groups =? 2)%nat then "TBA"
  else String.concat " - " (map convert_time matching_groups).

(** ** [Parser.parseBlock] *)

Import Strptime.

(** The [formats] list of the local function [date]:
    ["%m/%d"], ["%m-%d"], ["%A, %b %d"], ["%A, %B %d"]. *)
Definition formats : list (list item) :=
  [ [Dir Dm; Lit "/"; Dir Dd];
    [Dir Dm; Lit "-"; Dir Dd];
    [Dir DA; Lit ","; Blank; Dir Db; Blank; Dir Dd];
    [Dir DA; Lit ","; Blank; Dir DB; Blank; Dir Dd] ].

(** One turn of [for fmt in formats]: the three calls of the [try] body;
    [None] when one of them raises [ValueError]. *)
Definition try_format (yr : nat) (raw_date : string) (fmt : list item)
  : option string :=
  match strptime raw_date fmt with
  | Some parsed_date =>
      match replace_year parsed_date yr with
      | Some parsed_date => Some (strftime parsed_date)
      | None => None
      end
  | None => None
  end.

(** The value the local function [date] leaves in [sectionDate] for the
    matched text [raw_date]: the first format that parses, else [None]. *)
Fixpoint date_of (yr : nat) (raw_date : string) (fmts : list (list item))
  : value :=
  match fmts with
  | [] => Null
  | fmt :: fmts' =>
      match try_format yr raw_date fmt with
      | Some s => Str s
      | None => date_of yr raw_date fmts'
      end
  end.

(** [date(n)] as a callback of [sub]: it assigns [sectionDate] and returns
    [None]. *)
Definition date (yr : nat) (sectionDate : value) (n : rmatch)
  : value * option string :=
  (date_of yr (whole n) formats, None).

(** [time(n)] as a callback of [sub]: it assigns [sectionTime] when that is
    still empty and returns [None]. *)
Definition time (sectionTime : string) (n : rmatch)
  : string * option string :=
  if (sectionTime =? "")%string
  then (convertTimeGroup (lower (whole n)), None)
  else (sectionTime, None).

(** The two variables carried across the rows of a block. *)
Record acc : Type := mkAcc {
  sectionDate : value;
  sectionTime : string
}.

Definition acc0 : acc := mkAcc (Str "") "".

(** The two substitutions [dateSearch.sub(date, .)] and
    [timeSearch.sub(time, .)] on a cell text: the variables after them and
    the text they leave. *)
Definition announce (yr : nat) (a : acc) (s : string) : acc * string :=
  let '(sd, s1) := sub_call dateSearch (date yr) s (sectionDate a) in
  let '(st, s2) := sub_call timeSearch time s1 (sectionTime a) in
  (mkAcc sd st, s2).

(** [hyphen = (?<=[ap]m)\s(?=\d)] *)
Definition hyphen : regex :=
  seq [Behind [Or (One "a") (One "p"); One "m"]; Chr Space;
       Ahead (Chr Digit)].

(** Version 1, the body of [for index, row in block.iterrows()].  A missing
    cell makes [dateSearch.sub] raise [TypeError], which the [except] clause
    swallows before anything was assigned. *)
Definition row_v1 (yr : nat) (a : acc) (row : list value) : acc * srow :=
  match cell row 1 with
  | Str s =>
      let '(a', s2) := announce yr a s in
      let s3 := sub hyphen " - " (lower s2) in
      let s4 := convertTimeGroup s3 in
      (a', mkRow (cell row 0) (Str s4) (sectionDate a') (Str (sectionTime a')))
  | Null =>
      (a, mkRow (cell row 0) Null (sectionDate a) (Str (sectionTime a)))
  end.

(** The loop over the rows, the variables threaded through. *)
Fixpoint loop_v1 (yr : nat) (a : acc) (rs : list (list value)) : list srow :=
  match rs with
  | [] => []
  | row :: rs' =>
      let '(a', out) := row_v1 yr a row in out :: loop_v1 yr a' rs'
  end.

Definition set_finalTime (r : srow) (v : value) : srow :=
  mkRow (Days r) (Time r) (finalDate r) v.

(** [block['finalTime'].iloc[0] = block['finalTime'].iloc[1]]: without rows
    there is no such column, with one row there is no position 1. *)
Definition backfill (out : list srow) : result (list srow) :=
  match out with
  | [] => Raise KeyError
  | [_] => Raise IndexError
  | r0 :: r1 :: out' => Ok (set_finalTime r0 (finalTime r1) :: r1 :: out')
  end.

(** [block.columns = ["Days", "Time"]] needs exactly two columns. *)
Definition two_columns (block : frame) : result unit :=
  if (List.length (columns block) =? 2)%nat then Ok tt else Raise ValueError.

Definition parseBlock_v1 (yr : nat) (block : frame) : result (list srow) :=
  _ <- two_columns block ;;
  backfill (loop_v1 yr acc0 (rows block)).

(** Version 2. *)

(** [for c in block.columns: if titleSearch.match(c): break] and whether the
    [else] branch of the loop runs. *)
Fixpoint title_in_columns (cols : list value) : result bool :=
  match cols with
  | [] => Ok false
  | Null :: _ => Raise TypeError
  | Str c :: cols' =>
      match rematch false titleSearch c with
      | Some _ => Ok true
      | None => title_in_columns cols'
      end
  end.

(** [block.drop(index=0)] followed by [reset_index(drop=True)]. *)
Definition drop_first (rs : list (list value)) : result (list (list value)) :=
  match rs with
  | [] => Raise KeyError
  | _ :: rs' => Ok rs'
  end.

(** [([A-Za-z]+)\s*\r?\s*(\d{1,2}:\d{2} [AP]M)\s*(\d{1,2}:\d{2} [AP]M)] *)
Definition clock : regex :=
  seq [times 1 2 Digit; lit ":"; times 2 2 Digit; lit " ";
       Chr (Or (One "A") (One "P")); lit "M"].

Definition schedule_pattern : regex :=
  seq [Grp 1 (plus (Or (Range "A" "Z") (Range "a" "z")));
       star Space; Rep true 0 (Some 1) (One (ascii_of_nat 13)); star Space;
       Grp 2 clock; star Space; Grp 3 clock].

(** [split_schedule]: the three groups, or [(None, None, None)]. *)
Definition split_schedule (schedule : string) : value * value * value :=
  match rematch false schedule_pattern schedule with
  | Some matches =>
      (Str (group matches 1), Str (group matches 2), Str (group matches 3))
  | None => (Null, Null, Null)
  end.

(** [v.lower()]: [None] has no such attribute. *)
Definition lower_value (v : value) : result string :=
  match v with
  | Str s => Ok (lower s)
  | Null => Raise AttributeError
  end.

(** The body of the loop of version 2. *)
Definition row_v2 (yr : nat) (a : acc) (row : list value)
  : result (acc * srow) :=
  match cell row 0 with
  | Null => Raise TypeError
  | Str c0 =>
      let '(days, start_time, end_time) := split_schedule c0 in
      let a' :=
        match cell row 1 with
        | Str s => fst (announce yr a s)
        | Null => a
        end in
      st <- lower_value start_time ;;
      en <- lower_value end_time ;;
      Ok (a', mkRow days (Str (convertTimeGroup (st ++ " - " ++ en)))
                (sectionDate a') (Str (sectionTime a')))
  end.

Fixpoint loop_v2 (yr : nat) (a : acc) (rs : list (list value))
  : result (list srow) :=
  match rs with
  | [] => Ok []
  | row :: rs' =>
      x <- row_v2 yr a row ;;
      out <- loop_v2 yr (fst x) rs' ;;
      Ok (snd x :: out)
  end.

Definition parseBlock_v2 (yr : nat) (block : frame) : result (list srow) :=
  titled <- title_in_columns (columns block) ;;
  rs <- (if titled then Ok (rows block) else drop_first (rows block)) ;;
  rs <- drop_first rs ;;
  _ <- two_columns block ;;
  loop_v2 yr acc0 rs.

(** [parseBlock(block, version)]; an unknown version prints a message and
    returns [None]. *)
Definition parseBlock (yr : nat) (block : frame) (version : nat)
  : result (option (list srow)) :=
  match version with
  | 1 => out <- parseBlock_v1 yr block ;; Ok (Some out)
  | 2 => out <- parseBlock_v2 yr block ;; Ok (Some out)
  | _ => Ok None
  end.

(** ** [Parser.setFirstRowAsHeader] *)

Definition setFirstRowAsHeader (df : frame) : result frame :=
  match rows df with
  | [] => Raise IndexError
  | header :: rs => Ok (mkFrame header rs)
  end.

(** ** [Parser.parseCommon] *)

Definition is_null (v : value) : bool :=
  match v with
  | Null => true
  | Str _ => false
  end.

Definition value_eqb (a b : value) : bool :=
  match a, b with
  | Null, Null => true
  | Str x, Str y => (x =? y)%string
  | _, _ => false
  end.

(** [label in df.columns] *)
Definition in_columns (label : string) (df : frame) : bool :=
  existsb (value_eqb (Str label)) (columns df).

(** The last chunk with a column labelled "Common Exams". *)
Fixpoint find_common (read : list frame) (df : option frame) : option frame :=
  match read with
  | [] => df
  | chunk :: read' =>
      find_common read'
        (if in_columns "Common Exams" chunk then Some chunk else df)
  end.

(** [df.dropna(axis=1, how='all')]: a column stays when one of its cells is
    not missing. *)
Definition column_kept (rs : list (list value)) (j : nat) : bool :=
  existsb (fun row => negb (is_null (cell row j))) rs.

Fixpoint pick {A} (mask : list bool) (l : list A) : list A :=
  match mask, l with
  | true :: mask', x :: l' => x :: pick mask' l'
  | false :: mask', _ :: l' => pick mask' l'
  | _, _ => []
  end.

Definition dropna_columns (df : frame) : frame :=
  let mask :=
    map (column_kept (rows df)) (List.seq 0 (List.length (columns df))) in
  mkFrame (pick mask (columns df)) (map (pick mask) (rows df)).

(** [(None|.+?)([A-z]{3,5}, \w{3} \d{1,2})] *)
Definition course_date : regex :=
  Seq (Grp 1 (Alt (lit "None") (Rep false 1 None Dot)))
      (Grp 2 (seq [times 3 5 (Range "A" "z"); lit ", "; times 3 3 Word;
                   lit " "; times 1 2 Digit])).

(** The loop of the [try] block over a frame relabelled
    [['Course', 'Date']]: a row whose first cell matches gets its three
    cells; the others keep their two cells and have no [Time].  The flag
    tells whether the column [Time] was created. *)
Definition resplit_row (row : list value) : result (bool * list value) :=
  match cell row 0 with
  | Null => Raise TypeError
  | Str s =>
      match rematch false course_date s with
      | Some m => Ok (true, [Str (group m 1); Str (group m 2); cell row 1])
      | None => Ok (false, [cell row 0; cell row 1; Null])
      end
  end.

Definition resplit (df : frame) : result frame :=
  _ <- two_columns df ;;
  rs <- mapM resplit_row (rows df) ;;
  if existsb fst rs
  then Ok (mkFrame [Str "Course"; Str "Date"; Str "Time"] (map snd rs))
  else Ok (mkFrame [Str "Course"; Str "Date"] (map (fun r => firstn 2 (snd r)) rs)).

(** [try: ... df = tempdf.copy() except Exception: pass] *)
Definition try_resplit (df : frame) : frame :=
  match resplit df with
  | Ok tempdf => tempdf
  | Raise _ => df
  end.

(** The position of a column label (labels taken to be distinct). *)
Fixpoint column_index (label : string) (cols : list value) : result nat :=
  match cols with
  | [] => Raise KeyError
  | c :: cols' =>
      if value_eqb (Str label) c then Ok 0
      else i <- column_index label cols' ;; Ok (S i)
  end.

(** A row of the common-exam table while it is built. *)
Record crow : Type := mkCrow {
  Course : string;
  Date : string;
  CTime : string
}.

(** [df[['Course', 'Date', 'Time']]] *)
Definition select3 (df : frame) : result (list (value * value * value)) :=
  i <- column_index "Course" (columns df) ;;
  j <- column_index "Date" (columns df) ;;
  k <- column_index "Time" (columns df) ;;
  Ok (map (fun row => (cell row i, cell row j, cell row k)) (rows df)).

Definition CR : string := String (ascii_of_nat 13) EmptyString.

(** [strip_carriage_return]; a missing cell has no [replace]. *)
Definition strip_carriage_return (v : value) : result string :=
  match v with
  | Str s => Ok (replace CR "" s)
  | Null => Raise AttributeError
  end.

(** The three [apply(strip_carriage_return)], column after column. *)
Definition strip_columns (l : list (value * value * value))
  : result (list crow) :=
  cs <- mapM (fun r => strip_carriage_return (fst (fst r))) l ;;
  ds <- mapM (fun r => strip_carriage_return (snd (fst r))) l ;;
  ts <- mapM (fun r => strip_carriage_return (snd r)) l ;;
  Ok (map (fun x => mkCrow (fst (fst x)) (snd (fst x)) (snd x))
        (combine (combine cs ds) ts)).

(** [day = \w+(?=,)] and [day.sub(lambda match: match.group()[:3], val)] *)
Definition day : regex := Seq (plus Word) (Ahead (lit ",")).

Definition abbreviate (val : string) : string :=
  snd (sub_call day (fun (u : unit) m => (u, Some (take 3 (whole m)))) val tt).

(** The local function [convert]: ["%a, %b %d"], and ["%a, %B %d"] when the
    first raises [ValueError]. *)
Definition convert (yr : nat) (val : string) : result string :=
  let string_ := abbreviate val in
  match try_format yr string_ [Dir Da; Lit ","; Blank; Dir Db; Blank; Dir Dd] with
  | Some d => Ok d
  | None =>
      match try_format yr string_
              [Dir Da; Lit ","; Blank; Dir DB; Blank; Dir Dd] with
      | Some d => Ok d
      | None => Raise ValueError
      end
  end.

(** [df.explode(column="Course")] after the column was mapped to lists. *)
Definition explode (l : list (list string * crow)) : list crow :=
  flat_map (fun x => map (fun c => mkCrow c (Date (snd x)) (CTime (snd x)))
                       (fst x)) l.

(** The local function [splitCourse]. *)
Definition splitCourse (string_ : string) : result (list string) :=
  match words string_ with
  | course :: numbers :: _ =>
      Ok (map (fun number => course ++ " " ++ number) (split "/" numbers))
  | _ => Raise IndexError
  end.

(** [x.str.strip()] then [x.str.replace("‐", "-")] on a string cell. *)
Definition clean (s : string) : string := replace u2010 "-" (strip s).

(** The body of [parseCommon] from the chunk found on, in four stretches:
    up to the removal of the "None" rows; the conversion of the dates; the
    two [explode]; the final [strip] and [replace] of the columns left
    beside the index. *)
Definition rows_of (df : frame) : result (list crow) :=
  df <- setFirstRowAsHeader df ;;
  let df := dropna_columns df in
  let df := try_resplit df in
  l <- select3 df ;;
  l <- strip_columns l ;;
  let l := map (fun r => mkCrow (Course r) (Date r)
                           (convertTimeGroup (lower (CTime r)))) l in
  Ok (filter (fun r => negb (Course r =? "None")%string) l).

Definition dated (yr : nat) (l : list crow) : result (list crow) :=
  mapM (fun r => d <- convert yr (Date r) ;; Ok (mkCrow (Course r) d (CTime r)))
       l.

Definition expand (l : list crow) : result (list crow) :=
  let l := explode (map (fun r => (split ", " (Course r), r)) l) in
  l <- mapM (fun r => cs <- splitCourse (Course r) ;; Ok (cs, r)) l ;;
  Ok (explode l).

Definition clean_crow (r : crow) : crow :=
  mkCrow (Course r) (clean (Date r)) (clean (CTime r)).

Definition common_of (yr : nat) (df : frame) : result (list crow) :=
  l <- rows_of df ;;
  l <- dated yr l ;;
  l <- expand l ;;
  Ok (map clean_crow l).

(** [parseCommon]: [self.common] afterwards; [None] is the empty frame the
    constructor left there ([self.read] is [None], or no chunk is
    found). *)
Definition parseCommon (yr : nat) (read : option (list frame))
  : result (option (list crow)) :=
  match read with
  | None => Ok None
  | Some read =>
      match find_common read None with
      | None => Ok None
      | Some df => l <- common_of yr df ;; Ok (Some l)
      end
  end.

(** ** The assembling loops of [parseFile] *)

Definition clean_value (v : value) : value :=
  match v with
  | Str s => Str (clean s)
  | Null => Null
  end.

Definition clean_row (r : srow) : srow :=
  mkRow (clean_value (Days r)) (clean_value (Time r))
        (clean_value (finalDate r)) (clean_value (finalTime r)).

(** [pd.concat([schedule, block])]; [None] is the frame without columns
    that [pd.DataFrame()] makes. *)
Definition concat_rows (schedule : option (list srow)) (block : list srow)
  : option (list srow) :=
  match schedule with
  | None => Some block
  | Some rs => Some (rs ++ block)%list
  end.

(** The last three statements of every [parseFile]: the two [apply] and
    [set_index(['Days', 'Time'])], which fails on a frame without these
    columns and otherwise keeps every row. *)
Definition finish (schedule : option (list srow)) : result (list srow) :=
  match schedule with
  | None => Raise KeyError
  | Some rs => Ok (map clean_row rs)
  end.

(** The index entry of a row. *)
Definition key (r : srow) : value * value := (Days r, Time r).

(** [ParserV2.parseFile] from [self.read] on. *)
Definition skipped (chunk : frame) : bool :=
  in_columns "Reading and Conflict Periods" chunk
  || in_columns "Common Exams" chunk.

Fixpoint loop_chunks_v2 (yr : nat) (read : list frame)
    (schedule : option (list srow)) : result (option (list srow)) :=
  match read with
  | [] => Ok schedule
  | chunk :: read' =>
      if skipped chunk then loop_chunks_v2 yr read' schedule
      else
        block <- parseBlock_v2 yr chunk ;;
        loop_chunks_v2 yr read' (concat_rows schedule block)
  end.

Definition schedule_v2 (yr : nat) (read : list frame) : result (list srow) :=
  schedule <- loop_chunks_v2 yr read None ;;
  finish schedule.

(** [ParserV3.parseFile]: the same after [chunk = chunk.iloc[:, :2]]. *)
Definition first_two (chunk : frame) : frame :=
  mkFrame (firstn 2 (columns chunk)) (map (firstn 2) (rows chunk)).

Definition schedule_v3 (yr : nat) (read : list frame) : result (list srow) :=
  schedule_v2 yr (map first_two read).

(** [ParserV1.getColumns] and [ParserV1.parseFile] from [self.read] on. *)

(** [l[start:stop]] with Python's reading of negative and overlong
    bounds. *)
Definition bound (n : nat) (i : Z) : nat :=
  if (i <? 0)%Z then Z.to_nat (Z.max 0 (i + Z.of_nat n))
  else Nat.min (Z.to_nat i) n.

Definition slice {A} (l : list A) (start stop : Z) : list A :=
  let a := bound (List.length l) start in
  let b := bound (List.length l) stop in
  firstn (b - a) (skipn a l).

(** [sub in s] for strings. *)
Fixpoint contains (sub s : string) : bool :=
  prefix sub s ||
  match s with
  | EmptyString => false
  | String _ s' => contains sub s'
  end.

(** The position of the first row whose cell [j] is missing, else the
    number of rows. *)
Fixpoint first_missing (rs : list (list value)) (j : nat) : nat :=
  match rs with
  | [] => 0
  | row :: rs' => if is_null (cell row j) then 0 else S (first_missing rs' j)
  end.

(** The test [isinstance(block.iloc[0, idx+1], str) and "Exam Date/Time" in
    block.iloc[0, idx+1]]; a frame without rows has no position 0. *)
Definition extra_column (block : frame) (idx : nat) : result bool :=
  match rows block with
  | [] => Raise IndexError
  | row0 :: _ =>
      match cell row0 (S idx) with
      | Str s => Ok (contains "Exam Date/Time" s)
      | Null => Ok false
      end
  end.

(** One turn of [for idx, column in enumerate(block.columns)]: the triple
    [[start, end, terminate]] appended, if any. *)
Definition column_entry (block : frame) (idx : nat) (column : value)
  : result (option (Z * Z * nat)) :=
  match column with
  | Null => Raise TypeError
  | Str c =>
      match rematch false titleSearch c with
      | None => Ok None
      | Some _ =>
          let i := Z.of_nat idx in
          wide <- (if (idx =? List.length (columns block) - 1)%nat
                   then Ok false else extra_column block idx) ;;
          let stop := if wide then (i + 1)%Z else i in
          Ok (Some ((i - 1)%Z, stop, first_missing (rows block) idx))
      end
  end.

Fixpoint getColumns_from (block : frame) (idx : nat) (cols : list value)
  : result (list (Z * Z * nat)) :=
  match cols with
  | [] => Ok []
  | column :: cols' =>
      e <- column_entry block idx column ;;
      es <- getColumns_from block (S idx) cols' ;;
      Ok (match e with Some x => x :: es | None => es end)
  end.

Definition getColumns (block : frame) : result (list (Z * Z * nat)) :=
  getColumns_from block 0 (columns block).

(** [chunk.iloc[:terminate, start:end+1]] *)
Definition iloc (chunk : frame) (terminate : nat) (start stop : Z) : frame :=
  mkFrame (slice (columns chunk) start (stop + 1))
          (map (fun row => slice row start (stop + 1))
               (firstn terminate (rows chunk))).

(** The repair of a section cut into three columns: the second and third
    cells, missing ones read as empty, joined by a blank and stripped; the
    third column is then dropped. *)
Definition text_of (v : value) : string :=
  match v with
  | Str s => s
  | Null => ""
  end.

Definition merge_row (row : list value) : list value :=
  [cell row 0; Str (strip (text_of (cell row 1) ++ " " ++ text_of (cell row 2)))].

Definition fix_three (df : frame) : frame :=
  if (List.length (columns df) =? 3)%nat
  then mkFrame (firstn 2 (columns df)) (map merge_row (rows df))
  else df.

(** [df.columns[1]] *)
Definition second_label (df : frame) : result value :=
  match columns df with
  | _ :: label :: _ => Ok label
  | _ => Raise IndexError
  end.

(** [block = df.drop(index=0).iloc[:, :2].copy()] then
    [block.columns = block.iloc[0]]. *)
Definition block_of (df : frame) : result frame :=
  rs <- drop_first (rows df) ;;
  let rs := map (firstn 2) rs in
  match rs with
  | [] => Raise IndexError
  | row0 :: _ => Ok (mkFrame row0 rs)
  end.

(** The state of the two nested loops: the schedule so far and the set
    [sections] of the labels already parsed. *)
Record v1_state : Type := mkV1 {
  v1_schedule : option (list srow);
  v1_sections : list value
}.

Definition section_v1 (yr : nat) (chunk : frame) (st : v1_state)
    (c : Z * Z * nat) : result v1_state :=
  let '(start, stop, terminate) := c in
  let df := fix_three (iloc chunk terminate start stop) in
  label <- second_label df ;;
  if existsb (value_eqb label) (v1_sections st) then Ok st
  else
    block <- block_of df ;;
    out <- parseBlock_v1 yr block ;;
    Ok (mkV1 (concat_rows (v1_schedule st) out) (label :: v1_sections st)).

Fixpoint loop_sections_v1 (yr : nat) (chunk : frame) (st : v1_state)
    (cs : list (Z * Z * nat)) : result v1_state :=
  match cs with
  | [] => Ok st
  | c :: cs' =>
      st' <- section_v1 yr chunk st c ;;
      loop_sections_v1 yr chunk st' cs'
  end.

Fixpoint loop_chunks_v1 (yr : nat) (read : list frame) (st : v1_state)
  : result v1_state :=
  match read with
  | [] => Ok st
  | chunk :: read' =>
      cs <- getColumns chunk ;;
      st' <- loop_sections_v1 yr chunk st cs ;;
      loop_chunks_v1 yr read' st'
  end.

Definition schedule_v1 (yr : nat) (read : list frame) : result (list srow) :=
  st <- loop_chunks_v1 yr read (mkV1 None []) ;;
  finish (v1_schedule st).

End Parse.

(* ===================================================================== *)
(** * [Revise.py] *)
(* ===================================================================== *)

Module Revise.
Import Text Re Parse.

(** ** JSON values and the Python operations on them *)

(** A Python [float] as [json.load] makes them: the number [m * 2 ^ e], an
    infinity, or a NaN. *)
Inductive pyfloat : Type :=
| Finite (m e : Z)
| Infinite
| NaN.

(** What [json.load] returns: [None], [bool], [int], [float], [str], [list]
    and [dict] (whose keys are strings). *)
#[local] Unset Elimination Schemes.
Inductive json : Type :=
| JNull
| JBool (b : bool)
| JNum (n : Z)
| JFloat (x : pyfloat)
| JStr (s : string)
| JList (l : list json)
| JDict (d : list (string * json)).
#[local] Set Elimination Schemes.

(** [len(x)] *)
Definition len (x : json) : result nat :=
  match x with
  | JList l => Ok (List.length l)
  | JStr s => Ok (String.length s)
  | JDict d => Ok (List.length d)
  | JNull | JBool _ | JNum _ | JFloat _ => Raise TypeError
  end.

(** The position an integer index denotes in a sequence of [n] items. *)
Definition position (n : nat) (i : Z) : result nat :=
  if ((0 <=? i) && (i <? Z.of_nat n))%Z then Ok (Z.to_nat i)
  else if ((i <? 0) && (0 <=? i + Z.of_nat n))%Z
       then Ok (Z.to_nat (i + Z.of_nat n))
       else Raise IndexError.

(** [x[i]] for an integer [i] *)
Definition getitem (x : json) (i : Z) : result json :=
  match x with
  | JList l => p <- position (List.length l) i ;; Ok (nth p l JNull)
  | JStr s =>
      p <- position (String.length s) i ;;
      Ok (JStr (substring p 1 s))
  | JDict _ => Raise KeyError
  | JNull | JBool _ | JNum _ | JFloat _ => Raise TypeError
  end.

(** [d[k]] for a dictionary and a string key *)
Fixpoint assoc {A} (k : string) (d : list (string * A)) : option A :=
  match d with
  | [] => None
  | (k', v) :: d' => if (k =? k')%string then Some v else assoc k d'
  end.

Definition getkey (d : list (string * json)) (k : string) : result json :=
  match assoc k d with
  | Some v => Ok v
  | None => Raise KeyError
  end.

(** [x[k]] for a value [k] read from the document.  A list or a string is
    indexed by an [int] ([bool] is one); a dictionary has string keys
    only, so another hashable key is missing from it and a list or a
    dictionary as key is unhashable. *)
Definition getitem_json (x : json) (k : json) : result json :=
  match k with
  | JNum i => getitem x i
  | JBool b => getitem x (if b then 1 else 0)%Z
  | JStr key =>
      match x with
      | JDict d => getkey d key
      | _ => Raise TypeError
      end
  | JNull | JFloat _ =>
      match x with
      | JDict _ => Raise KeyError
      | _ => Raise TypeError
      end
  | JList _ | JDict _ => Raise TypeError
  end.

(** [d[k] = v]: the entry is replaced in place, or added at the end. *)
Fixpoint setkey {A} (d : list (string * A)) (k : string) (v : A)
  : list (string * A) :=
  match d with
  | [] => [(k, v)]
  | (k', v') :: d' =>
      if (k =? k')%string then (k, v) :: d' else (k', v') :: setkey d' k v
  end.

(** [l[p] = v] at a position inside the list. *)
Fixpoint update {A} (l : list A) (p : nat) (v : A) : list A :=
  match l, p with
  | [], _ => []
  | _ :: l', O => v :: l'
  | x :: l', S p' => x :: update l' p' v
  end.

(** [x[i] = v] *)
Definition setitem (x : json) (i : Z) (v : json) : result json :=
  match x with
  | JList l => p <- position (List.length l) i ;; Ok (JList (update l p v))
  | _ => Raise TypeError
  end.

Definition all_digits (s : string) : bool :=
  forallb is_digit (chars s).

(** The digits of a decimal literal, in which single underscores may stand
    between digits: the digits read so far are [acc], last first. *)
Fixpoint literal_digits (l : list ascii) (after_digit : bool)
    (acc : list ascii) : option (list ascii) :=
  match l with
  | [] => if after_digit then Some (rev acc) else None
  | c :: l' =>
      if is_digit c then literal_digits l' true (c :: acc)
      else if (code c =? 95)%nat && after_digit
           then literal_digits l' false acc
           else None
  end.

(** The longest digit string [int] converts (sys.int_max_str_digits). *)
Definition max_str_digits : nat := 4300.

(** [int(s)] for a string: blanks around, an optional sign, then the
    digits. *)
Definition int_of_string (s : string) : result Z :=
  let '(negative, l) :=
    match chars (strip s) with
    | c :: l' =>
        if (code c =? 45)%nat then (true, l')
        else if (code c =? 43)%nat then (false, l')
        else (false, c :: l')
    | [] => (false, [])
    end in
  match literal_digits l false [] with
  | Some ds =>
      if (max_str_digits <? List.length ds)%nat then Raise ValueError
      else
        let n := Z.of_nat (int (text ds)) in
        Ok (if negative then (- n)%Z else n)
  | None => Raise ValueError
  end.

(** [int(x)] for a float: the integer part, towards zero. *)
Definition trunc (m e : Z) : Z :=
  if (0 <=? e)%Z then (m * 2 ^ e)%Z else Z.quot m (2 ^ (- e)).

(** [int(x)] *)
Definition int_of (x : json) : result Z :=
  match x with
  | JNum n => Ok n
  | JBool b => Ok (if b then 1 else 0)%Z
  | JFloat (Finite m e) => Ok (trunc m e)
  | JFloat Infinite => Raise OverflowError
  | JFloat NaN => Raise ValueError
  | JStr s => int_of_string s
  | JNull | JList _ | JDict _ => Raise TypeError
  end.

(** ** [class Section] *)

Record section : Type := mkSection {
  period : json;
  days : json;
  credits : Z;
  scheduleType : json;
  obj : json
}.

(** [Section.__init__(data)], [cache] being the class attribute. *)
Definition Section (cache : list (string * json)) (data : json)
  : result section :=
  meetings <- getitem data 1 ;;
  n <- len meetings ;;
  if (n =? 0)%nat then Raise LookupError
  else
    info <- getitem meetings 0 ;;
    periodIdx <- getitem info 0 ;;
    days <- getitem info 1 ;;
    credits <- getitem data 2 ;;
    scheduleTypeIdx <- getitem data 3 ;;
    periods <- getkey cache "periods" ;;
    period <- getitem_json periods periodIdx ;;
    scheduleTypes <- getkey cache "scheduleTypes" ;;
    scheduleType <- getitem_json scheduleTypes scheduleTypeIdx ;;
    credits <- int_of credits ;;
    Ok (mkSection period days credits scheduleType data).

(** [section.set(idx, val)]: [self.obj[1][0][idx] = val].  The object is the
    section's entry of the document itself, so the entry changes. *)
Definition set (s : section) (idx : Z) (val : json) : result section :=
  meetings <- getitem (obj s) 1 ;;
  info <- getitem meetings 0 ;;
  info' <- setitem info idx val ;;
  meetings' <- setitem meetings 0 info' ;;
  obj' <- setitem (obj s) 1 meetings' ;;
  Ok (mkSection (period s) (days s) (credits s) (scheduleType s) obj').

(** ** [Revise.process] *)

(** The term document [data]: its dictionaries [caches] and [courses]. *)
Record term : Type := mkTerm {
  caches : list (string * json);
  courses : list (string * json)
}.

(** [np.unique]: the distinct strings in increasing order. *)
Fixpoint insert_sorted (x : string) (l : list string) : list string :=
  match l with
  | [] => [x]
  | y :: l' =>
      match String.compare x y with
      | Lt => x :: l
      | Eq => l
      | Gt => y :: insert_sorted x l'
      end
  end.

Definition unique (l : list string) : list string :=
  fold_right insert_sorted [] l.

(** The strings of an array; a missing value cannot be ordered against
    another value, and the comparison raises [TypeError]. *)
Definition strings (l : list value) : result (list string) :=
  mapM (fun v => match v with Str s => Ok s | Null => Raise TypeError end) l.

(** [Series.unique()]: the distinct values of a column in the order of
    their first appearance, a missing value among them. *)
Definition first_seen (l : list value) : list value :=
  fold_left (fun seen v =>
               if existsb (value_eqb v) seen then seen else (seen ++ [v])%list)
            l [].

(** [np.unique] (and [np.sort] after it) on an array of objects: sorting
    compares the items, which takes at least two of them; an array of one
    item, be it [None], is returned as it is. *)
Definition np_unique (l : list value) : result (list value) :=
  match l with
  | [] | [_] => Ok l
  | _ => s <- strings l ;; Ok (map Str (unique s))
  end.

(** The lists [dates] and [times] of [process]. *)
Definition distinct (schedule : list srow) (common : option (list crow))
    (of_row : srow -> value) (of_common : crow -> string)
  : result (list value) :=
  match schedule with
  | [] => Ok []
  | _ =>
      match common with
      | None => Raise KeyError
      | Some cs =>
          np_unique (first_seen (map of_row schedule)
                     ++ first_seen (map (fun c => Str (of_common c)) cs))%list
      end
  end.

(** [int(np.where(l == v)[0][0])] for one value [v]. *)
Fixpoint where_ (l : list value) (v : value) : result nat :=
  match l with
  | [] => Raise IndexError
  | x :: l' =>
      if value_eqb x v then Ok 0 else i <- where_ l' v ;; Ok (S i)
  end.

(** The same when [.loc] found several rows and [v] is a column of them:
    the two sequences must have one length and are compared item by
    item. *)
Fixpoint where_zip (l : list value) (vs : list value) : result nat :=
  match l, vs with
  | x :: l', v :: vs' =>
      if value_eqb x v then Ok 0 else i <- where_zip l' vs' ;; Ok (S i)
  | _, _ => Raise IndexError
  end.

Definition where_all (l : list value) (vs : list value) : result nat :=
  if (List.length l =? List.length vs)%nat then where_zip l vs
  else Raise ValueError.

(** What [.loc] hands back: one row, or the frame of the rows found. *)
Inductive found (A : Type) : Type :=
| One_row (r : A)
| Rows (rs : list A).
Arguments One_row {A} r.
Arguments Rows {A} rs.

Definition position_of {A} (l : list value) (f : found A) (col : A -> value)
  : result nat :=
  match f with
  | One_row r => where_ l (col r)
  | Rows rs => where_all l (map col rs)
  end.

(** [self.common.loc[course]]: a label found once gives its row. *)
Definition common_loc (common : list crow) (course : string)
  : option (found crow) :=
  match filter (fun r => (Course r =? course)%string) common with
  | [] => None
  | [r] => Some (One_row r)
  | rs => Some (Rows rs)
  end.

Definition key_eqb (a b : value * value) : bool :=
  value_eqb (fst a) (fst b) && value_eqb (snd a) (snd b).

Fixpoint unique_keys (l : list srow) : bool :=
  match l with
  | [] => true
  | r :: l' =>
      negb (existsb (fun r' => key_eqb (key r) (key r')) l') && unique_keys l'
  end.

(** The local function [lookup]: [None] when the pair is not in the index;
    [self.schedule.loc[days, period]] gives the row when no key of the
    index is repeated, and a frame otherwise. *)
Definition lookup (schedule : list srow) (days period : json)
  : option (found srow) :=
  match days, period with
  | JStr d, JStr p =>
      match filter (fun r => key_eqb (key r) (Str d, Str p)) schedule with
      | [] => None
      | rs =>
          if unique_keys schedule
          then match rs with [r] => Some (One_row r) | _ => Some (Rows rs) end
          else Some (Rows rs)
      end
  | _, _ => None
  end.

Section Process.
Variable schedule : list srow.
Variable common : option (list crow).
Variable cache : list (string * json).
Variables dates times : list value.

Definition in_common_index (course : string) : option (found crow) :=
  match common with
  | None => None
  | Some cs => common_loc cs course
  end.

(** [section.set(6, dateIdx)] and [section.set(7, timeIdx)] *)
Definition set_slots (s : section) (dateIdx timeIdx : nat) : result json :=
  s <- set s 6 (JNum (Z.of_nat dateIdx)) ;;
  s <- set s 7 (JNum (Z.of_nat timeIdx)) ;;
  Ok (obj s).

(** The body of [for sectionTitle, sectionData in courseData[1].items()]:
    the entry of the section afterwards. *)
Definition process_section (course : string) (sectionData : json)
  : result json :=
  match Section cache sectionData with
  | Raise _ => Ok sectionData
  | Ok s =>
      if negb (match scheduleType s with
               | JStr t => (t =? "Lecture*")%string
               | _ => false
               end) || (credits s <? 2)%Z
      then Ok sectionData
      else
        match in_common_index course with
        | Some row =>
            dateIdx <- position_of dates row (fun r => Str (Date r)) ;;
            timeIdx <- position_of times row (fun r => Str (CTime r)) ;;
            set_slots s dateIdx timeIdx
        | None =>
            match lookup schedule (days s) (period s) with
            | Some row =>
                dateIdx <- position_of dates row finalDate ;;
                timeIdx <- position_of times row finalTime ;;
                set_slots s dateIdx timeIdx
            | None => Ok sectionData
            end
        end
  end.

Fixpoint process_sections (course : string) (l : list (string * json))
  : result (list (string * json)) :=
  match l with
  | [] => Ok []
  | (sectionTitle, sectionData) :: l' =>
      d <- process_section course sectionData ;;
      l'' <- process_sections course l' ;;
      Ok ((sectionTitle, d) :: l'')
  end.

(** [vip = VIP\s\d+] *)
Definition vip : regex := seq [lit "VIP"; Chr Space; plus Digit].

(** The body of [for course, courseData in data['courses'].items()]. *)
Definition process_course (course : string) (courseData : json)
  : result json :=
  match finditer vip course with
  | _ :: _ => Ok courseData
  | [] =>
      sections <- getitem courseData 1 ;;
      match sections with
      | JDict l =>
          l' <- process_sections course l ;;
          setitem courseData 1 (JDict l')
      | _ => Raise AttributeError
      end
  end.

Fixpoint process_courses (l : list (string * json))
  : result (list (string * json)) :=
  match l with
  | [] => Ok []
  | (course, courseData) :: l' =>
      d <- process_course course courseData ;;
      l'' <- process_courses l' ;;
      Ok ((course, d) :: l'')
  end.

End Process.

(** [times.tolist()] *)
Definition tolist (l : list value) : json :=
  JList (map (fun v => match v with Str s => JStr s | Null => JNull end) l).

(** [process]: the document written back to the file. *)
Definition process (schedule : list srow) (common : option (list crow))
    (data : term) : result term :=
  dates <- distinct schedule common finalDate Date ;;
  times <- distinct schedule common finalTime CTime ;;
  let cache := setkey (caches data) "finalTimes" (tolist times) in
  let cache := setkey cache "finalDates" (tolist dates) in
  cs <- process_courses schedule common cache dates times (courses data) ;;
  Ok (mkTerm cache cs).

(** ** [Revise.iterFiles] *)

(** What the outside world gives a [parseFile]: the term is not a key of
    [matrix.json], or fetching the tables raised and [parseFile] returned
    early (both leave [self.schedule] empty; [self.read] is what it was
    then), or an exception left [parseFile], or the tables were read. *)
Inductive fetched : Type :=
| Not_listed
| Gave_up (read : option (list frame))
| Crashed (e : exn)
| Tables (read : list frame).

(** A parser object after [parseFile] and [parseCommon]. *)
Record parser : Type := mkParser {
  schedule : list srow;
  common : option (list crow)
}.

Inductive version : Type := V1 | V2 | V3.

Definition parseFile (v : version) (yr : nat) (f : fetched)
  : result (option (list frame) * list srow) :=
  match f with
  | Not_listed => Ok (None, [])
  | Gave_up read => Ok (read, [])
  | Crashed e => Raise e
  | Tables read =>
      s <- match v with
           | V1 => schedule_v1 yr read
           | V2 => schedule_v2 yr read
           | V3 => schedule_v3 yr read
           end ;;
      Ok (Some read, s)
  end.

(** [parser.parseFile(file.stem); parser.parseCommon()] *)
Definition run (v : version) (yr : nat) (f : fetched) : result parser :=
  x <- parseFile v yr f ;;
  c <- parseCommon yr (fst x) ;;
  Ok (mkParser (snd x) c).

(** [Path.stem]: the name without its last suffix. *)
Fixpoint last_dot (s : list ascii) (i : nat) (found : option nat)
  : option nat :=
  match s with
  | [] => found
  | c :: s' =>
      last_dot s' (S i) (if (code c =? 46)%nat then Some i else found)
  end.

Definition stem (name : string) : string :=
  match last_dot (chars name) 0 None with
  | Some (S i) =>
      if (S (S i) <? String.length name)%nat then take (S i) name else name
  | _ => name
  end.

(** [\d+\.json] *)
Definition term_file : regex := Seq (plus Digit) (lit ".json").

(** [int(file.stem[:4])] *)
Definition year_of (stem : string) : result nat :=
  let s := take 4 stem in
  if all_digits s && negb (s =? "")%string then Ok (int s)
  else Raise ValueError.

Section Batch.
(** The tables each version of the parser gets for each term. *)
Variable world : version -> string -> fetched.

(** The three nested [try] blocks: the parser that succeeded, if any. *)
Definition attempts (stem : string) (yr : nat) : option parser :=
  match run V1 yr (world V1 stem) with
  | Ok p => Some p
  | Raise _ =>
      match run V2 yr (world V2 stem) with
      | Ok p => Some p
      | Raise _ =>
          match run V3 yr (world V3 stem) with
          | Ok p => Some p
          | Raise _ => None
          end
      end
  end.

(** The state of the loop: the set [failed] and the files of [./data/]. *)
Record batch : Type := mkBatch {
  failed : list string;
  disk : list (string * term)
}.

(** [failed.add(x)] *)
Definition add (x : string) (l : list string) : list string :=
  if existsb (String.eqb x) l then l else (l ++ [x])%list.

(** One turn of [for file in ...iterdir()]. *)
Definition iter_file (b : batch) (file : string * term) : result batch :=
  let name := fst file in
  match rematch false term_file name with
  | None => Ok b
  | Some _ =>
      yr <- year_of (stem name) ;;
      match attempts (stem name) yr with
      | Some p =>
          match assoc name (disk b) with
          | None => Raise KeyError
          | Some data =>
              data' <- process (schedule p) (common p) data ;;
              Ok (mkBatch (failed b) (setkey (disk b) name data'))
          end
      | None => Ok (mkBatch (add (stem name) (failed b)) (disk b))
      end
  end.

Fixpoint iter_from (b : batch) (files : list (string * term))
  : result batch :=
  match files with
  | [] => Ok b
  | file :: files' => b' <- iter_file b file ;; iter_from b' files'
  end.

(** [iterFiles]: the files of the directory in the order [iterdir] gives
    them; the result holds the set printed as the final summary. *)
Definition iterFiles (files : list (string * term)) : result batch :=
  iter_from (mkBatch [] files) files.

End Batch.

End Revise.

(* ===================================================================== *)
(** * The vocabulary of the statements *)
(* ===================================================================== *)

(** Definitions that the specification's sentences are written with; each
    is compared with the code's definition by a theorem below. *)
Module Words.
Import Text Re Strptime Parse Revise.

(** ** The accumulator of a block, in the specification's words *)

(** The text between the matches. *)
Fixpoint gaps (l : list piece) : string :=
  match l with
  | [] => ""
  | Gap g :: l' => g ++ gaps l'
  | Hit _ :: l' => gaps l'
  end.

(** The dates announced in a cell, the cell without them, and the time
    ranges announced in what is left. *)
Definition date_hits (s : string) : list rmatch := finditer dateSearch s.
Definition undated (s : string) : string := gaps (pieces dateSearch s).
Definition time_hits (s : string) : list rmatch :=
  finditer timeSearch (undated s).

Fixpoint last_hit (l : list rmatch) : option rmatch :=
  match l with
  | [] => None
  | [m] => Some m
  | _ :: l' => last_hit l'
  end.

(** "sectionDate is updated to the canonical form of that date": the most
    recent date announced decides; without one the value persists. *)
Definition update_date (yr : nat) (sd : value) (s : string) : value :=
  match last_hit (date_hits s) with
  | Some m => date_of yr (whole m) formats
  | None => sd
  end.

(** "sectionTime is captured only while it is still empty": the first time
    range announced decides, once. *)
Definition update_time (st : string) (s : string) : string :=
  if (st =? "")%string then
    match time_hits s with
    | m :: _ => convertTimeGroup (lower (whole m))
    | [] => ""
    end
  else st.

Definition update (yr : nat) (a : acc) (row : list value) : acc :=
  match cell row 1 with
  | Str s => mkAcc (update_date yr (sectionDate a) s)
                   (update_time (sectionTime a) s)
  | Null => a
  end.

(** The pair after each row of a block, the pair before the first row
    being [a]. *)
Fixpoint trace (yr : nat) (a : acc) (rs : list (list value)) : list acc :=
  match rs with
  | [] => []
  | row :: rs' => let a' := update yr a row in a' :: trace yr a' rs'
  end.

(** The time of a pair as a cell of the table. *)
Definition time_cell (a : acc) : value := Str (sectionTime a).

(** ** Population of the exam columns *)

Definition populated (v : value) : bool :=
  match v with
  | Str s => negb (s =? "")%string
  | Null => false
  end.

(** The pair holds both a date and a time, or neither. *)
Definition balanced (a : acc) : Prop :=
  populated (sectionDate a) = negb (sectionTime a =? "")%string.

(** Both of [finalDate] and [finalTime], or neither. *)
Definition paired (r : srow) : bool :=
  Bool.eqb (populated (finalDate r)) (populated (finalTime r)).

(** A cell that announces nothing, or announces a time range together with
    a date that parses. *)
Definition whole_announcement (yr : nat) (row : list value) : bool :=
  match cell row 1 with
  | Null => true
  | Str s =>
      match last_hit (date_hits s), time_hits s with
      | None, [] => true
      | Some m, _ :: _ => populated (date_of yr (whole m) formats)
      | _, _ => false
      end
  end.

(** ** Keys of the schedule table *)

(** The rows of the schedule so far. *)
Definition held (schedule : option (list srow)) : list srow :=
  match schedule with
  | Some rs => rs
  | None => []
  end.

(** The number of rows that carry a key. *)
Definition carriers (k : value * value) (t : list srow) : nat :=
  List.length (filter (fun r => key_eqb (key r) k) t).

(** The row sets of the sections that version 1 parses, in order: the
    loops of [schedule_v1] with the row sets kept apart. *)
Definition section_rows (yr : nat) (chunk : frame)
    (st : list (list srow) * list value) (c : Z * Z * nat)
  : result (list (list srow) * list value) :=
  let '(start, stop, terminate) := c in
  let df := fix_three (iloc chunk terminate start stop) in
  label <- second_label df ;;
  if existsb (value_eqb label) (snd st) then Ok st
  else
    block <- block_of df ;;
    out <- parseBlock_v1 yr block ;;
    Ok ((fst st ++ [out])%list, label :: snd st).

Fixpoint sections_rows (yr : nat) (chunk : frame)
    (st : list (list srow) * list value) (cs : list (Z * Z * nat))
  : result (list (list srow) * list value) :=
  match cs with
  | [] => Ok st
  | c :: cs' =>
      st' <- section_rows yr chunk st c ;;
      sections_rows yr chunk st' cs'
  end.

Fixpoint chunks_rows (yr : nat) (read : list frame)
    (st : list (list srow) * list value)
  : result (list (list srow) * list value) :=
  match read with
  | [] => Ok st
  | chunk :: read' =>
      cs <- getColumns chunk ;;
      st' <- sections_rows yr chunk st cs ;;
      chunks_rows yr read' st'
  end.

(** ** Expansion of a common-exam row, in the specification's words *)

(** "split on [", "] to get independent course mentions, then for each
    mention split off the catalog-number token and further split that
    token on ["/"]": the course identifiers of a course field. *)
Definition identifiers (course_field : string) : result (list string) :=
  ls <- mapM splitCourse (split ", " course_field) ;;
  Ok (List.concat ls).

(** The mention as the specification reads it: "split off the trailing
    catalog-number token and further split that token on ["/"]"; what
    stands before the trailing token is the department.  [None] for a
    mention without two tokens. *)
Definition trailing_split (mention : string) : option (list string) :=
  match rev (words mention) with
  | numbers :: t :: ts =>
      let department := String.concat " " (rev (t :: ts)) in
      Some (map (fun number => department ++ " " ++ number)
                (split "/" numbers))
  | _ => None
  end.

(** "one entry per resulting department+number pair, all sharing the row's
    date/time". *)
Definition entries (r : crow) : result (list crow) :=
  ids <- identifiers (Course r) ;;
  Ok (map (fun c => mkCrow c (Date r) (CTime r)) ids).

(** The date of the specification's example in the year [yr], and the test
    that the final [strip] and [replace] leave it as it is. *)
Definition apr25 (yr : nat) : string := "Apr 25, " ++ str yr.

Definition apr25_clean (yr : nat) : bool :=
  (clean (apr25 yr) =? apr25 yr)%string.

(** ** The order of the parsers *)

(** The first parser, in the order given, under which the document does
    not fail. *)
Fixpoint first_success (try : version -> result parser) (vs : list version)
  : option parser :=
  match vs with
  | [] => None
  | v :: vs' =>
      match try v with
      | Ok p => Some p
      | Raise _ => first_success try vs'
      end
  end.

(** The documents that end in [failed]: those of the directory whose name
    is a term file's and which fail under the three parsers. *)
Definition fails (world : version -> string -> fetched)
    (files : list (string * term)) (s : string) : Prop :=
  exists name data yr,
    In (name, data) files
    /\ rematch false term_file name <> None
    /\ year_of (stem name) = Ok yr
    /\ stem name = s
    /\ attempts world s yr = None.

End Words.

(* ===================================================================== *)
(** * Concrete inputs *)
(* ===================================================================== *)

Module Examples.
Import Parse Revise.

(** A version-2 block whose only data row does not follow the day/time
    grammar. *)
Definition tba_block : frame :=
  mkFrame [Str "2:40 PM - 5:30 PM Exams"; Str "Unnamed: 0"]
    [ [Str "Days"; Str "Class Start Time"];
      [Str "TBA"; Null] ].

(** A version-2 block whose data row announces a date without a time. *)
Definition date_only_block : frame :=
  mkFrame [Str "2:40 PM - 5:30 PM Exams"; Str "Unnamed: 0"]
    [ [Str "Days"; Str "Class Start Time"];
      [Str "MW8:00 AM9:15 AM"; Str "Monday, Apr 28"] ].

(** Two version-2 blocks with the same meeting pattern. *)
Definition morning_block : frame :=
  mkFrame [Str "8:00 AM - 10:50 AM Exams"; Str "Unnamed: 0"]
    [ [Str "Days"; Str "Class Start Time"];
      [Str "MW8:00 AM9:15 AM"; Str "Monday, Apr 28 8:00 AM - 10:50 AM"] ].

Definition evening_block : frame :=
  mkFrame [Str "6:00 PM - 8:50 PM Exams"; Str "Unnamed: 0"]
    [ [Str "Days"; Str "Class Start Time"];
      [Str "MW8:00 AM9:15 AM"; Str "Tuesday, Apr 29 6:00 PM - 8:50 PM"] ].

(** A version-1 block of two rows: the first has no time range, the second
    announces 8:00 AM - 9:15 AM. *)
Definition two_rows : frame :=
  mkFrame [Str "Days"; Str "Time"]
    [ [Str "MW"; Str "Monday, Dec 9"];
      [Str "TR"; Str "8:00 AM - 9:15 AM"] ].

(** A version-1 block whose rows all announce a date and a time range, or
    nothing. *)
Definition full_block : frame :=
  mkFrame [Str "Days"; Str "Time"]
    [ [Str "MW"; Str "8:00 AM 9:15 AM Monday, Dec 9 8:00 AM - 10:50 AM"];
      [Str "TR"; Str "8:00 AM 9:15 AM"];
      [Str "F"; Null] ].

(** A version-2 block of four rows: the first announces a date and a time
    range, the third another date and another time range, the second and
    the fourth nothing. *)
Definition week_block : frame :=
  mkFrame [Str "8:00 AM - 10:50 AM Exams"; Str "Unnamed: 0"]
    [ [Str "Days"; Str "Class Start Time"];
      [Str "MW8:00 AM9:15 AM"; Str "Monday, Apr 28 8:00 AM - 10:50 AM"];
      [Str "TR8:00 AM9:15 AM"; Null];
      [Str "F8:00 AM9:15 AM"; Str "Tuesday, Apr 29 6:00 PM - 8:50 PM"];
      [Str "MWF9:30 AM10:20 AM"; Null] ].

(** The common-exam chunk with the one raw entry of the specification. *)
Definition common_chunk : frame :=
  mkFrame [Str "Common Exams"; Str "Unnamed: 0"]
    [ [Str "Course Date"; Str "Time"];
      [Str "CS 1331/1332, CS 1371  Thurs, Apr 25"; Str "2:40 pm 5:30 pm"] ].

(** A common-exam chunk whose one mention has three tokens, the last of
    them a pair of catalog numbers. *)
Definition numbered_chunk : frame :=
  mkFrame [Str "Common Exams"; Str "Unnamed: 0"]
    [ [Str "Course Date"; Str "Time"];
      [Str "CS 1331 1332/1333  Thurs, Apr 25"; Str "2:40 pm 5:30 pm"] ].

(** A section without meetings, and one lecture of three credit hours. *)
Definition no_meetings : json :=
  JList [JStr "12345"; JList []; JNum 3; JNum 0].

Definition lecture : json :=
  JList [JStr "54321";
         JList [JList [JNum 0; JStr "MW"; JStr "Room"; JNum 0; JList [];
                       JStr "Staff"; JNum (-1); JNum (-1)]];
         JNum 3; JNum 0].

Definition cache : list (string * json) :=
  [("periods", JList [JStr "0800 - 0915"]);
   ("scheduleTypes", JList [JStr "Lecture*"])].

Definition document : term :=
  mkTerm cache
    [("CS 1331", JList [JStr "Intro"; JDict [("A", lecture); ("B", no_meetings)]])].

(** A world in which every parser fails on every term. *)
Definition dead_world (v : version) (stem : string) : fetched :=
  Crashed ValueError.

(** A world in which the first parser cannot extract the tables of a term
    and gives up, while the other two get one version-2 block; and a world
    in which every parser gets that block. *)
Definition gave_up_world (v : version) (stem : string) : fetched :=
  match v with
  | V1 => Gave_up None
  | _ => Tables [morning_block]
  end.

Definition block_world (v : version) (stem : string) : fetched :=
  Tables [morning_block].

End Examples.

(* ===================================================================== *)
(** * More concrete inputs *)
(* ===================================================================== *)

Module Samples.
Import Parse Revise.

(** A version-1 chunk with two sections: the first cut into three
    columns, the second ending before the last row. *)
Definition v1_chunk : frame :=
  mkFrame [Str "Unnamed: 0"; Str "8:00 AM - 10:50 AM Exams"; Str "Unnamed: 1";
           Str "Unnamed: 2"; Str "11:20 AM - 2:10 PM Exams"]
    [ [Str "Days"; Str "Start Time End Time"; Str "Exam Date/Time";
       Str "Days"; Str "Start Time End Time Exam Date/Time"];
      [Str "MW"; Str "8:00 AM 9:15 AM"; Str "Monday, Dec 9 8:00 AM - 10:50 AM";
       Str "TR"; Str "8:00 AM 9:15 AM Tuesday, Dec 10 11:20 AM - 2:10 PM"];
      [Str "MWF"; Str "8:25 AM 9:15 AM"; Null;
       Str "T"; Str "9:30 AM 10:45 AM"];
      [Str "F"; Str "9:00 AM 9:50 AM"; Str "Friday, Dec 13"; Null; Null] ].

(** A world in which the term 202402 is not a key of [matrix.json], and
    one in which its tables are a single version-2 block. *)
Definition unlisted_world (v : version) (stem : string) : fetched :=
  Not_listed.

Definition one_block_world (v : version) (stem : string) : fetched :=
  Tables [Examples.morning_block].

End Samples.

(* ===================================================================== *)
(** * More vocabulary *)
(* ===================================================================== *)

Module Phrases.
Import Text Re Strptime Parse Revise Words.

(** The label [df.columns[1]] version 1 reads for a triple of
    [getColumns]. *)
Definition label_of (chunk : frame) (c : Z * Z * nat) : result value :=
  let '(start, stop, terminate) := c in
  second_label (fix_three (iloc chunk terminate start stop)).

(** A string without blanks, without the character "/", and the number
    of "/" in a string. *)
Definition blank_free (s : string) : bool :=
  forallb (fun c => negb (is_space c)) (chars s).

Definition is_slash (c : ascii) : bool := (code c =? 47)%nat.

Definition slash_free (s : string) : bool :=
  forallb (fun c => negb (is_slash c)) (chars s).

Definition slashes (s : string) : nat :=
  List.length (filter is_slash (chars s)).

(** A chunk with a column labelled "Common Exams". *)
Definition is_common (chunk : frame) : bool := in_columns "Common Exams" chunk.

(** A section's entry with the two slots of its first meeting set:
    [data[1][0][6] = d] and [data[1][0][7] = t]. *)
Definition with_slots (data : json) (d t : nat) : json :=
  match data with
  | JList (x0 :: JList (JList info :: meetings) :: xs) =>
      JList (x0 :: JList (JList (Revise.update
                                   (Revise.update info 6 (JNum (Z.of_nat d)))
                                   7 (JNum (Z.of_nat t)))
                          :: meetings) :: xs)
  | _ => data
  end.

(** The number of fields of a section's first meeting. *)
Definition first_meeting_size (data : json) : nat :=
  match data with
  | JList (_ :: JList (JList info :: _) :: _) => List.length info
  | _ => 0
  end.

(** The order [np.unique] sorts strings by. *)
Definition before (a b : string) : Prop := String.compare a b = Lt.

(** An entry of [data['courses']] that [process] can walk: a VIP course
    (which it skips), or a list whose item 1 is the dictionary of the
    sections. *)
Definition walkable (c : string * json) : Prop :=
  finditer vip (fst c) <> []
  \/ exists x0 sections xs, snd c = JList (x0 :: JDict sections :: xs).

(** The caches of a document with the two lists of [process] empty. *)
Definition emptied (cache : list (string * json)) : list (string * json) :=
  setkey (setkey cache "finalTimes" (JList [])) "finalDates" (JList []).

End Phrases.

(* ===================================================================== *)
(** * Properties *)
(* ===================================================================== *)

Import Text Re Strptime Parse Revise Words.

(** ** The error monad *)

Lemma bind_ok {A B} (r : result A) (k : A -> result B) (b : B) :
  bind r k = Ok b -> exists a, r = Ok a /\ k a = Ok b.
Proof.
  destruct r as [a | e]; simpl; intros H.
  - exists a; split; [reflexivity | exact H].
  - discriminate H.
Qed.

Ltac bind_inv H :=
  let a := fresh "x" in
  let Ha := fresh "Hx" in
  apply bind_ok in H; destruct H as (a & Ha & H).

Lemma mapM_app {A B} (f : A -> result B) (l1 l2 : list A) :
  mapM f (l1 ++ l2)%list =
  (x <- mapM f l1 ;; y <- mapM f l2 ;; Ok (x ++ y)%list).
Proof.
  induction l1 as [| a l1 IH]; simpl.
  - destruct (mapM f l2); reflexivity.
  - destruct (f a) as [b | e]; simpl; [| reflexivity].
    rewrite IH. destruct (mapM f l1); simpl; [| reflexivity].
    destruct (mapM f l2); reflexivity.
Qed.

(** ** Strings *)

Lemma append_nil_r (s : string) : s ++ "" = s.
Proof. induction s; simpl; congruence. Qed.

Lemma append_nonempty_l (s t : string) : s <> "" -> s ++ t <> "".
Proof. destruct s; simpl; [congruence | discriminate]. Qed.

Lemma str_aux_nonempty (fuel n : nat) (acc : string) :
  acc <> "" -> str_aux fuel n acc <> "".
Proof.
  revert n acc; induction fuel as [| fuel IH]; intros n acc H.
  - exact H.
  - cbn [str_aux]; cbv zeta.
    destruct (n / 10 =? 0)%nat; [intro E; discriminate E |].
    apply IH; intro E; discriminate E.
Qed.

Lemma str_nonempty (n : nat) : str n <> "".
Proof.
  unfold str; cbn [str_aux]; cbv zeta.
  destruct (n / 10 =? 0)%nat; [intro E; discriminate E |].
  apply str_aux_nonempty; intro E; discriminate E.
Qed.

(** ** [convertTimeGroup] *)

(** The two-digit hour: below 24 the padding of [convert_time] is
    [zfill 2]. *)
Lemma pad_hour (h : nat) :
  h < 24 ->
  (if (String.length (str h) =? 2)%nat then str h else "0" ++ str h)
  = zfill 2 h.
Proof.
  intros H.
  do 24 (destruct h as [| h]; [vm_compute; reflexivity |]).
  exfalso; lia.
Qed.

(** A token becomes its hour, reduced mod 12 and moved to the afternoon by
    'p', on two digits, followed by the minutes as they are. *)
Lemma convert_time_shape (m : rmatch) :
  let h := int (group m 2) mod 12
           + (if (group m 4 =? "p")%string then 12 else 0) in
  h < 24 /\ convert_time m = zfill 2 h ++ group m 3.
Proof.
  intros h.
  assert (Hh : h < 24).
  { subst h. pose proof (Nat.mod_upper_bound (int (group m 2)) 12).
    destruct (group m 4 =? "p")%string; lia. }
  split; [exact Hh |].
  unfold convert_time. fold h. rewrite (pad_hour h Hh). reflexivity.
Qed.

Lemma convert_time_nonempty (m : rmatch) : convert_time m <> "".
Proof.
  unfold convert_time.
  apply append_nonempty_l.
  destruct (String.length _ =? 2)%nat.
  - apply str_nonempty.
  - discriminate.
Qed.

(** Exactly two tokens give the two converted tokens joined by " - ";
    any other number gives "TBA". *)
Lemma convertTimeGroup_cases (s : string) :
  match finditer time_token s with
  | [t1; t2] =>
      convertTimeGroup s = convert_time t1 ++ " - " ++ convert_time t2
  | _ => convertTimeGroup s = "TBA"
  end.
Proof.
  unfold convertTimeGroup.
  destruct (finditer time_token s) as [| t1 [| t2 [| t3 l]]]; reflexivity.
Qed.

Lemma convertTimeGroup_nonempty (s : string) : convertTimeGroup s <> "".
Proof.
  pose proof (convertTimeGroup_cases s) as H.
  destruct (finditer time_token s) as [| t1 [| t2 [| t3 l]]];
    rewrite H; try discriminate.
  apply append_nonempty_l, convert_time_nonempty.
Qed.

(** C1.  [convertTimeGroup] on the example of its own docstring: the
    pattern asks for a blank between the minutes and "am"/"pm", so
    "10:20am - 2:50pm" holds no token and the result is "TBA", not
    "1020 - 1450"; with the blanks the result is the documented one. *)
Theorem convertTimeGroup_docstring_example :
  convertTimeGroup "10:20am - 2:50pm" = "TBA"
  /\ convertTimeGroup "10:20 am - 2:50 pm" = "1020 - 1450"
  /\ convertTimeGroup "garbage" = "TBA".
Proof. repeat split; vm_compute; reflexivity. Qed.

(** ** The date normalizer *)

Lemma date_of_first (yr : nat) (raw : string) (pre : list (list item))
    (fmt : list item) (post : list (list item)) (s : string) :
  Forall (fun f => try_format yr raw f = None) pre ->
  try_format yr raw fmt = Some s ->
  date_of yr raw (pre ++ fmt :: post)%list = Str s.
Proof.
  intros Hpre Hfmt.
  induction Hpre as [| f pre Hf _ IH]; simpl.
  - rewrite Hfmt. reflexivity.
  - rewrite Hf. exact IH.
Qed.

Lemma date_of_none (yr : nat) (raw : string) (fmts : list (list item)) :
  Forall (fun f => try_format yr raw f = None) fmts ->
  date_of yr raw fmts = Null.
Proof.
  induction 1 as [| f fmts Hf _ IH]; simpl.
  - reflexivity.
  - rewrite Hf. exact IH.
Qed.

Lemma date_of_some (yr : nat) (raw : string) (fmts : list (list item))
    (s : string) :
  date_of yr raw fmts = Str s ->
  exists fmt, In fmt fmts /\ try_format yr raw fmt = Some s.
Proof.
  induction fmts as [| f fmts IH]; simpl; intros H.
  - discriminate H.
  - destruct (try_format yr raw f) as [s' |] eqn:E.
    + injection H as ->. exists f. split; [left; reflexivity | exact E].
    + destruct (IH H) as (g & Hg & Hs). exists g. split; [right |]; assumption.
Qed.

Lemma days_in_month_le (y m : nat) : days_in_month y m <= 31.
Proof.
  unfold days_in_month.
  do 12 (destruct m as [| m]; [try destruct (is_leap y); lia |]).
  lia.
Qed.

Lemma valid_date_bounds (d : Strptime.date) :
  valid_date d = true ->
  1 <= year d <= MAXYEAR /\ 1 <= month d <= 12 /\ 1 <= Strptime.day d <= 31.
Proof.
  unfold valid_date. intros H.
  repeat (apply andb_prop in H; destruct H as [H ?]).
  repeat match goal with
         | H : (_ <=? _)%nat = true |- _ => apply Nat.leb_le in H
         | H : (_ <? _)%nat = true |- _ => apply Nat.ltb_lt in H
         end.
  pose proof (days_in_month_le (year d) (month d)).
  lia.
Qed.

(** The year as [%Y] writes it has four digits from the year 1000 on. *)
Lemma str_four_digits_all :
  forallb (fun y => (String.length (str y) =? 4)%nat)
          (List.seq 1000 (S MAXYEAR - 1000)) = true.
Proof. vm_compute. reflexivity. Qed.

Lemma str_four_digits (yr : nat) :
  1000 <= yr <= MAXYEAR -> String.length (str yr) = 4.
Proof.
  intros H.
  pose proof (proj1 (forallb_forall _ _) str_four_digits_all yr) as Hall.
  apply Nat.eqb_eq, Hall, in_seq. unfold MAXYEAR in *. lia.
Qed.

(** What a format that parses leaves: the month and day read, stamped with
    the year and rendered as "Mon DD, " followed by the year. *)
Lemma try_format_shape (yr : nat) (raw : string) (fmt : list item)
    (s : string) :
  try_format yr raw fmt = Some s ->
  exists m d,
    1 <= m <= 12 /\ 1 <= d <= 31 /\ 1 <= yr <= MAXYEAR /\
    s = capitalize (nth (m - 1) a_month "") ++ " " ++ zfill 2 d
        ++ ", " ++ str yr.
Proof.
  unfold try_format, replace_year.
  destruct (strptime raw fmt) as [d0 |]; [| discriminate].
  destruct (valid_date (mkDate yr (month d0) (Strptime.day d0))) eqn:V;
    [| discriminate].
  intros H; injection H as <-.
  apply valid_date_bounds in V; simpl in V.
  exists (month d0), (Strptime.day d0). unfold strftime; simpl.
  repeat split; lia.
Qed.

(** C8.  The local function [date] of [parseBlock]: its grammars are the
    four of the list, in this order; the first that parses decides the
    result, which is the month and day read, stamped with the document's
    year, as "Mon DD, " followed by the year in decimal, that is
    "Mon DD, YYYY" for a document year from 1000 on (a four-digit year);
    when none parses the result is [None], and it is a value in every case
    (no exception leaves the function).  "Tuesday, Dec 9" and "12/09" in
    2024 both give "Dec 09, 2024". *)
Theorem date_normalizer :
  formats = [ [Dir Dm; Lit "/"; Dir Dd];
              [Dir Dm; Lit "-"; Dir Dd];
              [Dir DA; Lit ","; Blank; Dir Db; Blank; Dir Dd];
              [Dir DA; Lit ","; Blank; Dir DB; Blank; Dir Dd] ]
  /\ (forall yr raw pre fmt post s,
        formats = (pre ++ fmt :: post)%list ->
        Forall (fun f => try_format yr raw f = None) pre ->
        try_format yr raw fmt = Some s ->
        date_of yr raw formats = Str s)
  /\ (forall yr raw,
        Forall (fun f => try_format yr raw f = None) formats ->
        date_of yr raw formats = Null)
  /\ (forall yr raw s,
        date_of yr raw formats = Str s ->
        exists m d,
          1 <= m <= 12 /\ 1 <= d <= 31 /\ 1 <= yr <= MAXYEAR /\
          s = capitalize (nth (m - 1) a_month "") ++ " " ++ zfill 2 d
              ++ ", " ++ str yr
          /\ (1000 <= yr -> String.length (str yr) = 4))
  /\ date_of 2024 "Tuesday, Dec 9" formats = Str "Dec 09, 2024"
  /\ date_of 2024 "12/09" formats = Str "Dec 09, 2024".
Proof.
  split; [reflexivity |].
  split.
  { intros yr raw pre fmt post s E Hpre Hfmt. rewrite E.
    apply date_of_first; assumption. }
  split.
  { intros yr raw H. apply date_of_none; exact H. }
  split.
  { intros yr raw s H.
    destruct (date_of_some _ _ _ _ H) as (fmt & _ & Hfmt).
    destruct (try_format_shape _ _ _ _ Hfmt) as (m & d & Hm & Hd & Hyr & E).
    exists m, d. repeat (split; [assumption |]).
    intros Hk. apply str_four_digits. lia. }
  split; vm_compute; reflexivity.
Qed.

Lemma date_normalizer_witness :
  Forall (fun f => try_format 2024 "Tuesday, Dec 9" f = None)
         [ [Dir Dm; Lit "/"; Dir Dd]; [Dir Dm; Lit "-"; Dir Dd] ]
  /\ try_format 2024 "Tuesday, Dec 9"
       [Dir DA; Lit ","; Blank; Dir Db; Blank; Dir Dd] = Some "Dec 09, 2024"
  /\ date_of 2024 "Tuesday, Dec 9" formats = Str "Dec 09, 2024".
Proof.
  assert (H1 : Forall (fun f => try_format 2024 "Tuesday, Dec 9" f = None)
                 [ [Dir Dm; Lit "/"; Dir Dd]; [Dir Dm; Lit "-"; Dir Dd] ]).
  { repeat constructor; vm_compute; reflexivity. }
  assert (H2 : try_format 2024 "Tuesday, Dec 9"
                 [Dir DA; Lit ","; Blank; Dir Db; Blank; Dir Dd]
               = Some "Dec 09, 2024").
  { vm_compute; reflexivity. }
  split; [exact H1 |]. split; [exact H2 |].
  destruct date_normalizer as (_ & Hfirst & _).
  exact (Hfirst 2024 "Tuesday, Dec 9"
           [ [Dir Dm; Lit "/"; Dir Dd]; [Dir Dm; Lit "-"; Dir Dd] ]
           [Dir DA; Lit ","; Blank; Dir Db; Blank; Dir Dd]
           [ [Dir DA; Lit ","; Blank; Dir DB; Blank; Dir Dd] ]
           "Dec 09, 2024" eq_refl H1 H2).
Defined.

(** ** Version 2: a row outside the day/time grammar *)

(** [split_schedule] answers a mismatch with three [None]; the
    [start_time.lower()] that follows then raises. *)
Lemma row_v2_mismatch (yr : nat) (a : acc) (row : list value) (c0 : string) :
  cell row 0 = Str c0 ->
  rematch false schedule_pattern c0 = None ->
  row_v2 yr a row = Raise AttributeError.
Proof.
  intros H0 Hm. unfold row_v2, split_schedule. rewrite H0, Hm. reflexivity.
Qed.

Lemma loop_v2_mismatch (yr : nat) (rs : list (list value)) :
  forall (a : acc) (out : list srow),
  loop_v2 yr a rs = Ok out ->
  Forall (fun row => exists c0,
            cell row 0 = Str c0
            /\ rematch false schedule_pattern c0 <> None) rs.
Proof.
  induction rs as [| row rs IH]; intros a out H.
  - constructor.
  - simpl in H. bind_inv H. bind_inv H.
    constructor; [| exact (IH _ _ Hx0)].
    unfold row_v2 in Hx.
    destruct (cell row 0) as [| c0] eqn:E0; [discriminate Hx |].
    exists c0. split; [reflexivity |].
    intros Hm. unfold split_schedule in Hx. rewrite Hm in Hx.
    simpl in Hx. discriminate Hx.
Qed.

(** C5.  A version-2 block with the data row "TBA": [split_schedule]
    returns the three [None] meant for a silent failure, and [parseBlock]
    raises [AttributeError] instead of keeping the row. *)
Theorem parseBlock_v2_grammar_mismatch :
  split_schedule "TBA" = (Null, Null, Null)
  /\ parseBlock 2025 Examples.tba_block 2 = Raise AttributeError.
Proof. split; vm_compute; reflexivity. Qed.

(** ** [sub] with a callback that keeps a variable *)

Lemma sub_pieces_state {S : Type} (repl : S -> rmatch -> S * option string)
    (l : list piece) :
  forall st,
  fst (sub_pieces repl l st)
  = fold_left (fun st m => fst (repl st m)) (hits l) st.
Proof.
  induction l as [| [g | m] l IH]; intros st; simpl.
  - reflexivity.
  - rewrite <- IH. destruct (sub_pieces repl l st); reflexivity.
  - destruct (repl st m) as [st1 o] eqn:E; simpl.
    rewrite <- IH. destruct (sub_pieces repl l st1); reflexivity.
Qed.

(** A callback that returns [None] deletes the matches. *)
Lemma sub_pieces_text {S : Type} (repl : S -> rmatch -> S * option string)
    (l : list piece) :
  (forall st m, snd (repl st m) = None) ->
  forall st, snd (sub_pieces repl l st) = gaps l.
Proof.
  intros Hnone.
  induction l as [| [g | m] l IH]; intros st; simpl.
  - reflexivity.
  - rewrite <- (IH st). destruct (sub_pieces repl l st); reflexivity.
  - pose proof (Hnone st m) as Hm.
    destruct (repl st m) as [st1 o]; simpl in Hm; subst o.
    rewrite <- (IH st1). destruct (sub_pieces repl l st1); reflexivity.
Qed.

Lemma last_hit_cons (m : rmatch) (l : list rmatch) :
  last_hit (m :: l) <> None.
Proof.
  revert m; induction l as [| r l IH]; intros m.
  - discriminate.
  - change (last_hit (m :: r :: l)) with (last_hit (r :: l)). apply IH.
Qed.

Lemma fold_last {S : Type} (f : rmatch -> S) (l : list rmatch) :
  forall st,
  fold_left (fun _ m => f m) l st
  = match last_hit l with Some m => f m | None => st end.
Proof.
  induction l as [| m l IH]; intros st.
  - reflexivity.
  - cbn [fold_left]. rewrite IH.
    destruct l as [| r l]; [reflexivity |].
    change (last_hit (m :: r :: l)) with (last_hit (r :: l)).
    pose proof (last_hit_cons r l) as H.
    destruct (last_hit (r :: l)); [reflexivity | contradiction].
Qed.

Lemma time_keeps (st : string) (m : rmatch) :
  st <> "" -> fst (time st m) = st.
Proof.
  intros H. unfold time.
  destruct (st =? "")%string eqn:E; [| reflexivity].
  apply String.eqb_eq in E. contradiction.
Qed.

Lemma fold_time_keeps (l : list rmatch) :
  forall st, st <> "" -> fold_left (fun st m => fst (time st m)) l st = st.
Proof.
  induction l as [| m l IH]; intros st H; simpl.
  - reflexivity.
  - rewrite (time_keeps st m H). apply IH; exact H.
Qed.

Lemma fold_time (l : list rmatch) (st : string) :
  fold_left (fun st m => fst (time st m)) l st
  = if (st =? "")%string then
      match l with
      | m :: _ => convertTimeGroup (lower (whole m))
      | [] => ""
      end
    else st.
Proof.
  destruct (st =? "")%string eqn:E.
  - apply String.eqb_eq in E; subst st.
    destruct l as [| m l]; simpl; [reflexivity |].
    apply fold_time_keeps, convertTimeGroup_nonempty.
  - apply fold_time_keeps. intros ->. discriminate E.
Qed.

(** The two substitutions of a cell do to the pair what the specification
    says: the last date announced, the first time range announced while
    none is held. *)
Lemma announce_update (yr : nat) (a : acc) (s : string) :
  fst (announce yr a s)
  = mkAcc (update_date yr (sectionDate a) s) (update_time (sectionTime a) s).
Proof.
  unfold announce, sub_call.
  pose proof (sub_pieces_state (date yr) (pieces dateSearch s) (sectionDate a))
    as Hd.
  pose proof (sub_pieces_text (date yr) (pieces dateSearch s)
                (fun _ _ => eq_refl) (sectionDate a)) as Ht.
  destruct (sub_pieces (date yr) (pieces dateSearch s) (sectionDate a))
    as [sd s1].
  simpl in Hd, Ht. subst s1.
  pose proof (sub_pieces_state time (pieces timeSearch (gaps (pieces dateSearch s)))
                (sectionTime a)) as Hs.
  destruct (sub_pieces time (pieces timeSearch (gaps (pieces dateSearch s)))
              (sectionTime a)) as [st s2].
  simpl in Hs. simpl. f_equal.
  - rewrite Hd. unfold date; simpl.
    unfold update_date, date_hits, finditer.
    apply (fold_last (fun m => date_of yr (whole m) formats)).
  - rewrite Hs. unfold update_time, time_hits, undated, finditer.
    apply fold_time.
Qed.

(** ** The rows of a block and the trace of the pair *)

Lemma row_v1_update (yr : nat) (a : acc) (row : list value) :
  fst (row_v1 yr a row) = update yr a row
  /\ finalDate (snd (row_v1 yr a row)) = sectionDate (update yr a row)
  /\ finalTime (snd (row_v1 yr a row)) = Str (sectionTime (update yr a row)).
Proof.
  unfold row_v1, update.
  destruct (cell row 1) as [| s].
  - repeat split.
  - pose proof (announce_update yr a s) as H.
    destruct (announce yr a s) as [a' s2]. simpl in H. subst a'.
    repeat split.
Qed.

Lemma row_v2_update (yr : nat) (a : acc) (row : list value)
    (x : acc * srow) :
  row_v2 yr a row = Ok x ->
  fst x = update yr a row
  /\ finalDate (snd x) = sectionDate (update yr a row)
  /\ finalTime (snd x) = Str (sectionTime (update yr a row)).
Proof.
  unfold row_v2, update.
  destruct (cell row 0) as [| c0]; [discriminate |].
  destruct (split_schedule c0) as [[d st] en].
  intros H. bind_inv H. bind_inv H. injection H as <-. simpl.
  destruct (cell row 1) as [| s].
  - repeat split.
  - rewrite announce_update. repeat split.
Qed.

Lemma loop_v1_trace (yr : nat) (rs : list (list value)) :
  forall a,
  map finalDate (loop_v1 yr a rs) = map sectionDate (trace yr a rs)
  /\ map finalTime (loop_v1 yr a rs) = map time_cell (trace yr a rs).
Proof.
  induction rs as [| row rs IH]; intros a.
  - split; reflexivity.
  - cbn [loop_v1 trace].
    destruct (row_v1_update yr a row) as (H1 & H2 & H3).
    destruct (row_v1 yr a row) as [a' out]. simpl in H1, H2, H3. subst a'.
    destruct (IH (update yr a row)) as [IH1 IH2].
    cbn [map]. rewrite H2, H3, IH1, IH2. split; reflexivity.
Qed.

Lemma loop_v2_trace (yr : nat) (rs : list (list value)) :
  forall a out,
  loop_v2 yr a rs = Ok out ->
  map finalDate out = map sectionDate (trace yr a rs)
  /\ map finalTime out = map time_cell (trace yr a rs).
Proof.
  induction rs as [| row rs IH]; intros a out H.
  - injection H as <-. split; reflexivity.
  - cbn [loop_v2] in H. bind_inv H. bind_inv H. injection H as <-.
    destruct (row_v2_update _ _ _ _ Hx) as (H1 & H2 & H3).
    rewrite H1 in Hx0.
    destruct (IH _ _ Hx0) as [IH1 IH2].
    cbn [map trace]. rewrite H2, H3, IH1, IH2. split; reflexivity.
Qed.

(** The rows a version walks are the rows of the block, less the one or
    two header rows version 2 drops. *)
Lemma parseBlock_v1_rows (yr : nat) (block : frame) (out : list srow) :
  parseBlock_v1 yr block = Ok out ->
  exists o0 o1 rest,
    loop_v1 yr acc0 (rows block) = o0 :: o1 :: rest
    /\ out = set_finalTime o0 (finalTime o1) :: o1 :: rest.
Proof.
  unfold parseBlock_v1. intros H. bind_inv H. unfold backfill in H.
  destruct (loop_v1 yr acc0 (rows block)) as [| o0 [| o1 rest]];
    try discriminate H.
  injection H as <-. exists o0, o1, rest. split; reflexivity.
Qed.

Lemma parseBlock_v2_rows (yr : nat) (block : frame) (out : list srow) :
  parseBlock_v2 yr block = Ok out ->
  exists pre rs,
    rows block = (pre ++ rs)%list /\ loop_v2 yr acc0 rs = Ok out.
Proof.
  unfold parseBlock_v2. intros H.
  bind_inv H. bind_inv H. bind_inv H. bind_inv H.
  unfold drop_first in Hx1.
  destruct x0 as [| h rs]; [discriminate |]. injection Hx1 as <-.
  destruct x.
  - injection Hx0 as E. exists [h], rs. split; [exact E | exact H].
  - unfold drop_first in Hx0.
    destruct (rows block) as [| h0 rs0] eqn:E; [discriminate |].
    injection Hx0 as E'. subst rs0.
    exists [h0; h], rs. split; [reflexivity | exact H].
Qed.

Lemma parseBlock_v2_header (yr : nat) (block : frame) (out : list srow) :
  parseBlock_v2 yr block = Ok out ->
  exists titled pre rs,
    title_in_columns (columns block) = Ok titled
    /\ rows block = (pre ++ rs)%list
    /\ List.length pre = (if titled then 1 else 2)
    /\ loop_v2 yr acc0 rs = Ok out.
Proof.
  unfold parseBlock_v2. intros H.
  apply bind_ok in H. destruct H as (titled & Ht & H).
  apply bind_ok in H. destruct H as (rs0 & H0 & H).
  apply bind_ok in H. destruct H as (rs & H1 & H).
  apply bind_ok in H. destruct H as (u & _ & H).
  unfold drop_first in H1.
  destruct rs0 as [| h rs']; [discriminate H1 |]. injection H1 as <-.
  exists titled. destruct titled.
  - injection H0 as E. exists [h], rs'.
    split; [exact Ht |]. split; [exact E |]. split; [reflexivity | exact H].
  - unfold drop_first in H0.
    destruct (rows block) as [| h0 rs0]; [discriminate H0 |].
    injection H0 as ->. exists [h0; h], rs'.
    split; [exact Ht |]. split; [reflexivity |].
    split; [reflexivity | exact H].
Qed.

(** Once a time is held it is held for the rest of the block. *)
Lemma update_keeps_time (yr : nat) (a : acc) (row : list value) :
  sectionTime a <> "" -> sectionTime (update yr a row) = sectionTime a.
Proof.
  intros H. unfold update.
  destruct (cell row 1) as [| s]; [reflexivity |]. simpl.
  unfold update_time.
  destruct (sectionTime a =? "")%string eqn:E; [| reflexivity].
  apply String.eqb_eq in E. contradiction.
Qed.

Lemma trace_keeps_time (yr : nat) (rs : list (list value)) :
  forall a j aj,
  sectionTime a <> "" ->
  nth_error (trace yr a rs) j = Some aj ->
  sectionTime aj = sectionTime a.
Proof.
  induction rs as [| row rs IH]; intros a j aj Ha Hj.
  - destruct j; discriminate Hj.
  - cbn [trace] in Hj.
    pose proof (update_keeps_time yr a row Ha) as Hu.
    destruct j as [| j]; simpl in Hj.
    + injection Hj as <-. exact Hu.
    + rewrite <- Hu. apply (IH _ j); [rewrite Hu; exact Ha | exact Hj].
Qed.

Lemma trace_time_persists (yr : nat) (rs : list (list value)) :
  forall a i j ai aj,
  i <= j ->
  nth_error (trace yr a rs) i = Some ai ->
  nth_error (trace yr a rs) j = Some aj ->
  sectionTime ai <> "" ->
  sectionTime aj = sectionTime ai.
Proof.
  induction rs as [| row rs IH]; intros a i j ai aj Hij Hi Hj Hne.
  - destruct i; discriminate Hi.
  - cbn [trace] in Hi, Hj.
    destruct i as [| i]; simpl in Hi.
    + injection Hi as <-.
      destruct j as [| j]; simpl in Hj.
      * injection Hj as <-. reflexivity.
      * exact (trace_keeps_time yr rs _ j aj Hne Hj).
    + destruct j as [| j]; [lia |]. simpl in Hj.
      apply (IH (update yr a row) i j); [lia | assumption ..].
Qed.

(** C4.  The pair ([sectionDate], [sectionTime]) of [parseBlock]: it starts
    empty; the rows walked are all the rows of the block in version 1, and
    the rows after the header rows in version 2 (one header row when a
    column label is an exam title, two otherwise); after each row walked
    the pair is what the specification's [update] makes of it (a cell that
    announces dates sets [sectionDate] to the canonical form of the last
    of them, [sectionTime] takes the first time range announced while it
    is empty, a cell without announcement leaves the pair alone); there is
    one row in the table for each row walked, every row carries the date
    of the pair after it, every row after the first carries its time (all
    rows in version 2), and a time once held is the time of every later
    row. *)
Theorem accumulator_of_block :
  forall (yr : nat) (block : frame) (version : nat) (out : list srow),
  parseBlock yr block version = Ok (Some out) ->
  exists pre rs,
    rows block = (pre ++ rs)%list
    /\ (version = 1 \/ version = 2)
    /\ (version = 1 -> pre = [])
    /\ (version = 2 ->
        exists titled,
          title_in_columns (columns block) = Ok titled
          /\ List.length pre = (if titled then 1 else 2))
    /\ List.length out = List.length rs
    /\ map finalDate out = map sectionDate (trace yr (mkAcc (Str "") "") rs)
    /\ tl (map finalTime out)
       = tl (map time_cell (trace yr (mkAcc (Str "") "") rs))
    /\ (version = 2 ->
        map finalTime out = map time_cell (trace yr (mkAcc (Str "") "") rs))
    /\ (forall i j ai aj,
          i <= j ->
          nth_error (trace yr (mkAcc (Str "") "") rs) i = Some ai ->
          nth_error (trace yr (mkAcc (Str "") "") rs) j = Some aj ->
          sectionTime ai <> "" ->
          sectionTime aj = sectionTime ai).
Proof.
  intros yr block version out H.
  assert (Hlen : forall rs,
            map finalDate out = map sectionDate (trace yr acc0 rs) ->
            List.length out = List.length rs).
  { intros rs E. apply (f_equal (@List.length value)) in E.
    rewrite !length_map in E. rewrite E. clear.
    generalize acc0. induction rs as [| row rs IH]; intros a;
      [reflexivity | cbn [trace List.length]; rewrite IH; reflexivity]. }
  unfold parseBlock in H.
  destruct version as [| [| [| v]]]; try discriminate H.
  - (* version 1 *)
    bind_inv H. injection H as <-.
    destruct (parseBlock_v1_rows _ _ _ Hx) as (o0 & o1 & rest & Hl & ->).
    destruct (loop_v1_trace yr (rows block) acc0) as [Hd Ht].
    rewrite Hl in Hd, Ht.
    exists [], (rows block). split; [reflexivity |].
    change (mkAcc (Str "") "") with acc0.
    split; [left; reflexivity |].
    split; [reflexivity |].
    split; [discriminate |].
    split; [apply Hlen; exact Hd |].
    split; [exact Hd |].
    split; [rewrite <- Ht; reflexivity |].
    split; [discriminate |].
    apply trace_time_persists.
  - (* version 2 *)
    bind_inv H. injection H as <-.
    destruct (parseBlock_v2_header _ _ _ Hx)
      as (titled & pre & rs & Htitle & Hrows & Hpre & Hl).
    destruct (loop_v2_trace _ _ _ _ Hl) as [Hd Ht].
    exists pre, rs. split; [exact Hrows |].
    change (mkAcc (Str "") "") with acc0.
    split; [right; reflexivity |].
    split; [discriminate |].
    split; [intros _; exists titled; split; assumption |].
    split; [apply Hlen; exact Hd |].
    split; [exact Hd |].
    split; [rewrite Ht; reflexivity |].
    split; [intros _; exact Ht |].
    apply trace_time_persists.
Qed.

(** Version 2 on a block of four rows: the date follows the last
    announcement (Apr 28, then Apr 29 from the third row on), the time is
    the first one announced for all four rows, and the rows that announce
    nothing carry the pair of the row before.  Version 1 on a block of
    three rows all of which are walked. *)
Lemma accumulator_of_block_witness :
  parseBlock 2025 Examples.week_block 2
  = Ok (Some [mkRow (Str "MW") (Str "0800 - 0915") (Str "Apr 28, 2025")
                    (Str "0800 - 1050");
              mkRow (Str "TR") (Str "0800 - 0915") (Str "Apr 28, 2025")
                    (Str "0800 - 1050");
              mkRow (Str "F") (Str "0800 - 0915") (Str "Apr 29, 2025")
                    (Str "0800 - 1050");
              mkRow (Str "MWF") (Str "0930 - 1020") (Str "Apr 29, 2025")
                    (Str "0800 - 1050")])
  /\ (exists pre rs,
        rows Examples.week_block = (pre ++ rs)%list
        /\ List.length pre = 1
        /\ List.length rs = 4
        /\ [Str "Apr 28, 2025"; Str "Apr 28, 2025"; Str "Apr 29, 2025";
            Str "Apr 29, 2025"]
           = map sectionDate (trace 2025 (mkAcc (Str "") "") rs)
        /\ [Str "0800 - 1050"; Str "0800 - 1050"; Str "0800 - 1050";
            Str "0800 - 1050"]
           = map time_cell (trace 2025 (mkAcc (Str "") "") rs))
  /\ parseBlock 2024 Examples.full_block 1
     = Ok (Some [mkRow (Str "MW") (Str "0800 - 0915") (Str "Dec 09, 2024")
                       (Str "0800 - 1050");
                 mkRow (Str "TR") (Str "0800 - 0915") (Str "Dec 09, 2024")
                       (Str "0800 - 1050");
                 mkRow (Str "F") Null (Str "Dec 09, 2024")
                       (Str "0800 - 1050")])
  /\ [Str "Dec 09, 2024"; Str "Dec 09, 2024"; Str "Dec 09, 2024"]
     = map sectionDate
         (trace 2024 (mkAcc (Str "") "") (rows Examples.full_block)).
Proof.
  assert (H2 : parseBlock 2025 Examples.week_block 2
    = Ok (Some [mkRow (Str "MW") (Str "0800 - 0915") (Str "Apr 28, 2025")
                      (Str "0800 - 1050");
                mkRow (Str "TR") (Str "0800 - 0915") (Str "Apr 28, 2025")
                      (Str "0800 - 1050");
                mkRow (Str "F") (Str "0800 - 0915") (Str "Apr 29, 2025")
                      (Str "0800 - 1050");
                mkRow (Str "MWF") (Str "0930 - 1020") (Str "Apr 29, 2025")
                      (Str "0800 - 1050")])).
  { vm_compute; reflexivity. }
  assert (H1 : parseBlock 2024 Examples.full_block 1
    = Ok (Some [mkRow (Str "MW") (Str "0800 - 0915") (Str "Dec 09, 2024")
                      (Str "0800 - 1050");
                mkRow (Str "TR") (Str "0800 - 0915") (Str "Dec 09, 2024")
                      (Str "0800 - 1050");
                mkRow (Str "F") Null (Str "Dec 09, 2024")
                      (Str "0800 - 1050")])).
  { vm_compute; reflexivity. }
  split; [exact H2 |]. split.
  - destruct (accumulator_of_block 2025 Examples.week_block 2 _ H2)
      as (pre & rs & Hrows & _ & _ & Hpre & Hlen & Hd & _ & Ht & _).
    destruct (Hpre eq_refl) as (titled & Htitle & Hp).
    assert (Et : titled = true).
    { assert (E : title_in_columns (columns Examples.week_block) = Ok true)
        by (vm_compute; reflexivity).
      rewrite E in Htitle. injection Htitle as <-. reflexivity. }
    subst titled.
    exists pre, rs. split; [exact Hrows |]. split; [exact Hp |].
    split; [symmetry; exact Hlen |]. split; [exact Hd | exact (Ht eq_refl)].
  - split; [exact H1 |].
    destruct (accumulator_of_block 2024 Examples.full_block 1 _ H1)
      as (pre & rs & Hrows & _ & Hpre & _ & _ & Hd & _).
    rewrite (Hpre eq_refl) in Hrows. cbn [app] in Hrows. rewrite Hrows.
    exact Hd.
Defined.

(** ** Population of [finalDate] and [finalTime] *)

Lemma balanced_start : balanced acc0.
Proof. reflexivity. Qed.

Lemma update_balanced (yr : nat) (a : acc) (row : list value) :
  whole_announcement yr row = true ->
  balanced a -> balanced (update yr a row).
Proof.
  unfold whole_announcement, update, balanced.
  destruct (cell row 1) as [| s]; [intros _ H; exact H |].
  intros Hw Ha. simpl. unfold update_date, update_time.
  destruct (last_hit (date_hits s)) as [m |].
  - destruct (time_hits s) as [| t ts]; [discriminate Hw |].
    rewrite Hw.
    destruct (sectionTime a =? "")%string eqn:E.
    + pose proof (convertTimeGroup_nonempty (lower (whole t))) as Hne.
      destruct (convertTimeGroup (lower (whole t)) =? "")%string eqn:E';
        [apply String.eqb_eq in E'; contradiction | reflexivity].
    + rewrite E. reflexivity.
  - destruct (time_hits s) as [| t ts]; [| discriminate Hw].
    rewrite Ha. destruct (sectionTime a =? "")%string eqn:E.
    + reflexivity.
    + rewrite E. reflexivity.
Qed.

Lemma trace_balanced (yr : nat) (rs : list (list value)) :
  forall a,
  forallb (whole_announcement yr) rs = true ->
  balanced a ->
  Forall balanced (trace yr a rs).
Proof.
  induction rs as [| row rs IH]; intros a Hw Ha.
  - constructor.
  - cbn [forallb] in Hw. apply andb_prop in Hw. destruct Hw as [Hrow Hrs].
    cbn [trace].
    pose proof (update_balanced yr a row Hrow Ha) as Hu.
    constructor; [exact Hu | apply IH; assumption].
Qed.

Lemma paired_of_trace (out : list srow) :
  forall tr,
  map finalDate out = map sectionDate tr ->
  map finalTime out = map time_cell tr ->
  Forall balanced tr ->
  forallb paired out = true.
Proof.
  induction out as [| r out IH]; intros tr Hd Ht Hb.
  - reflexivity.
  - destruct tr as [| a tr]; [discriminate Hd |].
    cbn [map] in Hd, Ht. injection Hd as Hd1 Hd2. injection Ht as Ht1 Ht2.
    inversion Hb as [| ? ? Ha Htr]; subst.
    cbn [forallb]. rewrite (IH tr Hd2 Ht2 Htr), andb_true_r.
    unfold paired. rewrite Hd1, Ht1. unfold time_cell, populated at 2.
    rewrite Ha. apply Bool.eqb_reflx.
Qed.

Lemma forallb_app_r {A} (f : A -> bool) (l1 l2 : list A) :
  forallb f (l1 ++ l2)%list = true -> forallb f l2 = true.
Proof.
  rewrite forallb_app. intros H. apply andb_prop in H. apply H.
Qed.

(** C2, as the code has it.  When every cell of the block announces
    nothing, or a time range together with a date that parses, every row of
    a version-2 table, and every row after the first of a version-1 table,
    has [finalDate] and [finalTime] both populated or both empty. *)
Theorem paired_when_announcements_whole :
  forall (yr : nat) (block : frame) (version : nat) (out : list srow),
  parseBlock yr block version = Ok (Some out) ->
  forallb (whole_announcement yr) (rows block) = true ->
  forallb paired (match version with 1 => tl out | _ => out end) = true.
Proof.
  intros yr block version out H Hw.
  unfold parseBlock in H.
  destruct version as [| [| [| v]]]; try discriminate H.
  - bind_inv H. injection H as <-.
    destruct (parseBlock_v1_rows _ _ _ Hx) as (o0 & o1 & rest & Hl & ->).
    destruct (loop_v1_trace yr (rows block) acc0) as [Hd Ht].
    rewrite Hl in Hd, Ht.
    pose proof (trace_balanced yr (rows block) acc0 Hw balanced_start) as Hb.
    destruct (trace yr acc0 (rows block)) as [| a tr]; [discriminate Hd |].
    cbn [map] in Hd, Ht. injection Hd as _ Hd. injection Ht as _ Ht.
    inversion Hb as [| ? ? _ Htr]; subst.
    cbn [tl]. exact (paired_of_trace (o1 :: rest) tr Hd Ht Htr).
  - bind_inv H. injection H as <-.
    destruct (parseBlock_v2_rows _ _ _ Hx) as (pre & rs & Hrows & Hl).
    destruct (loop_v2_trace _ _ _ _ Hl) as [Hd Ht].
    rewrite Hrows in Hw. apply forallb_app_r in Hw.
    exact (paired_of_trace _ _ Hd Ht
             (trace_balanced yr rs acc0 Hw balanced_start)).
Qed.

Lemma paired_when_announcements_whole_witness :
  parseBlock 2024 Examples.full_block 1
  = Ok (Some [mkRow (Str "MW") (Str "0800 - 0915") (Str "Dec 09, 2024")
                    (Str "0800 - 1050");
              mkRow (Str "TR") (Str "0800 - 0915") (Str "Dec 09, 2024")
                    (Str "0800 - 1050");
              mkRow (Str "F") Null (Str "Dec 09, 2024") (Str "0800 - 1050")])
  /\ forallb (whole_announcement 2024) (rows Examples.full_block) = true
  /\ forallb paired
       [mkRow (Str "TR") (Str "0800 - 0915") (Str "Dec 09, 2024")
              (Str "0800 - 1050");
        mkRow (Str "F") Null (Str "Dec 09, 2024") (Str "0800 - 1050")]
     = true.
Proof.
  assert (H : parseBlock 2024 Examples.full_block 1
    = Ok (Some [mkRow (Str "MW") (Str "0800 - 0915") (Str "Dec 09, 2024")
                      (Str "0800 - 1050");
                mkRow (Str "TR") (Str "0800 - 0915") (Str "Dec 09, 2024")
                      (Str "0800 - 1050");
                mkRow (Str "F") Null (Str "Dec 09, 2024") (Str "0800 - 1050")])).
  { vm_compute; reflexivity. }
  assert (Hw : forallb (whole_announcement 2024) (rows Examples.full_block)
               = true).
  { vm_compute; reflexivity. }
  split; [exact H |]. split; [exact Hw |].
  exact (paired_when_announcements_whole 2024 Examples.full_block 1 _ H Hw).
Defined.

(** C2, as stated, fails: a version-2 row whose cell holds a date and no
    time range carries that date and an empty time. *)
Lemma partial_population_counterexample :
  parseBlock 2025 Examples.date_only_block 2
  = Ok (Some [mkRow (Str "MW") (Str "0800 - 0915") (Str "Apr 28, 2025")
                    (Str "")])
  /\ paired (mkRow (Str "MW") (Str "0800 - 0915") (Str "Apr 28, 2025")
                   (Str "")) = false.
Proof. split; vm_compute; reflexivity. Qed.

(** ** Version 1: the time of the first row *)

Lemma loop_v1_two (yr : nat) (a : acc) (r0 r1 : list value)
    (rest : list (list value)) :
  exists o0 o1 out,
    loop_v1 yr a (r0 :: r1 :: rest) = o0 :: o1 :: out
    /\ List.length out = List.length rest
    /\ finalTime o1 = time_cell (update yr (update yr a r0) r1).
Proof.
  cbn [loop_v1].
  destruct (row_v1_update yr a r0) as (H0 & _ & _).
  destruct (row_v1 yr a r0) as [a0 o0]. simpl in H0. subst a0.
  destruct (row_v1_update yr (update yr a r0) r1) as (H1 & _ & H3).
  destruct (row_v1 yr (update yr a r0) r1) as [a1 o1]. simpl in H1, H3.
  exists o0, o1, (loop_v1 yr a1 rest).
  split; [reflexivity |]. split; [| exact H3].
  clear. revert a1. induction rest as [| row rest IH]; intros a1.
  - reflexivity.
  - cbn [loop_v1]. destruct (row_v1 yr a1 row) as [a2 o2].
    simpl. f_equal. apply IH.
Qed.

(** C7.  Version 1 of [parseBlock], on a block of two columns and at least
    two rows: the table returned has the first row's [finalTime] equal to
    the second row's, which is the time of the pair after the second row.
    In particular, when the block has two rows, the first resolves no time
    and the second resolves "0800 - 0915", the first row of the table
    carries "0800 - 0915" too. *)
Theorem first_row_backfill :
  (forall (yr : nat) (block : frame) (r0 r1 : list value)
          (rest : list (list value)),
      List.length (columns block) = 2 ->
      rows block = r0 :: r1 :: rest ->
      exists o0 o1 out,
        parseBlock yr block 1 = Ok (Some (o0 :: o1 :: out))
        /\ List.length out = List.length rest
        /\ finalTime o0 = finalTime o1
        /\ finalTime o1 = time_cell (update yr (update yr acc0 r0) r1))
  /\ (forall (yr : nat) (block : frame) (r0 r1 : list value),
        List.length (columns block) = 2 ->
        rows block = [r0; r1] ->
        sectionTime (update yr acc0 r0) = "" ->
        sectionTime (update yr (update yr acc0 r0) r1) = "0800 - 0915" ->
        exists o0 o1,
          parseBlock yr block 1 = Ok (Some [o0; o1])
          /\ finalTime o0 = Str "0800 - 0915"
          /\ finalTime o1 = Str "0800 - 0915").
Proof.
  assert (G : forall yr block r0 r1 rest,
             List.length (columns block) = 2 ->
             rows block = r0 :: r1 :: rest ->
             exists o0 o1 out,
               parseBlock yr block 1 = Ok (Some (o0 :: o1 :: out))
               /\ List.length out = List.length rest
               /\ finalTime o0 = finalTime o1
               /\ finalTime o1 = time_cell (update yr (update yr acc0 r0) r1)).
  { intros yr block r0 r1 rest Hc Hr.
    destruct (loop_v1_two yr acc0 r0 r1 rest) as (o0 & o1 & out & Hl & Hn & Ht).
    exists (set_finalTime o0 (finalTime o1)), o1, out.
    split; [| split; [exact Hn | split; [reflexivity | exact Ht]]].
    unfold parseBlock, parseBlock_v1, two_columns.
    rewrite Hc, Hr, Hl. reflexivity. }
  split; [exact G |].
  intros yr block r0 r1 Hc Hr _ H1.
  destruct (G yr block r0 r1 [] Hc Hr) as (o0 & o1 & out & Hp & Hn & H01 & Ht).
  destruct out; [| discriminate Hn].
  exists o0, o1. split; [exact Hp |].
  unfold time_cell in Ht. rewrite H1 in Ht.
  split; [rewrite H01 |]; exact Ht.
Qed.

Lemma first_row_backfill_witness :
  List.length (columns Examples.two_rows) = 2
  /\ rows Examples.two_rows
     = [ [Str "MW"; Str "Monday, Dec 9"]; [Str "TR"; Str "8:00 AM - 9:15 AM"] ]
  /\ sectionTime (update 2024 acc0 [Str "MW"; Str "Monday, Dec 9"]) = ""
  /\ sectionTime (update 2024 (update 2024 acc0 [Str "MW"; Str "Monday, Dec 9"])
                    [Str "TR"; Str "8:00 AM - 9:15 AM"]) = "0800 - 0915"
  /\ exists o0 o1,
       parseBlock 2024 Examples.two_rows 1 = Ok (Some [o0; o1])
       /\ finalTime o0 = Str "0800 - 0915"
       /\ finalTime o1 = Str "0800 - 0915".
Proof.
  assert (H1 : sectionTime (update 2024 acc0 [Str "MW"; Str "Monday, Dec 9"])
               = "").
  { vm_compute; reflexivity. }
  assert (H2 : sectionTime
                 (update 2024 (update 2024 acc0 [Str "MW"; Str "Monday, Dec 9"])
                    [Str "TR"; Str "8:00 AM - 9:15 AM"]) = "0800 - 0915").
  { vm_compute; reflexivity. }
  split; [reflexivity |]. split; [reflexivity |].
  split; [exact H1 |]. split; [exact H2 |].
  destruct first_row_backfill as [_ P].
  exact (P 2024 Examples.two_rows _ _ eq_refl eq_refl H1 H2).
Defined.

(** ** The assembled schedule table *)

Lemma held_concat_rows (schedule : option (list srow)) (block : list srow) :
  held (concat_rows schedule block) = (held schedule ++ block)%list.
Proof. destruct schedule; reflexivity. Qed.

Lemma finish_held (schedule : option (list srow)) (table : list srow) :
  finish schedule = Ok table -> table = map clean_row (held schedule).
Proof.
  destruct schedule; simpl; intros H; [| discriminate H].
  injection H as <-. reflexivity.
Qed.

Lemma loop_chunks_v2_blocks (yr : nat) (read : list frame) :
  forall schedule res,
  loop_chunks_v2 yr read schedule = Ok res ->
  exists blocks,
    mapM (parseBlock_v2 yr) (filter (fun c => negb (skipped c)) read)
    = Ok blocks
    /\ held res = (held schedule ++ List.concat blocks)%list.
Proof.
  induction read as [| chunk read IH]; intros schedule res H.
  - injection H as <-. exists []. split; [reflexivity |].
    simpl. rewrite app_nil_r. reflexivity.
  - cbn [loop_chunks_v2 filter] in *.
    destruct (skipped chunk); cbn [negb].
    + exact (IH _ _ H).
    + bind_inv H. destruct (IH _ _ H) as (blocks & Hb & Hh).
      exists (x :: blocks). split.
      * cbn [mapM]. rewrite Hx, Hb. reflexivity.
      * rewrite Hh, held_concat_rows, <- app_assoc. reflexivity.
Qed.

Lemma section_v1_rows (yr : nat) (chunk : frame) (st st' : v1_state)
    (c : Z * Z * nat) (bs : list (list srow)) :
  section_v1 yr chunk st c = Ok st' ->
  exists extra,
    section_rows yr chunk (bs, v1_sections st) c
    = Ok ((bs ++ extra)%list, v1_sections st')
    /\ held (v1_schedule st')
       = (held (v1_schedule st) ++ List.concat extra)%list.
Proof.
  unfold section_v1, section_rows. destruct c as [[start stop] terminate].
  intros H. bind_inv H. rewrite Hx. cbn [bind snd fst].
  destruct (existsb (value_eqb x) (v1_sections st)).
  - injection H as <-. exists []. rewrite !app_nil_r. split; reflexivity.
  - bind_inv H. bind_inv H. injection H as <-.
    rewrite Hx0. cbn [bind]. rewrite Hx1. cbn [bind].
    exists [x1]. split; [reflexivity |].
    cbn [v1_schedule List.concat]. rewrite held_concat_rows, app_nil_r.
    reflexivity.
Qed.

Lemma loop_sections_v1_rows (yr : nat) (chunk : frame)
    (cs : list (Z * Z * nat)) :
  forall st st' bs,
  loop_sections_v1 yr chunk st cs = Ok st' ->
  exists extra,
    sections_rows yr chunk (bs, v1_sections st) cs
    = Ok ((bs ++ extra)%list, v1_sections st')
    /\ held (v1_schedule st')
       = (held (v1_schedule st) ++ List.concat extra)%list.
Proof.
  induction cs as [| c cs IH]; intros st st' bs H.
  - injection H as <-. exists []. rewrite !app_nil_r. split; reflexivity.
  - cbn [loop_sections_v1 sections_rows] in *. bind_inv H.
    destruct (section_v1_rows _ _ _ _ _ bs Hx) as (e1 & H1 & Hh1).
    destruct (IH _ _ (bs ++ e1)%list H) as (e2 & H2 & Hh2).
    exists (e1 ++ e2)%list. rewrite H1. cbn [bind]. rewrite H2.
    split; [rewrite app_assoc; reflexivity |].
    rewrite Hh2, Hh1, concat_app, app_assoc. reflexivity.
Qed.

Lemma loop_chunks_v1_rows (yr : nat) (read : list frame) :
  forall st st' bs,
  loop_chunks_v1 yr read st = Ok st' ->
  exists extra,
    chunks_rows yr read (bs, v1_sections st)
    = Ok ((bs ++ extra)%list, v1_sections st')
    /\ held (v1_schedule st')
       = (held (v1_schedule st) ++ List.concat extra)%list.
Proof.
  induction read as [| chunk read IH]; intros st st' bs H.
  - injection H as <-. exists []. rewrite !app_nil_r. split; reflexivity.
  - cbn [loop_chunks_v1 chunks_rows] in *. bind_inv H. bind_inv H.
    rewrite Hx. cbn [bind].
    destruct (loop_sections_v1_rows _ _ _ _ _ bs Hx0) as (e1 & H1 & Hh1).
    destruct (IH _ _ (bs ++ e1)%list H) as (e2 & H2 & Hh2).
    exists (e1 ++ e2)%list. rewrite H1. cbn [bind]. rewrite H2.
    split; [rewrite app_assoc; reflexivity |].
    rewrite Hh2, Hh1, concat_app, app_assoc. reflexivity.
Qed.

Lemma carriers_app (k : value * value) (l1 l2 : list srow) :
  carriers k (l1 ++ l2)%list = carriers k l1 + carriers k l2.
Proof. unfold carriers. rewrite filter_app, length_app. reflexivity. Qed.

Lemma carriers_concat (k : value * value) (blocks : list (list srow)) :
  carriers k (map clean_row (List.concat blocks))
  = list_sum (map (fun b => carriers k (map clean_row b)) blocks).
Proof.
  induction blocks as [| b blocks IH]; simpl.
  - reflexivity.
  - rewrite map_app, carriers_app, IH. reflexivity.
Qed.

(** C3, as the code has it.  The table a [parseFile] assembles holds every
    row of every block it reconstructed, in order and cleaned: the blocks
    are those of the chunks not skipped (versions 2 and 3) or of the
    sections whose label was not seen before (version 1).  No row is
    removed for its key: a key is carried by as many rows as the blocks
    hold for it. *)
Theorem schedule_keeps_every_row :
  forall (yr : nat) (read : list frame) (table : list srow),
  (schedule_v2 yr read = Ok table ->
   exists blocks,
     mapM (parseBlock_v2 yr) (filter (fun c => negb (skipped c)) read)
     = Ok blocks
     /\ table = map clean_row (List.concat blocks)
     /\ forall k, carriers k table
                  = list_sum (map (fun b => carriers k (map clean_row b))
                                  blocks))
  /\ (schedule_v3 yr read = Ok table ->
      exists blocks,
        mapM (parseBlock_v2 yr)
             (filter (fun c => negb (skipped c)) (map first_two read))
        = Ok blocks
        /\ table = map clean_row (List.concat blocks)
        /\ forall k, carriers k table
                     = list_sum (map (fun b => carriers k (map clean_row b))
                                     blocks))
  /\ (schedule_v1 yr read = Ok table ->
      exists blocks labels,
        chunks_rows yr read ([], []) = Ok (blocks, labels)
        /\ table = map clean_row (List.concat blocks)
        /\ forall k, carriers k table
                     = list_sum (map (fun b => carriers k (map clean_row b))
                                     blocks)).
Proof.
  intros yr read table.
  assert (V2 : forall read,
             schedule_v2 yr read = Ok table ->
             exists blocks,
               mapM (parseBlock_v2 yr)
                    (filter (fun c => negb (skipped c)) read) = Ok blocks
               /\ table = map clean_row (List.concat blocks)
               /\ forall k, carriers k table
                    = list_sum (map (fun b => carriers k (map clean_row b))
                                    blocks)).
  { clear read. intros read H. unfold schedule_v2 in H. bind_inv H.
    destruct (loop_chunks_v2_blocks _ _ _ _ Hx) as (blocks & Hb & Hh).
    apply finish_held in H. rewrite Hh in H. simpl in H.
    exists blocks. split; [exact Hb |]. split; [exact H |].
    intros k. rewrite H. apply carriers_concat. }
  split; [apply V2 |]. split; [apply V2 |].
  intros H. unfold schedule_v1 in H. bind_inv H.
  destruct (loop_chunks_v1_rows _ _ _ _ [] Hx) as (blocks & Hb & Hh).
  apply finish_held in H. rewrite Hh in H. simpl in H, Hb.
  exists blocks, (v1_sections x). split; [exact Hb |]. split; [exact H |].
  intros k. rewrite H. apply carriers_concat.
Qed.

Lemma schedule_keeps_every_row_witness :
  schedule_v2 2025 [Examples.morning_block; Examples.evening_block]
  = Ok [mkRow (Str "MW") (Str "0800 - 0915") (Str "Apr 28, 2025")
              (Str "0800 - 1050");
        mkRow (Str "MW") (Str "0800 - 0915") (Str "Apr 29, 2025")
              (Str "1800 - 2050")]
  /\ exists blocks,
       mapM (parseBlock_v2 2025)
            (filter (fun c => negb (skipped c))
                    [Examples.morning_block; Examples.evening_block])
       = Ok blocks
       /\ [mkRow (Str "MW") (Str "0800 - 0915") (Str "Apr 28, 2025")
                 (Str "0800 - 1050");
           mkRow (Str "MW") (Str "0800 - 0915") (Str "Apr 29, 2025")
                 (Str "1800 - 2050")]
          = map clean_row (List.concat blocks)
       /\ forall k,
            carriers k
              [mkRow (Str "MW") (Str "0800 - 0915") (Str "Apr 28, 2025")
                     (Str "0800 - 1050");
               mkRow (Str "MW") (Str "0800 - 0915") (Str "Apr 29, 2025")
                     (Str "1800 - 2050")]
            = list_sum (map (fun b => carriers k (map clean_row b)) blocks).
Proof.
  assert (H : schedule_v2 2025 [Examples.morning_block; Examples.evening_block]
              = Ok [mkRow (Str "MW") (Str "0800 - 0915") (Str "Apr 28, 2025")
                          (Str "0800 - 1050");
                    mkRow (Str "MW") (Str "0800 - 0915") (Str "Apr 29, 2025")
                          (Str "1800 - 2050")]).
  { vm_compute; reflexivity. }
  split; [exact H |].
  exact (proj1 (schedule_keeps_every_row 2025
                  [Examples.morning_block; Examples.evening_block] _) H).
Defined.

(** C3, as stated, fails: two blocks with the row "MW8:00 AM9:15 AM" give a
    table in which two rows carry the key ("MW", "0800 - 0915"), the first
    one still there. *)
Lemma duplicate_key_counterexample :
  schedule_v2 2025 [Examples.morning_block; Examples.evening_block]
  = Ok [mkRow (Str "MW") (Str "0800 - 0915") (Str "Apr 28, 2025")
              (Str "0800 - 1050");
        mkRow (Str "MW") (Str "0800 - 0915") (Str "Apr 29, 2025")
              (Str "1800 - 2050")]
  /\ carriers (Str "MW", Str "0800 - 0915")
       [mkRow (Str "MW") (Str "0800 - 0915") (Str "Apr 28, 2025")
              (Str "0800 - 1050");
        mkRow (Str "MW") (Str "0800 - 0915") (Str "Apr 29, 2025")
              (Str "1800 - 2050")] = 2.
Proof. split; vm_compute; reflexivity. Qed.

(** ** The common-exam table *)

(** The two [explode] of one row are the entries of its course field. *)
Lemma expand_mentions (d t : string) (mentions : list string) :
  (l <- mapM (fun r => cs <- splitCourse (Course r) ;; Ok (cs, r))
             (map (fun c => mkCrow c d t) mentions) ;;
   Ok (explode l))
  = (ls <- mapM splitCourse mentions ;;
     Ok (map (fun c => mkCrow c d t) (List.concat ls))).
Proof.
  induction mentions as [| m mentions IH]; [reflexivity |].
  cbn [map mapM Course].
  destruct (splitCourse m) as [cs | e]; [| reflexivity].
  cbn [bind] in *.
  destruct (mapM _ (map _ mentions)) as [bs | e1];
    destruct (mapM splitCourse mentions) as [ls | e2];
    cbn [bind] in *; try discriminate IH; [| exact IH].
  injection IH as IH.
  unfold explode in *. cbn [flat_map fst snd Date CTime List.concat].
  rewrite IH, map_app. reflexivity.
Qed.

Lemma explode_app (l1 l2 : list (list string * crow)) :
  explode (l1 ++ l2)%list = (explode l1 ++ explode l2)%list.
Proof. unfold explode. apply flat_map_app. Qed.

Lemma entries_unfold (r : crow) :
  entries r
  = (ls <- mapM splitCourse (split ", " (Course r)) ;;
     Ok (map (fun c => mkCrow c (Date r) (CTime r)) (List.concat ls))).
Proof.
  unfold entries, identifiers.
  destruct (mapM splitCourse (split ", " (Course r))); reflexivity.
Qed.

Lemma expand_entries (l : list crow) :
  expand l = (ll <- mapM entries l ;; Ok (List.concat ll)).
Proof.
  unfold expand.
  induction l as [| r l IH]; [reflexivity |].
  cbn [map mapM].
  change (explode ((split ", " (Course r), r) :: ?x))
    with ((map (fun c => mkCrow c (Date r) (CTime r)) (split ", " (Course r))
           ++ explode x)%list).
  rewrite mapM_app.
  pose proof (expand_mentions (Date r) (CTime r) (split ", " (Course r)))
    as Hr.
  rewrite entries_unfold.
  destruct (mapM _ (map _ (split ", " (Course r)))) as [bs | e1];
    destruct (mapM splitCourse (split ", " (Course r))) as [ls | e2];
    cbn [bind] in *; try discriminate Hr; [| exact Hr].
  injection Hr as Hr.
  destruct (mapM _ (explode _)) as [cs | e3];
    destruct (mapM entries l) as [ll | e4];
    cbn [bind] in *; try discriminate IH; [| exact IH].
  injection IH as IH.
  rewrite explode_app, Hr, IH. reflexivity.
Qed.

Lemma entries_share (r : crow) (es : list crow) (e : crow) :
  entries r = Ok es -> In e es -> Date e = Date r /\ CTime e = CTime r.
Proof.
  unfold entries. intros H Hin. bind_inv H. injection H as <-.
  apply in_map_iff in Hin. destruct Hin as (c & <- & _). split; reflexivity.
Qed.

(** The entry of the specification: its date in the year [yr]. *)
Lemma convert_apr25 (yr : nat) :
  1 <= yr <= MAXYEAR -> convert yr "Thurs, Apr 25" = Ok (apr25 yr).
Proof.
  intros Hyr. unfold convert.
  replace (abbreviate "Thurs, Apr 25") with "Thu, Apr 25"
    by (vm_compute; reflexivity).
  unfold try_format at 1.
  replace (strptime "Thu, Apr 25" [Dir Da; Lit ","; Blank; Dir Db; Blank; Dir Dd])
    with (Some (mkDate 1900 4 25)) by (vm_compute; reflexivity).
  unfold replace_year, valid_date.
  cbn [year month Strptime.day days_in_month].
  destruct Hyr as [H1 H2].
  apply Nat.leb_le in H1, H2. rewrite H1, H2.
  reflexivity.
Qed.

Lemma apr25_clean_all : forallb apr25_clean (List.seq 0 (S MAXYEAR)) = true.
Proof. vm_compute. reflexivity. Qed.

Lemma clean_apr25 (yr : nat) : yr <= MAXYEAR -> clean (apr25 yr) = apr25 yr.
Proof.
  intros H.
  pose proof (proj1 (forallb_forall _ _) apr25_clean_all yr) as Hall.
  apply String.eqb_eq, Hall, in_seq. lia.
Qed.

Lemma rows_of_common_chunk :
  rows_of Examples.common_chunk
  = Ok [mkCrow "CS 1331/1332, CS 1371  " "Thurs, Apr 25" "1440 - 1730"].
Proof. vm_compute. reflexivity. Qed.

Lemma expand_example (d t : string) :
  expand [mkCrow "CS 1331/1332, CS 1371  " d t]
  = Ok [mkCrow "CS 1331" d t; mkCrow "CS 1332" d t; mkCrow "CS 1371" d t].
Proof. vm_compute. reflexivity. Qed.

(** C6, as the code has it.  The two [explode] of [parseCommon] give, for
    every row, one entry per course identifier of its course field (the
    mentions between ", "), and every entry has the date and the time of
    its row.  A mention is cut at blanks; its second token is split on "/"
    and each piece joined to the first token by a blank; further tokens
    are ignored and a mention of fewer than two tokens raises
    [IndexError].  For a mention of exactly two tokens the second token is
    the trailing one, and the result is the one of the specification.  The
    raw entry "CS 1331/1332, CS 1371  Thurs, Apr 25" with the time
    "2:40 pm 5:30 pm" becomes the three entries CS 1331, CS 1332 and
    CS 1371, each with the date "Apr 25, <year>" and the time
    "1440 - 1730", for every document year from 1 to 9999. *)
Theorem common_exam_expansion :
  (forall l, expand l = (ll <- mapM entries l ;; Ok (List.concat ll)))
  /\ (forall r es e,
        entries r = Ok es -> In e es ->
        Date e = Date r /\ CTime e = CTime r)
  /\ (forall mention,
        match words mention with
        | department :: numbers :: _ =>
            splitCourse mention
            = Ok (map (fun number => department ++ " " ++ number)
                      (split "/" numbers))
        | _ => splitCourse mention = Raise IndexError
        end)
  /\ (forall mention department numbers,
        words mention = [department; numbers] ->
        exists ids,
          splitCourse mention = Ok ids /\ trailing_split mention = Some ids)
  /\ (forall yr,
        1 <= yr <= MAXYEAR ->
        parseCommon yr (Some [Examples.common_chunk])
        = Ok (Some [mkCrow "CS 1331" ("Apr 25, " ++ str yr) "1440 - 1730";
                    mkCrow "CS 1332" ("Apr 25, " ++ str yr) "1440 - 1730";
                    mkCrow "CS 1371" ("Apr 25, " ++ str yr) "1440 - 1730"])).
Proof.
  split; [exact expand_entries |].
  split; [exact entries_share |].
  split.
  { intros mention. unfold splitCourse.
    destruct (words mention) as [| department [| numbers ts]]; reflexivity. }
  split.
  { intros mention department numbers E.
    exists (map (fun number => department ++ " " ++ number)
                (split "/" numbers)).
    unfold splitCourse, trailing_split. rewrite E. cbn [rev app].
    split; [reflexivity |].
    cbn [String.concat]. reflexivity. }
  intros yr Hyr.
  unfold parseCommon.
  change (find_common [Examples.common_chunk] None)
    with (Some Examples.common_chunk).
  unfold common_of. rewrite rows_of_common_chunk. cbn [bind].
  unfold dated. cbn [mapM Date Course CTime].
  rewrite (convert_apr25 yr Hyr). cbn [bind].
  rewrite expand_example. cbn [bind map].
  unfold clean_crow. cbn [Date Course CTime].
  rewrite (clean_apr25 yr (proj2 Hyr)).
  replace (clean "1440 - 1730") with "1440 - 1730" by (vm_compute; reflexivity).
  reflexivity.
Qed.

Lemma common_exam_expansion_witness :
  1 <= 2024 <= MAXYEAR
  /\ parseCommon 2024 (Some [Examples.common_chunk])
     = Ok (Some [mkCrow "CS 1331" "Apr 25, 2024" "1440 - 1730";
                 mkCrow "CS 1332" "Apr 25, 2024" "1440 - 1730";
                 mkCrow "CS 1371" "Apr 25, 2024" "1440 - 1730"])
  /\ words "CS 1331/1332" = ["CS"; "1331/1332"]
  /\ exists ids,
       splitCourse "CS 1331/1332" = Ok ids
       /\ trailing_split "CS 1331/1332" = Some ids.
Proof.
  assert (H : 1 <= 2024 <= MAXYEAR) by (unfold MAXYEAR; lia).
  assert (W : words "CS 1331/1332" = ["CS"; "1331/1332"])
    by (vm_compute; reflexivity).
  destruct common_exam_expansion as (_ & _ & _ & Htwo & Hex).
  split; [exact H |].
  split; [exact (Hex 2024 H) |].
  split; [exact W |].
  exact (Htwo "CS 1331/1332" "CS" "1331/1332" W).
Defined.

(** C6, as stated, fails: in the mention "CS 1331 1332/1333" the trailing
    token is "1332/1333", which the specification splits into two
    entries; the code splits the second token, "1331", and the row gives
    the single entry CS 1331. *)
Lemma trailing_token_counterexample :
  parseCommon 2025 (Some [Examples.numbered_chunk])
  = Ok (Some [mkCrow "CS 1331" "Apr 25, 2025" "1440 - 1730"])
  /\ splitCourse "CS 1331 1332/1333" = Ok ["CS 1331"]
  /\ trailing_split "CS 1331 1332/1333"
     = Some ["CS 1331 1332"; "CS 1331 1333"]
  /\ last (words "CS 1331 1332/1333") "" = "1332/1333".
Proof. repeat split; vm_compute; reflexivity. Qed.

(** ** [Revise] *)

Lemma Section_no_meetings (cache : list (string * json)) (data : json) :
  getitem data 1 = Ok (JList []) -> Section cache data = Raise LookupError.
Proof. intros H. unfold Section. rewrite H. reflexivity. Qed.

Lemma process_sections_keep (schedule : list srow)
    (common : option (list crow)) (cache : list (string * json))
    (dates times : list value) (course : string)
    (l : list (string * json)) :
  forall l',
  process_sections schedule common cache dates times course l = Ok l' ->
  forall title data,
  In (title, data) l ->
  getitem data 1 = Ok (JList []) ->
  In (title, data) l'.
Proof.
  induction l as [| [t d] l IH]; intros l' H title data Hin Hempty.
  - contradiction.
  - cbn [process_sections] in H. bind_inv H. bind_inv H. injection H as <-.
    destruct Hin as [E | Hin].
    + injection E as -> ->. left. f_equal.
      unfold process_section in Hx.
      rewrite (Section_no_meetings cache data Hempty) in Hx.
      injection Hx as <-. reflexivity.
    + right. exact (IH _ Hx0 _ _ Hin Hempty).
Qed.

(** C10.  A section whose list of meetings [data[1]] is empty: the
    constructor [Section] raises [LookupError]; [process] catches it, and
    the section's entry is the same after the pass, in the section alone
    and among the sections of its course. *)
Theorem section_without_meetings_skipped :
  forall (schedule : list srow) (common : option (list crow))
         (cache : list (string * json)) (dates times : list value)
         (course : string) (data : json),
  getitem data 1 = Ok (JList []) ->
  Section cache data = Raise LookupError
  /\ process_section schedule common cache dates times course data = Ok data
  /\ forall l l' title,
       process_sections schedule common cache dates times course l = Ok l' ->
       In (title, data) l ->
       In (title, data) l'.
Proof.
  intros schedule common cache dates times course data H.
  pose proof (Section_no_meetings cache data H) as HS.
  split; [exact HS |]. split.
  - unfold process_section. rewrite HS. reflexivity.
  - intros l l' title Hl Hin.
    exact (process_sections_keep _ _ _ _ _ _ _ _ Hl _ _ Hin H).
Qed.

Lemma section_without_meetings_skipped_witness :
  getitem Examples.no_meetings 1 = Ok (JList [])
  /\ Section Examples.cache Examples.no_meetings = Raise LookupError
  /\ process_section [] None Examples.cache [] [] "CS 1331"
       Examples.no_meetings = Ok Examples.no_meetings
  /\ forall l l' title,
       process_sections [] None Examples.cache [] [] "CS 1331" l = Ok l' ->
       In (title, Examples.no_meetings) l ->
       In (title, Examples.no_meetings) l'.
Proof.
  split; [reflexivity |].
  exact (section_without_meetings_skipped [] None Examples.cache [] []
           "CS 1331" Examples.no_meetings eq_refl).
Defined.

(** The three nested [try] blocks try the versions in the order 1, 2, 3. *)
Lemma attempts_order (world : version -> string -> fetched) (s : string)
    (yr : nat) :
  attempts world s yr
  = first_success (fun v => run v yr (world v s)) [V1; V2; V3].
Proof.
  unfold attempts, first_success.
  destruct (run V1 yr (world V1 s)); [reflexivity |].
  destruct (run V2 yr (world V2 s)); [reflexivity |].
  destruct (run V3 yr (world V3 s)); reflexivity.
Qed.

Lemma in_add (x s : string) (l : list string) :
  In s (add x l) <-> s = x \/ In s l.
Proof.
  unfold add. destruct (existsb (String.eqb x) l) eqn:E.
  - split; [intros H; right; exact H |].
    intros [-> | H]; [| exact H].
    apply existsb_exists in E. destruct E as (y & Hy & Exy).
    apply String.eqb_eq in Exy. subst y. exact Hy.
  - rewrite in_app_iff. simpl. split.
    + intros [H | [H | []]]; [right; exact H | left; symmetry; exact H].
    + intros [-> | H]; [right; left; reflexivity | left; exact H].
Qed.

Lemma iter_file_failed (world : version -> string -> fetched) (b b' : batch)
    (file : string * term) :
  iter_file world b file = Ok b' ->
  forall s, In s (failed b') <-> In s (failed b) \/ fails world [file] s.
Proof.
  unfold iter_file. intros H s.
  destruct (rematch false term_file (fst file)) as [m |] eqn:Em.
  - bind_inv H.
    destruct (attempts world (stem (fst file)) x) as [p |] eqn:Ea.
    + destruct (assoc (fst file) (disk b)) as [data |]; [| discriminate H].
      bind_inv H. injection H as <-. cbn [failed].
      split; [intros Hs; left; exact Hs |].
      intros [Hs | (name & data' & yr & Hin & _ & Hy & Hst & Hat)];
        [exact Hs |].
      destruct Hin as [Ef | []]; subst file. cbn [fst] in *. subst s.
      rewrite Hx in Hy. injection Hy as <-. rewrite Ea in Hat.
      discriminate Hat.
    + injection H as <-. cbn [failed]. rewrite in_add. split.
      * intros [-> | Hs]; [right | left; exact Hs].
        exists (fst file), (snd file), x.
        split; [left; destruct file; reflexivity |].
        split; [rewrite Em; discriminate |].
        split; [exact Hx |]. split; [reflexivity | exact Ea].
      * intros [Hs | (name & data' & yr & Hin & _ & _ & Hst & _)];
          [right; exact Hs |].
        destruct Hin as [Ef | []]; subst file. left. symmetry. exact Hst.
  - injection H as <-. split; [intros Hs; left; exact Hs |].
    intros [Hs | (name & data' & yr & Hin & Hm & _)]; [exact Hs |].
    destruct Hin as [Ef | []]; subst file. cbn [fst] in Em. contradiction.
Qed.

Lemma fails_cons (world : version -> string -> fetched)
    (file : string * term) (files : list (string * term)) (s : string) :
  fails world (file :: files) s <-> fails world [file] s \/ fails world files s.
Proof.
  unfold fails. split.
  - intros (name & data & yr & [E | Hin] & H).
    + left. exists name, data, yr. split; [left; exact E | exact H].
    + right. exists name, data, yr. split; [exact Hin | exact H].
  - intros [(name & data & yr & [E | []] & H) | (name & data & yr & Hin & H)].
    + exists name, data, yr. split; [left; exact E | exact H].
    + exists name, data, yr. split; [right; exact Hin | exact H].
Qed.

Lemma iter_from_failed (world : version -> string -> fetched)
    (files : list (string * term)) :
  forall b b',
  iter_from world b files = Ok b' ->
  forall s, In s (failed b') <-> In s (failed b) \/ fails world files s.
Proof.
  induction files as [| file files IH]; intros b b' H s.
  - injection H as <-. split; [intros Hs; left; exact Hs |].
    intros [Hs | (name & data & yr & [] & _)]. exact Hs.
  - cbn [iter_from] in H. bind_inv H.
    pose proof (IH _ _ H s) as I1.
    pose proof (iter_file_failed _ _ _ _ Hx s) as I2.
    pose proof (fails_cons world file files s) as I3.
    tauto.
Qed.

Lemma assoc_setkey_other {A} (d : list (string * A)) (k k' : string) (v : A) :
  k <> k' -> assoc k (setkey d k' v) = assoc k d.
Proof.
  intros Hk. induction d as [| [k0 v0] d IH]; simpl.
  - destruct (k =? k')%string eqn:E; [| reflexivity].
    apply String.eqb_eq in E. contradiction.
  - destruct (k' =? k0)%string eqn:E0; simpl.
    + apply String.eqb_eq in E0. subst k0.
      destruct (k =? k')%string eqn:E; [| reflexivity].
      apply String.eqb_eq in E. contradiction.
    + rewrite IH. reflexivity.
Qed.

(** A document that fails under the three parsers is never handed to
    [process]: its file is the same after the run. *)
Lemma iter_from_untouched (world : version -> string -> fetched)
    (name : string) (yr : nat) (files : list (string * term)) :
  year_of (stem name) = Ok yr ->
  attempts world (stem name) yr = None ->
  forall b b',
  iter_from world b files = Ok b' ->
  assoc name (disk b') = assoc name (disk b).
Proof.
  intros Hy Ha.
  induction files as [| file files IH]; intros b b' H.
  - injection H as <-. reflexivity.
  - cbn [iter_from] in H. bind_inv H. rewrite (IH _ _ H).
    clear IH H. unfold iter_file in Hx.
    destruct (rematch false term_file (fst file)); [| injection Hx as <-; reflexivity].
    bind_inv Hx.
    destruct (attempts world (stem (fst file)) x0) as [p |] eqn:Ea;
      [| injection Hx as <-; reflexivity].
    destruct (assoc (fst file) (disk b)) as [data |]; [| discriminate Hx].
    bind_inv Hx. injection Hx as <-. cbn [disk].
    apply assoc_setkey_other. intros E. subst name.
    rewrite Hy in Hx0. injection Hx0 as <-. rewrite Ha in Ea. discriminate Ea.
Qed.

(** The turn at which the loop ends early, if it does. *)
Lemma iter_from_raise (world : version -> string -> fetched)
    (files : list (string * term)) :
  forall b e,
  iter_from world b files = Raise e ->
  exists pre file post b1,
    files = (pre ++ file :: post)%list
    /\ iter_from world b pre = Ok b1
    /\ iter_file world b1 file = Raise e.
Proof.
  induction files as [| file files IH]; intros b e H; [discriminate H |].
  cbn [iter_from] in H.
  destruct (iter_file world b file) as [b1 | e1] eqn:E1; cbn [bind] in H.
  - destruct (IH _ _ H) as (pre & f & post & b2 & -> & Hpre & Hf).
    exists (file :: pre), f, post, b2.
    split; [reflexivity |]. split; [| exact Hf].
    cbn [iter_from]. rewrite E1. exact Hpre.
  - injection H as <-. exists [], file, files, b.
    split; [reflexivity |]. split; [reflexivity | exact E1].
Qed.

(** A turn that raises is the turn of a term file whose year cannot be
    read, or whose document did not fail under the three parsers. *)
Lemma iter_file_raise (world : version -> string -> fetched) (b : batch)
    (file : string * term) (e : exn) :
  iter_file world b file = Raise e ->
  rematch false term_file (fst file) <> None
  /\ (year_of (stem (fst file)) = Raise e
      \/ exists yr p,
           year_of (stem (fst file)) = Ok yr
           /\ attempts world (stem (fst file)) yr = Some p).
Proof.
  unfold iter_file. intros H.
  destruct (rematch false term_file (fst file)) as [m |]; [| discriminate H].
  split; [discriminate |].
  destruct (year_of (stem (fst file))) as [yr | e1]; cbn [bind] in H.
  - right. exists yr.
    destruct (attempts world (stem (fst file)) yr) as [p |];
      [| discriminate H].
    exists p. split; reflexivity.
  - left. injection H as <-. reflexivity.
Qed.

(** C9, as the code has it.  A document fails under a parser when
    [parseFile] or [parseCommon] raises under it.  The parsers are tried in
    the order V1, V2, V3 and the first under which the document does not
    fail is kept; a term that is not listed, or whose tables the first
    parser gives up extracting, does not fail under it and is not tried
    under the others.  When a document fails under the three, its turn
    ends normally with the term added to [failed] and no file changed, and
    the loop goes on with the remaining files.  When the loop ends, the
    set [failed] printed as the summary holds exactly the terms that
    failed under the three parsers; when it ends early it is by an
    exception raised outside the three [try] blocks, at the turn of a
    document that did not fail under the three parsers (or whose year
    cannot be read), never by the failure of a document. *)
Theorem parser_fallback :
  forall world : version -> string -> fetched,
  (forall s yr,
     attempts world s yr
     = first_success (fun v => run v yr (world v s)) [V1; V2; V3])
  /\ (forall s yr,
        world V1 s = Not_listed \/ world V1 s = Gave_up None ->
        attempts world s yr = Some (mkParser [] None))
  /\ (forall b name data files yr,
        rematch false term_file name <> None ->
        year_of (stem name) = Ok yr ->
        attempts world (stem name) yr = None ->
        iter_file world b (name, data)
        = Ok (mkBatch (add (stem name) (failed b)) (disk b))
        /\ iter_from world b ((name, data) :: files)
           = iter_from world (mkBatch (add (stem name) (failed b)) (disk b))
               files
        /\ forall b',
             iter_from world b ((name, data) :: files) = Ok b' ->
             In (stem name) (failed b')
             /\ assoc name (disk b') = assoc name (disk b))
  /\ (forall all,
        match iterFiles world all with
        | Ok b' => forall s, In s (failed b') <-> fails world all s
        | Raise e =>
            exists pre name data post,
              all = (pre ++ (name, data) :: post)%list
              /\ rematch false term_file name <> None
              /\ (year_of (stem name) = Raise e
                  \/ exists yr p,
                       year_of (stem name) = Ok yr
                       /\ attempts world (stem name) yr = Some p)
        end).
Proof.
  intros world.
  split; [intros s yr; apply attempts_order |]. split.
  { intros s yr [E | E]; unfold attempts; rewrite E; reflexivity. }
  split.
  - intros b name data files yr Hm Hy Ha.
    assert (Hstep : iter_file world b (name, data)
                    = Ok (mkBatch (add (stem name) (failed b)) (disk b))).
    { unfold iter_file. cbn [fst].
      destruct (rematch false term_file name); [| contradiction].
      rewrite Hy. cbn [bind]. rewrite Ha. reflexivity. }
    split; [exact Hstep |]. split.
    + cbn [iter_from]. rewrite Hstep. reflexivity.
    + intros b' H. split.
      * apply (iter_from_failed _ _ _ _ H). right.
        exists name, data, yr.
        split; [left; reflexivity |]. split; [exact Hm |].
        split; [exact Hy |]. split; [reflexivity | exact Ha].
      * exact (iter_from_untouched world name yr _ Hy Ha _ _ H).
  - intros all. unfold iterFiles.
    destruct (iter_from world (mkBatch [] all) all) as [b' | e] eqn:H.
    + intros s.
      pose proof (iter_from_failed _ _ _ _ H s) as I. cbn [failed] in I.
      simpl in I. tauto.
    + destruct (iter_from_raise _ _ _ _ H)
        as (pre & [name data] & post & b1 & E & _ & Hf).
      destruct (iter_file_raise _ _ _ _ Hf) as [Hm Hc]. cbn [fst] in Hm, Hc.
      exists pre, name, data, post.
      split; [exact E |]. split; [exact Hm | exact Hc].
Qed.

Lemma parser_fallback_witness :
  rematch false term_file "202408.json" <> None
  /\ year_of (stem "202408.json") = Ok 2024
  /\ attempts Examples.dead_world (stem "202408.json") 2024 = None
  /\ iterFiles Examples.dead_world
       [("202408.json", Examples.document); ("202502.json", Examples.document)]
     = Ok (mkBatch ["202408"; "202502"]
             [("202408.json", Examples.document);
              ("202502.json", Examples.document)])
  /\ iter_file Examples.dead_world
       (mkBatch [] [("202408.json", Examples.document)])
       ("202408.json", Examples.document)
     = Ok (mkBatch (add (stem "202408.json") [])
             [("202408.json", Examples.document)])
  /\ Examples.gave_up_world V1 "202408" = Gave_up None
  /\ attempts Examples.gave_up_world "202408" 2024 = Some (mkParser [] None).
Proof.
  assert (Hm : rematch false term_file "202408.json" <> None).
  { vm_compute. discriminate. }
  assert (Hy : year_of (stem "202408.json") = Ok 2024).
  { vm_compute. reflexivity. }
  assert (Ha : attempts Examples.dead_world (stem "202408.json") 2024 = None).
  { vm_compute. reflexivity. }
  split; [exact Hm |]. split; [exact Hy |]. split; [exact Ha |].
  split; [vm_compute; reflexivity |].
  destruct (parser_fallback Examples.dead_world) as (_ & _ & P & _).
  split.
  { exact (proj1 (P (mkBatch [] [("202408.json", Examples.document)])
                    "202408.json" Examples.document [] 2024 Hm Hy Ha)). }
  split; [reflexivity |].
  destruct (parser_fallback Examples.gave_up_world) as (_ & G & _).
  apply G. right. reflexivity.
Defined.

(** C9, as stated, fails twice.  The first parser gives up extracting the
    tables of 202408: the document is not tried under the second parser,
    under which it has a schedule, and counts as parsed with an empty
    one.  And a document that a parser accepts without a "Common Exams"
    chunk ends the run with [KeyError]: the second document is not
    visited and no summary is printed. *)
Lemma batch_halt_counterexample :
  attempts Examples.gave_up_world "202408" 2024 = Some (mkParser [] None)
  /\ run V2 2024 (Examples.gave_up_world V2 "202408")
     = Ok (mkParser [mkRow (Str "MW") (Str "0800 - 0915")
                           (Str "Apr 28, 2024") (Str "0800 - 1050")] None)
  /\ iterFiles Examples.gave_up_world
       [("202408.json", Examples.document)]
     = Ok (mkBatch []
             [("202408.json",
               mkTerm (setkey (setkey Examples.cache "finalTimes" (JList []))
                         "finalDates" (JList []))
                      (courses Examples.document))])
  /\ iterFiles Examples.block_world
       [("202408.json", Examples.document); ("202502.json", Examples.document)]
     = Raise KeyError.
Proof. repeat split; vm_compute; reflexivity. Qed.

(* ===================================================================== *)
(** * Further properties of the code *)
(* ===================================================================== *)

(** ** [Parser.convertTimeGroup]: the range of the result *)

(** X1.  The result is "TBA", or two tokens found in the text, each rendered as
    a two-digit hour below 24 (the hour read, mod 12, plus 12 for 'p': so
    "12:mm am" is hour 00 and "12:mm pm" hour 12) followed by the minutes as
    read; it is never the empty string. *)
Theorem convertTimeGroup_range :
  forall s : string,
  convertTimeGroup s <> ""
  /\ (convertTimeGroup s = "TBA"
      \/ exists t1 t2 h1 h2,
           finditer time_token s = [t1; t2]
           /\ h1 = int (group t1 2) mod 12
                   + (if (group t1 4 =? "p")%string then 12 else 0)
           /\ h2 = int (group t2 2) mod 12
                   + (if (group t2 4 =? "p")%string then 12 else 0)
           /\ h1 < 24 /\ h2 < 24
           /\ convertTimeGroup s
              = (zfill 2 h1 ++ group t1 3) ++ " - " ++ (zfill 2 h2 ++ group t2 3)).
Proof.
  intros s. split; [apply convertTimeGroup_nonempty |].
  pose proof (convertTimeGroup_cases s) as H.
  destruct (finditer time_token s) as [| t1 [| t2 [| t3 l]]];
    try (left; exact H).
  right.
  destruct (convert_time_shape t1) as [B1 E1].
  destruct (convert_time_shape t2) as [B2 E2].
  exists t1, t2. eexists. eexists.
  split; [reflexivity |]. split; [reflexivity |]. split; [reflexivity |].
  split; [exact B1 |]. split; [exact B2 |].
  rewrite H, E1, E2. reflexivity.
Qed.

(** ** [Parser.parseBlock], version 1: when it returns and what it keeps *)

Lemma loop_v1_rows (yr : nat) (rs : list (list value)) :
  forall a,
  List.length (loop_v1 yr a rs) = List.length rs
  /\ map Days (loop_v1 yr a rs) = map (fun row => cell row 0) rs.
Proof.
  induction rs as [| row rs IH]; intros a.
  - split; reflexivity.
  - cbn [loop_v1].
    assert (Hd : Days (snd (row_v1 yr a row)) = cell row 0).
    { unfold row_v1. destruct (cell row 1); [reflexivity |].
      destruct (announce yr a s); reflexivity. }
    destruct (row_v1 yr a row) as [a' out]. cbn [snd] in Hd.
    destruct (IH a') as [IH1 IH2].
    cbn [List.length map]. rewrite IH1, IH2, Hd. split; reflexivity.
Qed.

(** X2.  Version 1 needs exactly two columns ([ValueError] otherwise) and at
    least two rows ([KeyError] without rows: no column 'finalTime' was ever
    made; [IndexError] with one row: no second row to copy from).  It then
    returns one row per row of the block, in order, with the cell of the
    first column as [Days]. *)
Theorem parseBlock_v1_outcome :
  forall (yr : nat) (block : frame),
  if (List.length (columns block) =? 2)%nat then
    match rows block with
    | [] => parseBlock_v1 yr block = Raise KeyError
    | [_] => parseBlock_v1 yr block = Raise IndexError
    | _ :: _ :: _ =>
        exists out,
          parseBlock_v1 yr block = Ok out
          /\ List.length out = List.length (rows block)
          /\ map Days out = map (fun row => cell row 0) (rows block)
    end
  else parseBlock_v1 yr block = Raise ValueError.
Proof.
  intros yr block. unfold parseBlock_v1, two_columns.
  destruct (List.length (columns block) =? 2)%nat; [| reflexivity].
  cbn [bind].
  destruct (loop_v1_rows yr (rows block) acc0) as [Hn Hd].
  destruct (rows block) as [| r0 [| r1 rest]].
  - reflexivity.
  - cbn [loop_v1]. destruct (row_v1 yr acc0 r0). reflexivity.
  - destruct (loop_v1 yr acc0 (r0 :: r1 :: rest)) as [| o0 [| o1 out]];
      try discriminate Hn.
    exists (set_finalTime o0 (finalTime o1) :: o1 :: out).
    split; [reflexivity |]. split; [exact Hn | exact Hd].
Qed.

Import Phrases.

(** ** [Parser.parseBlock], version 2: the rows of the table *)

Lemma loop_v2_rows (yr : nat) (rs : list (list value)) :
  forall a out,
  loop_v2 yr a rs = Ok out ->
  Forall2 (fun row r =>
             exists c0 m,
               cell row 0 = Str c0
               /\ rematch false schedule_pattern c0 = Some m
               /\ Days r = Str (group m 1)
               /\ Time r = Str (convertTimeGroup
                                  (lower (group m 2) ++ " - "
                                   ++ lower (group m 3))))
          rs out.
Proof.
  induction rs as [| row rs IH]; intros a out H.
  - injection H as <-. constructor.
  - cbn [loop_v2] in H. bind_inv H. bind_inv H. injection H as <-.
    constructor; [| exact (IH _ _ Hx0)].
    unfold row_v2, split_schedule in Hx.
    destruct (cell row 0) as [| c0] eqn:E0; [discriminate Hx |].
    destruct (rematch false schedule_pattern c0) as [m |] eqn:Em;
      [| discriminate Hx].
    cbn [lower_value bind] in Hx. injection Hx as <-.
    exists c0, m. split; [reflexivity |]. split; [exact Em |].
    split; reflexivity.
Qed.

(** X3.  When version 2 returns a table, the block has two columns; the table
    has one row per row of the block after the header rows (one when a
    column label is an exam title, two otherwise), in order; and each row
    has the days and the converted times that the day/time grammar reads in
    the first cell, so [Days] and [Time] are never missing. *)
Theorem parseBlock_v2_table :
  forall (yr : nat) (block : frame) (out : list srow),
  parseBlock_v2 yr block = Ok out ->
  List.length (columns block) = 2
  /\ exists titled pre rs,
       title_in_columns (columns block) = Ok titled
       /\ rows block = (pre ++ rs)%list
       /\ List.length pre = (if titled then 1 else 2)
       /\ Forall2 (fun row r =>
                     exists c0 m,
                       cell row 0 = Str c0
                       /\ rematch false schedule_pattern c0 = Some m
                       /\ Days r = Str (group m 1)
                       /\ Time r = Str (convertTimeGroup
                                          (lower (group m 2) ++ " - "
                                           ++ lower (group m 3))))
                  rs out.
Proof.
  intros yr block out H. unfold parseBlock_v2 in H.
  bind_inv H. bind_inv H. bind_inv H. bind_inv H.
  split.
  { unfold two_columns in Hx2.
    destruct (List.length (columns block) =? 2)%nat eqn:E;
      [apply Nat.eqb_eq; exact E | discriminate Hx2]. }
  unfold drop_first in Hx1.
  destruct x0 as [| h rs]; [discriminate |]. injection Hx1 as <-.
  exists x. destruct x.
  - injection Hx0 as E. exists [h], rs.
    split; [exact Hx |]. split; [exact E |]. split; [reflexivity |].
    exact (loop_v2_rows _ _ _ _ H).
  - unfold drop_first in Hx0.
    destruct (rows block) as [| h0 rs0]; [discriminate |].
    injection Hx0 as ->.
    exists [h0; h], rs.
    split; [exact Hx |]. split; [reflexivity |]. split; [reflexivity |].
    exact (loop_v2_rows _ _ _ _ H).
Qed.

Lemma parseBlock_v2_table_witness :
  parseBlock_v2 2025 Examples.morning_block
  = Ok [mkRow (Str "MW") (Str "0800 - 0915") (Str "Apr 28, 2025")
              (Str "0800 - 1050")]
  /\ List.length (columns Examples.morning_block) = 2.
Proof.
  assert (H : parseBlock_v2 2025 Examples.morning_block
              = Ok [mkRow (Str "MW") (Str "0800 - 0915") (Str "Apr 28, 2025")
                          (Str "0800 - 1050")]).
  { vm_compute; reflexivity. }
  split; [exact H |].
  exact (proj1 (parseBlock_v2_table 2025 Examples.morning_block _ H)).
Defined.

(** ** The year of a date *)

Lemma days_1900_le (y m : nat) : days_in_month 1900 m <= days_in_month y m.
Proof.
  unfold days_in_month.
  replace (is_leap 1900) with false by (vm_compute; reflexivity).
  do 12 (destruct m as [| m]; [try destruct (is_leap y); lia |]).
  lia.
Qed.

Lemma strptime_date (raw : string) (fmt : list item) (d : Strptime.date) :
  strptime raw fmt = Some d ->
  year d = 1900
  /\ 1 <= month d <= 12
  /\ 1 <= Strptime.day d <= days_in_month 1900 (month d).
Proof.
  unfold strptime.
  destruct (rematch true (pattern fmt) raw) as [m |]; [| discriminate].
  destruct (negb _); [discriminate |].
  destruct (valid_date (mkDate 1900 (month_of m) (day_of m))) eqn:V;
    [| discriminate].
  intros H; injection H as <-. cbn [year month Strptime.day].
  unfold valid_date in V. cbn [year month Strptime.day] in V.
  repeat (apply andb_prop in V; destruct V as [V ?]).
  repeat match goal with
         | H : (_ <=? _)%nat = true |- _ => apply Nat.leb_le in H
         end.
  repeat split; assumption.
Qed.

Lemma replace_valid_year (d : Strptime.date) (yr : nat) :
  1 <= yr <= MAXYEAR ->
  1 <= month d <= 12 ->
  1 <= Strptime.day d <= days_in_month 1900 (month d) ->
  replace_year d yr = Some (mkDate yr (month d) (Strptime.day d)).
Proof.
  intros Hy Hm Hd. unfold replace_year, valid_date.
  cbn [year month Strptime.day].
  pose proof (days_1900_le yr (month d)) as Hle.
  replace (1 <=? yr)%nat with true by (symmetry; apply Nat.leb_le; lia).
  replace (yr <=? MAXYEAR)%nat with true by (symmetry; apply Nat.leb_le; lia).
  replace (1 <=? month d)%nat with true by (symmetry; apply Nat.leb_le; lia).
  replace (month d <=? 12)%nat with true by (symmetry; apply Nat.leb_le; lia).
  replace (1 <=? Strptime.day d)%nat with true
    by (symmetry; apply Nat.leb_le; lia).
  replace (Strptime.day d <=? days_in_month yr (month d))%nat with true
    by (symmetry; apply Nat.leb_le; lia).
  reflexivity.
Qed.

Lemma replace_invalid_year (d : Strptime.date) (yr : nat) :
  ~ (1 <= yr <= MAXYEAR) -> replace_year d yr = None.
Proof.
  intros Hy. unfold replace_year.
  destruct (valid_date (mkDate yr (month d) (Strptime.day d))) eqn:V;
    [| reflexivity].
  apply valid_date_bounds in V. cbn [year] in V. exfalso. apply Hy. lia.
Qed.

Lemma try_format_year (yr : nat) (raw : string) (fmt : list item) :
  1 <= yr <= MAXYEAR ->
  try_format yr raw fmt
  = match strptime raw fmt with
    | Some d => Some (strftime (mkDate yr (month d) (Strptime.day d)))
    | None => None
    end.
Proof.
  intros Hy. unfold try_format.
  destruct (strptime raw fmt) as [d |] eqn:E; [| reflexivity].
  destruct (strptime_date _ _ _ E) as (_ & Hm & Hd).
  rewrite (replace_valid_year d yr Hy Hm Hd). reflexivity.
Qed.

Lemma date_of_null_year (yr yr' : nat) (raw : string)
    (fmts : list (list item)) :
  1 <= yr <= MAXYEAR -> 1 <= yr' <= MAXYEAR ->
  date_of yr raw fmts = Null -> date_of yr' raw fmts = Null.
Proof.
  intros Hy Hy'. induction fmts as [| f fmts IH]; [reflexivity |].
  cbn [date_of]. rewrite (try_format_year yr raw f Hy).
  rewrite (try_format_year yr' raw f Hy').
  destruct (strptime raw f); [discriminate | exact IH].
Qed.

(** X4.  The dates [strptime] reads are dates of the year 1900, which is not a
    leap year: a 29th of February is refused by every grammar, in every
    document year.  For a document year from 1 to 9999 the year is then
    stamped without failure, so whether a text is a date does not depend on
    the year; for any other year (the year 0 of a file "0000.json")
    [replace] refuses and no text is a date. *)
Theorem year_stamp :
  forall (yr : nat) (raw : string),
  (forall fmt d,
     strptime raw fmt = Some d ->
     year d = 1900 /\ 1 <= month d <= 12
     /\ 1 <= Strptime.day d <= days_in_month 1900 (month d)
     /\ ~ (month d = 2 /\ Strptime.day d = 29))
  /\ (1 <= yr <= MAXYEAR ->
      (forall fmt,
         try_format yr raw fmt
         = match strptime raw fmt with
           | Some d => Some (strftime (mkDate yr (month d) (Strptime.day d)))
           | None => None
           end)
      /\ forall yr',
           1 <= yr' <= MAXYEAR ->
           (date_of yr raw formats = Null <-> date_of yr' raw formats = Null))
  /\ (~ (1 <= yr <= MAXYEAR) -> date_of yr raw formats = Null).
Proof.
  intros yr raw. split; [| split].
  - intros fmt d H. destruct (strptime_date _ _ _ H) as (Hy & Hm & Hd).
    repeat split; try assumption; try apply Hm; try apply Hd.
    intros [E2 E29]. rewrite E2 in Hd.
    replace (days_in_month 1900 2) with 28 in Hd by (vm_compute; reflexivity).
    lia.
  - intros Hy. split; [intros fmt; apply try_format_year; exact Hy |].
    intros yr' Hy'. split; apply date_of_null_year; assumption.
  - intros Hy. apply date_of_none.
    unfold formats. repeat constructor; unfold try_format;
      destruct (strptime raw _); try reflexivity;
      rewrite (replace_invalid_year _ yr Hy); reflexivity.
Qed.

Lemma year_stamp_witness :
  1 <= 2024 <= MAXYEAR
  /\ date_of 2024 "Thursday, Feb 29" formats = Null
  /\ date_of 2024 "Thursday, Feb 28" formats = Str "Feb 28, 2024"
  /\ forall fmt,
       try_format 2024 "Thursday, Feb 28" fmt
       = match strptime "Thursday, Feb 28" fmt with
         | Some d => Some (strftime (mkDate 2024 (month d) (Strptime.day d)))
         | None => None
         end.
Proof.
  assert (H : 1 <= 2024 <= MAXYEAR) by (unfold MAXYEAR; lia).
  split; [exact H |].
  split; [vm_compute; reflexivity |]. split; [vm_compute; reflexivity |].
  destruct (year_stamp 2024 "Thursday, Feb 28") as (_ & P & _).
  exact (proj1 (P H)).
Defined.

(** ** The chunks a [parseFile] leaves out *)

Lemma loop_chunks_v2_filter (yr : nat) (read : list frame) :
  forall schedule,
  loop_chunks_v2 yr read schedule
  = loop_chunks_v2 yr (filter (fun c => negb (skipped c)) read) schedule.
Proof.
  induction read as [| chunk read IH]; intros schedule; [reflexivity |].
  cbn [loop_chunks_v2 filter].
  destruct (skipped chunk) eqn:E; cbn [negb].
  - apply IH.
  - cbn [loop_chunks_v2]. rewrite E.
    destruct (parseBlock_v2 yr chunk); [| reflexivity].
    cbn [bind]. apply IH.
Qed.

(** X5.  Versions 2 and 3 never look inside a chunk labelled
    "Reading and Conflict Periods" or "Common Exams": the schedule is the
    one of the remaining chunks, whatever the skipped chunks hold; and when
    no chunk remains (none was extracted, or all are skipped) the final
    [set_index] finds no column 'Days' and raises [KeyError]. *)
Theorem schedule_v2_skips :
  forall (yr : nat) (read : list frame),
  schedule_v2 yr read
  = schedule_v2 yr (filter (fun c => negb (skipped c)) read)
  /\ schedule_v3 yr read
     = schedule_v2 yr (filter (fun c => negb (skipped c)) (map first_two read))
  /\ (forallb skipped read = true -> schedule_v2 yr read = Raise KeyError).
Proof.
  intros yr read.
  assert (E : forall read,
             schedule_v2 yr read
             = schedule_v2 yr (filter (fun c => negb (skipped c)) read)).
  { intros r. unfold schedule_v2.
    rewrite (loop_chunks_v2_filter yr r None).
    rewrite (loop_chunks_v2_filter yr (filter _ r) None).
    assert (F : forall l : list frame,
               filter (fun c => negb (skipped c))
                      (filter (fun c => negb (skipped c)) l)
               = filter (fun c => negb (skipped c)) l).
    { induction l as [| c l IHl]; [reflexivity |]. cbn [filter].
      destruct (negb (skipped c)) eqn:Ec; cbn [filter];
        [rewrite Ec, IHl; reflexivity | exact IHl]. }
    rewrite F. reflexivity. }
  split; [apply E |]. split; [apply E |].
  intros H. rewrite E.
  replace (filter (fun c => negb (skipped c)) read) with (@nil frame);
    [reflexivity |].
  induction read as [| c read IH]; [reflexivity |].
  cbn [forallb] in H. apply andb_prop in H. destruct H as [Hc Hr].
  cbn [filter]. rewrite Hc. cbn [negb]. exact (IH Hr).
Qed.

Lemma schedule_v2_skips_witness :
  forallb skipped [Examples.common_chunk] = true
  /\ schedule_v2 2025 [Examples.common_chunk] = Raise KeyError.
Proof.
  assert (H : forallb skipped [Examples.common_chunk] = true)
    by (vm_compute; reflexivity).
  split; [exact H |].
  exact (proj2 (proj2 (schedule_v2_skips 2025 [Examples.common_chunk])) H).
Defined.

(** ** [ParserV1.getColumns] *)

Lemma first_missing_spec (rs : list (list value)) (j : nat) :
  first_missing rs j <= List.length rs
  /\ (forall i row,
        i < first_missing rs j -> nth_error rs i = Some row ->
        is_null (cell row j) = false)
  /\ (forall row,
        nth_error rs (first_missing rs j) = Some row ->
        is_null (cell row j) = true).
Proof.
  induction rs as [| r rs IH]; cbn [first_missing].
  - split; [reflexivity |]. split.
    + intros i row Hi. inversion Hi.
    + intros row H. discriminate H.
  - destruct IH as (IH1 & IH2 & IH3).
    destruct (is_null (cell r j)) eqn:E.
    + split; [cbn; lia |]. split.
      * intros i row Hi. inversion Hi.
      * intros row H. injection H as <-. exact E.
    + split; [cbn; lia |]. split.
      * intros [| i] row Hi H.
        -- injection H as <-. exact E.
        -- apply (IH2 i); [lia | exact H].
      * intros row H. apply IH3. exact H.
Qed.

Lemma getColumns_from_spec (block : frame) (cols : list value) :
  forall idx cs,
  getColumns_from block idx cols = Ok cs ->
  Forall (fun c =>
            exists i label,
              idx <= i
              /\ nth_error cols (i - idx) = Some (Str label)
              /\ rematch false titleSearch label <> None
              /\ fst (fst c) = (Z.of_nat i - 1)%Z
              /\ (snd (fst c) = Z.of_nat i
                  \/ (snd (fst c) = (Z.of_nat i + 1)%Z
                      /\ i <> List.length (columns block) - 1))
              /\ snd c = first_missing (rows block) i) cs.
Proof.
  induction cols as [| column cols IH]; intros idx cs H.
  - injection H as <-. constructor.
  - cbn [getColumns_from] in H. bind_inv H. bind_inv H. injection H as <-.
    assert (Hrest : Forall (fun c =>
              exists i label,
                idx <= i
                /\ nth_error (column :: cols) (i - idx) = Some (Str label)
                /\ rematch false titleSearch label <> None
                /\ fst (fst c) = (Z.of_nat i - 1)%Z
                /\ (snd (fst c) = Z.of_nat i
                    \/ (snd (fst c) = (Z.of_nat i + 1)%Z
                        /\ i <> List.length (columns block) - 1))
                /\ snd c = first_missing (rows block) i) x0).
    { apply IH in Hx0. eapply Forall_impl; [| exact Hx0].
      intros c (i & label & Hi & Hn & Hrest').
      exists i, label. split; [lia |]. split; [| exact Hrest'].
      replace (i - idx) with (S (i - S idx)) by lia. exact Hn. }
    destruct x as [c |]; [| exact Hrest].
    constructor; [| exact Hrest].
    unfold column_entry in Hx.
    destruct column as [| label]; [discriminate Hx |].
    destruct (rematch false titleSearch label) eqn:Em; [| discriminate Hx].
    bind_inv Hx. injection Hx as <-.
    exists idx, label. split; [lia |].
    split; [rewrite Nat.sub_diag; reflexivity |].
    split; [rewrite Em; discriminate |].
    split; [reflexivity |]. split; [| reflexivity].
    cbn [fst snd].
    destruct x; [right | left; reflexivity].
    split; [reflexivity |].
    destruct (idx =? List.length (columns block) - 1)%nat eqn:El;
      [discriminate Hx1 | apply Nat.eqb_neq; exact El].
Qed.

(** X6.  Every triple [[start, end, terminate]] of [getColumns] comes from a
    column [i] whose label is an exam title: [start] is [i - 1] (so -1 for
    the first column), [end] is [i], or [i + 1] for a column that is not
    the last; [terminate] is at most the number of rows, the title column
    is filled in every row before it and missing in the row at it. *)
Theorem getColumns_triples :
  forall (block : frame) (cs : list (Z * Z * nat)),
  getColumns block = Ok cs ->
  Forall (fun c =>
            exists i label,
              nth_error (columns block) i = Some (Str label)
              /\ rematch false titleSearch label <> None
              /\ fst (fst c) = (Z.of_nat i - 1)%Z
              /\ (snd (fst c) = Z.of_nat i
                  \/ (snd (fst c) = (Z.of_nat i + 1)%Z
                      /\ S i < List.length (columns block)))
              /\ snd c <= List.length (rows block)
              /\ (forall k row,
                    k < snd c -> nth_error (rows block) k = Some row ->
                    is_null (cell row i) = false)
              /\ (forall row,
                    nth_error (rows block) (snd c) = Some row ->
                    is_null (cell row i) = true)) cs.
Proof.
  intros block cs H. unfold getColumns in H.
  apply getColumns_from_spec in H.
  eapply Forall_impl; [| exact H].
  intros c (i & label & _ & Hn & Hm & Hs & He & Ht).
  rewrite Nat.sub_0_r in Hn.
  exists i, label. split; [exact Hn |]. split; [exact Hm |].
  split; [exact Hs |].
  assert (Hi : i < List.length (columns block)).
  { apply nth_error_Some. rewrite Hn. discriminate. }
  split.
  { destruct He as [He | [He Hne]]; [left; exact He | right].
    split; [exact He | lia]. }
  rewrite Ht.
  destruct (first_missing_spec (rows block) i) as (F1 & F2 & F3).
  split; [exact F1 |]. split; [exact F2 | exact F3].
Qed.

Lemma getColumns_triples_witness :
  getColumns Samples.v1_chunk = Ok [(0%Z, 2%Z, 4); (3%Z, 4%Z, 3)]
  /\ Forall (fun c =>
            exists i label,
              nth_error (columns Samples.v1_chunk) i = Some (Str label)
              /\ rematch false titleSearch label <> None
              /\ fst (fst c) = (Z.of_nat i - 1)%Z
              /\ (snd (fst c) = Z.of_nat i
                  \/ (snd (fst c) = (Z.of_nat i + 1)%Z
                      /\ S i < List.length (columns Samples.v1_chunk)))
              /\ snd c <= List.length (rows Samples.v1_chunk)
              /\ (forall k row,
                    k < snd c ->
                    nth_error (rows Samples.v1_chunk) k = Some row ->
                    is_null (cell row i) = false)
              /\ (forall row,
                    nth_error (rows Samples.v1_chunk) (snd c) = Some row ->
                    is_null (cell row i) = true))
       [(0%Z, 2%Z, 4); (3%Z, 4%Z, 3)].
Proof.
  assert (H : getColumns Samples.v1_chunk = Ok [(0%Z, 2%Z, 4); (3%Z, 4%Z, 3)])
    by (vm_compute; reflexivity).
  split; [exact H |].
  exact (getColumns_triples Samples.v1_chunk _ H).
Defined.

(** ** [ParserV1.parseFile]: a title in the first column *)

Lemma slice_before_first {A} (l : list A) (stop : Z) :
  (0 <= stop <= 1)%Z -> List.length (slice l (-1) (stop + 1)) <= 1.
Proof.
  intros H. unfold slice, bound.
  rewrite length_firstn, length_skipn.
  replace (-1 <? 0)%Z with true by reflexivity.
  replace (stop + 1 <? 0)%Z with false by (symmetry; apply Z.ltb_ge; lia).
  lia.
Qed.

Lemma section_v1_before_first (yr : nat) (chunk : frame) (st : v1_state)
    (stop : Z) (terminate : nat) :
  (0 <= stop <= 1)%Z ->
  section_v1 yr chunk st (-1, stop, terminate)%Z = Raise IndexError.
Proof.
  intros H. unfold section_v1.
  pose proof (slice_before_first (columns chunk) stop H) as Hl.
  assert (E : second_label (fix_three (iloc chunk terminate (-1) stop))
              = Raise IndexError).
  { unfold fix_three, iloc. cbn [columns].
    destruct (slice (columns chunk) (-1) (stop + 1)) as [| x [| y l]] eqn:Es;
      [reflexivity | reflexivity | cbn in Hl; lia]. }
  rewrite E. reflexivity.
Qed.

Lemma getColumns_first_title (chunk : frame) (c0 : string)
    (cols : list value) (cs : list (Z * Z * nat)) :
  columns chunk = Str c0 :: cols ->
  rematch false titleSearch c0 <> None ->
  getColumns chunk = Ok cs ->
  exists stop terminate cs',
    cs = ((-1)%Z, stop, terminate) :: cs' /\ (0 <= stop <= 1)%Z.
Proof.
  intros Hc Hm H. unfold getColumns in H. rewrite Hc in H.
  cbn [getColumns_from] in H. bind_inv H. bind_inv H. injection H as <-.
  unfold column_entry in Hx.
  destruct (rematch false titleSearch c0); [| contradiction].
  bind_inv Hx. injection Hx as <-.
  do 3 eexists. split; [reflexivity |].
  match goal with b : bool |- _ => destruct b end; lia.
Qed.

(** X7.  Version 1 reads the days and times of a section in the column before
    the section's title.  A chunk whose first column label is itself an
    exam title has no such column: the selection is empty or one column
    wide, [df.columns[1]] does not exist, and [parseFile] raises for the
    whole document. *)
Theorem schedule_v1_first_title :
  forall (yr : nat) (read : list frame) (chunk : frame) (c0 : string)
         (cols : list value),
  In chunk read ->
  columns chunk = Str c0 :: cols ->
  rematch false titleSearch c0 <> None ->
  exists e, schedule_v1 yr read = Raise e.
Proof.
  intros yr read chunk c0 cols Hin Hc Hm.
  assert (L : forall st, exists e, loop_chunks_v1 yr read st = Raise e).
  { induction read as [| ch read IH]; [contradiction |]. intros st.
    cbn [loop_chunks_v1].
    destruct Hin as [-> | Hin].
    - destruct (getColumns chunk) as [cs | e] eqn:Eg;
        [| exists e; reflexivity].
      destruct (getColumns_first_title _ _ _ _ Hc Hm Eg)
        as (stop & t & cs' & -> & Hs).
      cbn [bind loop_sections_v1].
      rewrite (section_v1_before_first yr chunk st stop t Hs).
      exists IndexError. reflexivity.
    - destruct (getColumns ch) as [cs | e]; [| exists e; reflexivity].
      cbn [bind].
      destruct (loop_sections_v1 yr ch st cs) as [st' | e];
        [| exists e; reflexivity].
      cbn [bind]. exact (IH Hin st'). }
  unfold schedule_v1. destruct (L (mkV1 None [])) as [e He].
  exists e. rewrite He. reflexivity.
Qed.

Lemma schedule_v1_first_title_witness :
  In Examples.morning_block [Examples.morning_block]
  /\ columns Examples.morning_block
     = Str "8:00 AM - 10:50 AM Exams" :: [Str "Unnamed: 0"]
  /\ rematch false titleSearch "8:00 AM - 10:50 AM Exams" <> None
  /\ exists e, schedule_v1 2025 [Examples.morning_block] = Raise e.
Proof.
  assert (H1 : In Examples.morning_block [Examples.morning_block])
    by (left; reflexivity).
  assert (H3 : rematch false titleSearch "8:00 AM - 10:50 AM Exams" <> None)
    by (vm_compute; discriminate).
  split; [exact H1 |]. split; [reflexivity |]. split; [exact H3 |].
  exact (schedule_v1_first_title 2025 _ Examples.morning_block _ _
           H1 eq_refl H3).
Defined.

(** ** [ParserV1.parseFile]: the sections already seen *)

Lemma value_eqb_eq (a b : value) : value_eqb a b = true <-> a = b.
Proof.
  destruct a as [| x], b as [| y]; cbn; split; intros H;
    try reflexivity; try discriminate H.
  - apply String.eqb_eq in H. subst; reflexivity.
  - injection H as ->. apply String.eqb_refl.
Qed.

Lemma existsb_value (x : value) (l : list value) :
  existsb (value_eqb x) l = true <-> In x l.
Proof.
  rewrite existsb_exists. split.
  - intros (y & Hy & E). apply value_eqb_eq in E. subst y. exact Hy.
  - intros H. exists x. split; [exact H | apply value_eqb_eq; reflexivity].
Qed.

Lemma section_v1_seen (yr : nat) (chunk : frame) (st st' : v1_state)
    (c : Z * Z * nat) :
  section_v1 yr chunk st c = Ok st' ->
  incl (v1_sections st) (v1_sections st')
  /\ exists label, label_of chunk c = Ok label /\ In label (v1_sections st').
Proof.
  unfold section_v1, label_of. destruct c as [[start stop] terminate].
  intros H. bind_inv H.
  destruct (existsb (value_eqb x) (v1_sections st)) eqn:E.
  - injection H as <-. split; [apply incl_refl |].
    exists x. split; [exact Hx | apply existsb_value; exact E].
  - bind_inv H. bind_inv H. injection H as <-. cbn [v1_sections].
    split; [apply incl_tl, incl_refl |].
    exists x. split; [exact Hx | left; reflexivity].
Qed.

Lemma section_v1_skip (yr : nat) (chunk : frame) (st : v1_state)
    (c : Z * Z * nat) (label : value) :
  label_of chunk c = Ok label ->
  In label (v1_sections st) ->
  section_v1 yr chunk st c = Ok st.
Proof.
  unfold section_v1, label_of. destruct c as [[start stop] terminate].
  intros Hl Hin. rewrite Hl. cbn [bind].
  apply existsb_value in Hin. rewrite Hin. reflexivity.
Qed.

Lemma loop_sections_v1_seen (yr : nat) (chunk : frame)
    (cs : list (Z * Z * nat)) :
  forall st st',
  loop_sections_v1 yr chunk st cs = Ok st' ->
  incl (v1_sections st) (v1_sections st')
  /\ forall st2,
       incl (v1_sections st') (v1_sections st2) ->
       loop_sections_v1 yr chunk st2 cs = Ok st2.
Proof.
  induction cs as [| c cs IH]; intros st st' H.
  - injection H as <-. split; [apply incl_refl | reflexivity].
  - cbn [loop_sections_v1] in H. bind_inv H.
    destruct (section_v1_seen _ _ _ _ _ Hx) as (I1 & label & Hl & Hin).
    destruct (IH _ _ H) as (I2 & Hre).
    split; [exact (incl_tran I1 I2) |].
    intros st2 I3. cbn [loop_sections_v1].
    rewrite (section_v1_skip yr chunk st2 c label Hl (I3 _ (I2 _ Hin))).
    cbn [bind]. exact (Hre st2 I3).
Qed.

Lemma loop_chunks_v1_seen (yr : nat) (read : list frame) :
  forall st st',
  loop_chunks_v1 yr read st = Ok st' ->
  incl (v1_sections st) (v1_sections st')
  /\ forall chunk st2,
       In chunk read ->
       incl (v1_sections st') (v1_sections st2) ->
       loop_chunks_v1 yr [chunk] st2 = Ok st2.
Proof.
  induction read as [| ch read IH]; intros st st' H.
  - injection H as <-. split; [apply incl_refl |]. intros ? ? [].
  - cbn [loop_chunks_v1] in H. bind_inv H. bind_inv H.
    destruct (loop_sections_v1_seen _ _ _ _ _ Hx0) as (I1 & Hre1).
    destruct (IH _ _ H) as (I2 & Hre2).
    split; [exact (incl_tran I1 I2) |].
    intros chunk st2 [<- | Hin] I3.
    + cbn [loop_chunks_v1]. rewrite Hx. cbn [bind].
      rewrite (Hre1 st2 (incl_tran I2 I3)). reflexivity.
    + exact (Hre2 chunk st2 Hin I3).
Qed.

Lemma loop_chunks_v1_app (yr : nat) (r1 r2 : list frame) :
  forall st,
  loop_chunks_v1 yr (r1 ++ r2)%list st
  = (st1 <- loop_chunks_v1 yr r1 st ;; loop_chunks_v1 yr r2 st1).
Proof.
  induction r1 as [| ch r1 IH]; intros st; [reflexivity |].
  cbn [app loop_chunks_v1].
  destruct (getColumns ch); [| reflexivity]. cbn [bind].
  destruct (loop_sections_v1 yr ch st a); [| reflexivity]. cbn [bind].
  apply IH.
Qed.

(** X8.  Version 1 keeps the set of the section labels it has parsed and skips
    a section whose label is in it.  So chunks that come a second time
    (the extraction repeats a table) change nothing: the table of the
    document followed by any of its own chunks again is the table of the
    document. *)
Theorem schedule_v1_repeated_chunks :
  forall (yr : nat) (read again : list frame) (table : list srow),
  schedule_v1 yr read = Ok table ->
  incl again read ->
  schedule_v1 yr (read ++ again)%list = Ok table.
Proof.
  intros yr read again table H Hincl.
  unfold schedule_v1 in *. bind_inv H.
  rewrite loop_chunks_v1_app, Hx. cbn [bind].
  destruct (loop_chunks_v1_seen _ _ _ _ Hx) as (_ & Hre).
  assert (L : loop_chunks_v1 yr again x = Ok x).
  { clear H. induction again as [| ch again IH]; [reflexivity |].
    change (ch :: again) with ([ch] ++ again)%list.
    rewrite loop_chunks_v1_app.
    rewrite (Hre ch x (Hincl ch (or_introl eq_refl)) (incl_refl _)).
    cbn [bind]. apply IH. intros c Hc. apply Hincl. right. exact Hc. }
  rewrite L. exact H.
Qed.

Lemma schedule_v1_repeated_chunks_witness :
  schedule_v1 2024 [Samples.v1_chunk]
  = Ok [mkRow (Str "MW") (Str "0800 - 0915") (Str "Dec 09, 2024")
              (Str "0800 - 1050");
        mkRow (Str "MWF") (Str "0825 - 0915") (Str "Dec 09, 2024")
              (Str "0800 - 1050");
        mkRow (Str "F") (Str "0900 - 0950") (Str "Dec 13, 2024")
              (Str "0800 - 1050");
        mkRow (Str "TR") (Str "0800 - 0915") (Str "Dec 10, 2024")
              (Str "1120 - 1410");
        mkRow (Str "T") (Str "0930 - 1045") (Str "Dec 10, 2024")
              (Str "1120 - 1410")]
  /\ incl [Samples.v1_chunk] [Samples.v1_chunk]
  /\ schedule_v1 2024 ([Samples.v1_chunk] ++ [Samples.v1_chunk])%list
     = schedule_v1 2024 [Samples.v1_chunk].
Proof.
  assert (H : schedule_v1 2024 [Samples.v1_chunk]
    = Ok [mkRow (Str "MW") (Str "0800 - 0915") (Str "Dec 09, 2024")
                (Str "0800 - 1050");
          mkRow (Str "MWF") (Str "0825 - 0915") (Str "Dec 09, 2024")
                (Str "0800 - 1050");
          mkRow (Str "F") (Str "0900 - 0950") (Str "Dec 13, 2024")
                (Str "0800 - 1050");
          mkRow (Str "TR") (Str "0800 - 0915") (Str "Dec 10, 2024")
                (Str "1120 - 1410");
          mkRow (Str "T") (Str "0930 - 1045") (Str "Dec 10, 2024")
                (Str "1120 - 1410")]) by (vm_compute; reflexivity).
  split; [exact H |]. split; [apply incl_refl |].
  rewrite (schedule_v1_repeated_chunks 2024 _ _ _ H (incl_refl _)).
  symmetry. exact H.
Defined.

(** ** [ParserV1.parseFile]: no exam title at all *)

Lemma getColumns_from_untitled (block : frame) (cols : list value) :
  Forall (fun c => exists s,
            c = Str s /\ rematch false titleSearch s = None) cols ->
  forall idx, getColumns_from block idx cols = Ok [].
Proof.
  induction 1 as [| c cols (s & -> & Hs) _ IH]; intros idx; [reflexivity |].
  cbn [getColumns_from column_entry]. rewrite Hs. cbn [bind].
  rewrite IH. reflexivity.
Qed.

(** X9.  When no column label of any chunk is an exam title (the layout is not
    the one version 1 is for), version 1 selects no section, the schedule
    stays the frame without columns and [set_index] raises [KeyError]. *)
Theorem schedule_v1_untitled :
  forall (yr : nat) (read : list frame),
  Forall (fun chunk =>
            Forall (fun c => exists s,
                      c = Str s /\ rematch false titleSearch s = None)
                   (columns chunk)) read ->
  schedule_v1 yr read = Raise KeyError.
Proof.
  intros yr read H. unfold schedule_v1.
  assert (L : forall st, loop_chunks_v1 yr read st = Ok st).
  { induction H as [| ch read Hch _ IH]; intros st; [reflexivity |].
    cbn [loop_chunks_v1]. unfold getColumns.
    rewrite (getColumns_from_untitled ch _ Hch 0). cbn [bind loop_sections_v1].
    apply IH. }
  rewrite L. reflexivity.
Qed.

Lemma schedule_v1_untitled_witness :
  Forall (fun chunk =>
            Forall (fun c => exists s,
                      c = Str s /\ rematch false titleSearch s = None)
                   (columns chunk)) [Examples.common_chunk]
  /\ schedule_v1 2025 [Examples.common_chunk] = Raise KeyError.
Proof.
  assert (H : Forall (fun chunk =>
            Forall (fun c => exists s,
                      c = Str s /\ rematch false titleSearch s = None)
                   (columns chunk)) [Examples.common_chunk]).
  { repeat constructor; eexists; (split; [reflexivity |]);
      vm_compute; reflexivity. }
  split; [exact H |].
  exact (schedule_v1_untitled 2025 _ H).
Defined.

(** ** [Parser.parseCommon]: the chunk it reads *)

Lemma find_common_none (read : list frame) :
  forall df,
  forallb (fun c => negb (is_common c)) read = true ->
  find_common read df = df.
Proof.
  induction read as [| c read IH]; intros df H; [reflexivity |].
  cbn [forallb] in H. apply andb_prop in H. destruct H as [Hc Hr].
  cbn [find_common]. unfold is_common in Hc.
  destruct (in_columns "Common Exams" c); [discriminate Hc |].
  exact (IH df Hr).
Qed.

Lemma find_common_last (r1 r2 : list frame) (c : frame) :
  forall df,
  is_common c = true ->
  forallb (fun c => negb (is_common c)) r2 = true ->
  find_common (r1 ++ c :: r2)%list df = Some c.
Proof.
  induction r1 as [| x r1 IH]; intros df Hc Hr.
  - cbn [app find_common]. unfold is_common in Hc. rewrite Hc.
    exact (find_common_none r2 _ Hr).
  - cbn [app find_common]. apply IH; assumption.
Qed.

(** X10.  [parseCommon] reads one chunk, the last with a column labelled
    "Common Exams"; the chunks before and after it, other common-exam
    chunks included, have no effect.  Without such a chunk (or without
    tables at all) it returns without a word and the common table stays
    the empty frame of the constructor. *)
Theorem parseCommon_chunk :
  forall (yr : nat) (read : list frame),
  parseCommon yr None = Ok None
  /\ (forallb (fun c => negb (is_common c)) read = true ->
      parseCommon yr (Some read) = Ok None)
  /\ (forall r1 c r2,
        read = (r1 ++ c :: r2)%list ->
        is_common c = true ->
        forallb (fun c => negb (is_common c)) r2 = true ->
        parseCommon yr (Some read) = (l <- common_of yr c ;; Ok (Some l))).
Proof.
  intros yr read. split; [reflexivity |]. split.
  - intros H. unfold parseCommon. rewrite (find_common_none read None H).
    reflexivity.
  - intros r1 c r2 -> Hc Hr. unfold parseCommon.
    rewrite (find_common_last r1 r2 c None Hc Hr). reflexivity.
Qed.

Lemma parseCommon_chunk_witness :
  forallb (fun c => negb (is_common c)) [Examples.morning_block] = true
  /\ parseCommon 2025 (Some [Examples.morning_block]) = Ok None
  /\ parseCommon 2024
       (Some [Examples.tba_block; Examples.common_chunk; Examples.morning_block])
     = (l <- common_of 2024 Examples.common_chunk ;; Ok (Some l)).
Proof.
  assert (H : forallb (fun c => negb (is_common c)) [Examples.morning_block]
              = true) by (vm_compute; reflexivity).
  split; [exact H |].
  split.
  - exact (proj1 (proj2 (parseCommon_chunk 2025 [Examples.morning_block])) H).
  - exact (proj2 (proj2 (parseCommon_chunk 2024 _))
             [Examples.tba_block] Examples.common_chunk
             [Examples.morning_block] eq_refl eq_refl H).
Defined.

(** ** The local function [splitCourse] *)

Lemma text_app (l1 l2 : list ascii) : text (l1 ++ l2)%list = text l1 ++ text l2.
Proof.
  unfold text. induction l1 as [| c l1 IH]; simpl;
    [reflexivity | rewrite IH; reflexivity].
Qed.

Lemma chars_text (l : list ascii) : chars (text l) = l.
Proof. apply list_ascii_of_string_of_list_ascii. Qed.

Lemma forallb_rev {A} (f : A -> bool) (l : list A) :
  forallb f (rev l) = forallb f l.
Proof.
  induction l as [| x l IH]; [reflexivity |].
  cbn [rev forallb]. rewrite forallb_app, IH. cbn. 
  rewrite andb_true_r. apply andb_comm.
Qed.

Lemma concat_cons (sep x : string) (l : list string) :
  l <> [] -> String.concat sep (x :: l) = x ++ sep ++ String.concat sep l.
Proof. destruct l; [congruence | reflexivity]. Qed.

Lemma append_assoc (a b c : string) : (a ++ b) ++ c = a ++ b ++ c.
Proof. induction a as [| x a IH]; cbn; [reflexivity | rewrite IH; reflexivity]. Qed.

Lemma prefix_slash (c : ascii) (s : string) :
  prefix "/" (String c s) = is_slash c.
Proof.
  cbn [prefix]. unfold is_slash, code.
  destruct (ascii_dec "/" c) as [<- | Hne].
  - destruct s; reflexivity.
  - symmetry. apply Nat.eqb_neq. intros E. apply Hne.
    rewrite <- (ascii_nat_embedding c), E. reflexivity.
Qed.

(** [s.split("/")]: the fields hold no "/", there is one more field than
    there are "/", and joined by "/" they give the string back. *)
Lemma split_slash (s : string) :
  forall cur,
  forallb (fun c => negb (is_slash c)) cur = true ->
  split_aux "/" s 0 cur <> []
  /\ Forall (fun f => slash_free f = true) (split_aux "/" s 0 cur)
  /\ List.length (split_aux "/" s 0 cur) = S (slashes s)
  /\ String.concat "/" (split_aux "/" s 0 cur) = text (rev cur) ++ s.
Proof.
  induction s as [| c s IH]; intros cur Hcur.
  - cbn [split_aux]. split; [discriminate |]. split.
    + constructor; [| constructor]. unfold slash_free.
      rewrite chars_text, forallb_rev. exact Hcur.
    + split; [reflexivity |]. cbn. rewrite append_nil_r. reflexivity.
  - cbn [split_aux]. rewrite prefix_slash.
    unfold slashes. cbn [chars list_ascii_of_string filter].
    change (list_ascii_of_string s) with (chars s).
    destruct (is_slash c) eqn:Ec.
    + change (String.length "/" - 1) with 0.
      destruct (IH [] eq_refl) as (N & F & L & J).
      split; [discriminate |]. split.
      * constructor; [| exact F]. unfold slash_free.
        rewrite chars_text, forallb_rev. exact Hcur.
      * split; [cbn [List.length]; rewrite L; reflexivity |].
        rewrite (concat_cons _ _ _ N), J. cbn [rev text string_of_list_ascii].
        unfold is_slash, code in Ec. apply Nat.eqb_eq in Ec.
        assert (c = "/"%char) as ->.
        { rewrite <- (ascii_nat_embedding c), Ec. reflexivity. }
        reflexivity.
    + assert (Hcur' : forallb (fun c => negb (is_slash c)) (c :: cur) = true).
      { cbn [forallb]. rewrite Ec, Hcur. reflexivity. }
      destruct (IH (c :: cur) Hcur') as (N & F & L & J).
      split; [exact N |]. split; [exact F |]. split; [exact L |].
      rewrite J. cbn [rev]. rewrite text_app, append_assoc. reflexivity.
Qed.

Lemma split_blank_free (sep s : string) :
  forall skip cur,
  forallb (fun c => negb (is_space c)) cur = true ->
  blank_free s = true ->
  Forall (fun f => blank_free f = true) (split_aux sep s skip cur).
Proof.
  induction s as [| c s IH]; intros skip cur Hcur Hs.
  - cbn [split_aux]. constructor; [| constructor].
    unfold blank_free. rewrite chars_text, forallb_rev. exact Hcur.
  - unfold blank_free in Hs. cbn [chars list_ascii_of_string forallb] in Hs.
    apply andb_prop in Hs. destruct Hs as [Hc Hs].
    cbn [split_aux]. destruct skip as [| k].
    + destruct (prefix sep (String c s)).
      * constructor; [| apply IH; [reflexivity | exact Hs]].
        unfold blank_free. rewrite chars_text, forallb_rev. exact Hcur.
      * apply IH; [| exact Hs]. cbn [forallb]. rewrite Hc, Hcur. reflexivity.
    + apply IH; assumption.
Qed.

(** [s.split()]: the tokens are not empty and hold no blank. *)
Lemma words_tokens (s : string) :
  forall cur,
  forallb (fun c => negb (is_space c)) cur = true ->
  Forall (fun w => w <> "" /\ blank_free w = true) (words_aux s cur).
Proof.
  assert (Fl : forall cur,
             forallb (fun c => negb (is_space c)) cur = true ->
             Forall (fun w => w <> "" /\ blank_free w = true)
                    (match cur with [] => [] | _ => [text (rev cur)] end)).
  { intros [| c cur] H; constructor; [| constructor].
    split.
    - cbn [rev]. rewrite text_app.
      destruct (text (rev cur)); discriminate.
    - unfold blank_free. rewrite chars_text, forallb_rev. exact H. }
  induction s as [| c s IH]; intros cur Hcur.
  - cbn [words_aux]. apply Fl. exact Hcur.
  - cbn [words_aux]. destruct (is_space c) eqn:Ec.
    + apply Forall_app. split; [apply Fl; exact Hcur | apply IH; reflexivity].
    + apply IH. cbn [forallb]. rewrite Ec, Hcur. reflexivity.
Qed.

(** X11.  [splitCourse] on a mention that it accepts: the department is the
    first blank-separated token and the numbers are the fields of the
    second token between "/", one identifier "department number" per field,
    in order; the fields hold neither "/" nor blank, there is one more of
    them than "/" in the token, and joined by "/" they are the token.  A
    mention with fewer than two tokens is not accepted ([IndexError]). *)
Theorem splitCourse_identifiers :
  forall (s : string) (ids : list string),
  splitCourse s = Ok ids ->
  exists dept numbers nums,
    firstn 2 (words s) = [dept; numbers]
    /\ dept <> "" /\ blank_free dept = true
    /\ ids = map (fun n => dept ++ " " ++ n) nums
    /\ String.concat "/" nums = numbers
    /\ List.length nums = S (slashes numbers)
    /\ Forall (fun n => slash_free n = true /\ blank_free n = true) nums.
Proof.
  intros s ids H. unfold splitCourse in H.
  pose proof (words_tokens s [] eq_refl) as W. fold (words s) in W.
  destruct (words s) as [| dept [| numbers rest]]; try discriminate H.
  injection H as <-.
  inversion W as [| ? ? [Hd1 Hd2] W']; subst.
  inversion W' as [| ? ? [Hn1 Hn2] _]; subst.
  destruct (split_slash numbers [] eq_refl) as (_ & F & L & J).
  pose proof (split_blank_free "/" numbers 0 [] eq_refl Hn2) as B.
  exists dept, numbers, (split "/" numbers).
  split; [reflexivity |]. split; [exact Hd1 |]. split; [exact Hd2 |].
  split; [reflexivity |]. split; [exact J |]. split; [exact L |].
  unfold split. apply Forall_forall. intros n Hn.
  split; [exact (proj1 (Forall_forall _ _) F n Hn)
         | exact (proj1 (Forall_forall _ _) B n Hn)].
Qed.

Lemma splitCourse_identifiers_witness :
  splitCourse "CS   1331/1332 x" = Ok ["CS 1331"; "CS 1332"]
  /\ splitCourse "CS1331" = Raise IndexError
  /\ exists dept numbers nums,
       firstn 2 (words "CS   1331/1332 x") = [dept; numbers]
       /\ dept <> "" /\ blank_free dept = true
       /\ ["CS 1331"; "CS 1332"] = map (fun n => dept ++ " " ++ n) nums
       /\ String.concat "/" nums = numbers
       /\ List.length nums = S (slashes numbers)
       /\ Forall (fun n => slash_free n = true /\ blank_free n = true) nums.
Proof.
  assert (H : splitCourse "CS   1331/1332 x" = Ok ["CS 1331"; "CS 1332"])
    by (vm_compute; reflexivity).
  split; [exact H |]. split; [vm_compute; reflexivity |].
  exact (splitCourse_identifiers _ _ H).
Defined.

(** ** [Section.set] and the slots [process] writes *)

Lemma position_nat (n k : nat) :
  position n (Z.of_nat k) = if (k <? n)%nat then Ok k else Raise IndexError.
Proof.
  unfold position.
  replace (0 <=? Z.of_nat k)%Z with true by (symmetry; apply Z.leb_le; lia).
  replace (Z.of_nat k <? 0)%Z with false by (symmetry; apply Z.ltb_ge; lia).
  cbn [andb].
  destruct (k <? n)%nat eqn:E.
  - apply Nat.ltb_lt in E.
    replace (Z.of_nat k <? Z.of_nat n)%Z with true
      by (symmetry; apply Z.ltb_lt; lia).
    rewrite Nat2Z.id. reflexivity.
  - apply Nat.ltb_ge in E.
    replace (Z.of_nat k <? Z.of_nat n)%Z with false
      by (symmetry; apply Z.ltb_ge; lia).
    reflexivity.
Qed.

Lemma position_bound (n : nat) (i : Z) (p : nat) :
  position n i = Ok p -> p < n.
Proof.
  unfold position.
  destruct ((0 <=? i) && (i <? Z.of_nat n))%Z eqn:E1.
  - intros H; injection H as <-.
    apply andb_prop in E1. destruct E1 as [A B].
    apply Z.leb_le in A. apply Z.ltb_lt in B. lia.
  - destruct ((i <? 0) && (0 <=? i + Z.of_nat n))%Z eqn:E2; [| discriminate].
    intros H; injection H as <-.
    apply andb_prop in E2. destruct E2 as [A B].
    apply Z.ltb_lt in A. apply Z.leb_le in B. lia.
Qed.

Lemma update_length {A} (l : list A) (p : nat) (v : A) :
  List.length (Revise.update l p v) = List.length l.
Proof.
  revert p; induction l as [| x l IH]; intros [| p]; cbn;
    try reflexivity. rewrite IH. reflexivity.
Qed.

Lemma update_nth_same {A} (l : list A) (p : nat) (v d : A) :
  p < List.length l -> nth p (Revise.update l p v) d = v.
Proof.
  revert p; induction l as [| x l IH]; intros [| p] H; cbn in *;
    try lia; [reflexivity | apply IH; lia].
Qed.

Lemma update_nth_other {A} (l : list A) (p q : nat) (v d : A) :
  q <> p -> nth q (Revise.update l p v) d = nth q l d.
Proof.
  revert p q; induction l as [| x l IH]; intros [| p] [| q] H; cbn;
    try reflexivity; try congruence. apply IH. congruence.
Qed.

Lemma setitem_list (x x' : json) (i : Z) (v : json) :
  setitem x i v = Ok x' ->
  exists l p,
    x = JList l /\ position (List.length l) i = Ok p
    /\ x' = JList (Revise.update l p v).
Proof.
  destruct x as [| b | n | f | s | l | d]; try discriminate.
  cbn [setitem]. intros H. bind_inv H. injection H as <-.
  exists l, x. repeat split. exact Hx.
Qed.

(** [x[i] = v] then [x[i]] gives [v], and the length is as before. *)
Lemma setitem_getitem (x x' : json) (i : Z) (v : json) :
  setitem x i v = Ok x' ->
  getitem x' i = Ok v /\ len x' = len x.
Proof.
  intros H. destruct (setitem_list _ _ _ _ H) as (l & p & -> & Hp & ->).
  pose proof (position_bound _ _ _ Hp) as Hb.
  cbn [getitem len]. rewrite update_length, Hp. cbn [bind].
  split; [rewrite (update_nth_same l p v JNull Hb); reflexivity |].
  reflexivity.
Qed.

(** X12.  [section.set(idx, val)]: afterwards [obj[1][0][idx]] is [val]; the
    attributes read by the constructor ([period], [days], [credits],
    [scheduleType]) are not refreshed; the object is still a list of the
    same length whose item 1 alone was replaced. *)
Theorem set_then_get :
  forall (s s' : section) (idx : Z) (val : json),
  set s idx val = Ok s' ->
  (exists meetings info,
     getitem (obj s') 1 = Ok meetings
     /\ getitem meetings 0 = Ok info
     /\ getitem info idx = Ok val)
  /\ period s' = period s /\ days s' = days s
  /\ credits s' = credits s /\ scheduleType s' = scheduleType s
  /\ len (obj s') = len (obj s)
  /\ exists l item,
       obj s = JList l /\ 1 < List.length l
       /\ obj s' = JList (Revise.update l 1 item).
Proof.
  intros s s' idx val H. unfold set in H.
  bind_inv H. bind_inv H. bind_inv H. bind_inv H. bind_inv H.
  injection H as <-. cbn [obj period days credits scheduleType].
  destruct (setitem_getitem _ _ _ _ Hx1) as (G1 & _).
  destruct (setitem_getitem _ _ _ _ Hx2) as (G2 & _).
  destruct (setitem_getitem _ _ _ _ Hx3) as (G3 & L3).
  split.
  { exists x2, x1. split; [exact G3 |]. split; [exact G2 | exact G1]. }
  repeat (split; [reflexivity |]).
  split; [exact L3 |].
  destruct (setitem_list _ _ _ _ Hx3) as (l & p & El & Hp & ->).
  change 1%Z with (Z.of_nat 1) in Hp. rewrite position_nat in Hp.
  destruct (1 <? List.length l)%nat eqn:E; [| discriminate Hp].
  injection Hp as <-. apply Nat.ltb_lt in E.
  exists l, x2. split; [exact El |]. split; [exact E | reflexivity].
Qed.

Lemma set_then_get_witness :
  set (mkSection (JStr "0800 - 0915") (JStr "MW") 3 (JStr "Lecture*")
         Examples.lecture) 6 (JNum 4)
  = Ok (mkSection (JStr "0800 - 0915") (JStr "MW") 3 (JStr "Lecture*")
          (JList [JStr "54321";
                  JList [JList [JNum 0; JStr "MW"; JStr "Room"; JNum 0;
                                JList []; JStr "Staff"; JNum 4; JNum (-1)]];
                  JNum 3; JNum 0]))
  /\ exists meetings info,
       getitem (JList [JStr "54321";
                  JList [JList [JNum 0; JStr "MW"; JStr "Room"; JNum 0;
                                JList []; JStr "Staff"; JNum 4; JNum (-1)]];
                  JNum 3; JNum 0]) 1 = Ok meetings
       /\ getitem meetings 0 = Ok info
       /\ getitem info 6 = Ok (JNum 4).
Proof.
  assert (H : set (mkSection (JStr "0800 - 0915") (JStr "MW") 3
                     (JStr "Lecture*") Examples.lecture) 6 (JNum 4)
    = Ok (mkSection (JStr "0800 - 0915") (JStr "MW") 3 (JStr "Lecture*")
          (JList [JStr "54321";
                  JList [JList [JNum 0; JStr "MW"; JStr "Room"; JNum 0;
                                JList []; JStr "Staff"; JNum 4; JNum (-1)]];
                  JNum 3; JNum 0]))) by (vm_compute; reflexivity).
  split; [exact H |].
  exact (proj1 (set_then_get _ _ _ _ H)).
Defined.

Lemma setitem_nat (x x' : json) (k : nat) (v : json) :
  setitem x (Z.of_nat k) v = Ok x' ->
  exists l, x = JList l /\ k < List.length l /\ x' = JList (Revise.update l k v).
Proof.
  intros H. destruct (setitem_list _ _ _ _ H) as (l & p & -> & Hp & ->).
  rewrite position_nat in Hp.
  destruct (k <? List.length l)%nat eqn:E; [| discriminate Hp].
  injection Hp as <-. apply Nat.ltb_lt in E.
  exists l. repeat split. exact E.
Qed.

Lemma getitem_nat (l : list json) (k : nat) (y : json) :
  getitem (JList l) (Z.of_nat k) = Ok y -> y = nth k l JNull.
Proof.
  cbn [getitem]. rewrite position_nat.
  destruct (k <? List.length l)%nat; [| discriminate].
  cbn [bind]. intros H; injection H as <-. reflexivity.
Qed.

Lemma set_nat (s s' : section) (k : nat) (v : json) :
  set s (Z.of_nat k) v = Ok s' ->
  exists x0 info meetings xs,
    obj s = JList (x0 :: JList (JList info :: meetings) :: xs)
    /\ k < List.length info
    /\ s' = mkSection (period s) (days s) (credits s) (scheduleType s)
              (JList (x0 :: JList (JList (Revise.update info k v) :: meetings)
                         :: xs)).
Proof.
  intros H. unfold set in H.
  apply bind_ok in H. destruct H as (ms & Hms & H).
  apply bind_ok in H. destruct H as (info & Hinfo & H).
  apply bind_ok in H. destruct H as (info' & Hinfo' & H).
  apply bind_ok in H. destruct H as (ms' & Hms' & H).
  apply bind_ok in H. destruct H as (o' & Ho' & H).
  injection H as <-.
  change 1%Z with (Z.of_nat 1) in Ho', Hms.
  change 0%Z with (Z.of_nat 0) in Hms', Hinfo.
  destruct (setitem_nat _ _ _ _ Ho') as (l & El & Hl & ->).
  destruct (setitem_nat _ _ _ _ Hms') as (lm & Em & Hm & ->).
  destruct (setitem_nat _ _ _ _ Hinfo') as (li & Ei & Hi & ->).
  rewrite El in Hms. apply getitem_nat in Hms.
  rewrite Em in Hinfo. apply getitem_nat in Hinfo.
  destruct l as [| x0 [| x1 xs]]; cbn in Hl; try lia.
  destruct lm as [| m0 meetings]; cbn in Hm; try lia.
  cbn in Hms, Hinfo. subst x1 m0.
  exists x0, li, meetings, xs. subst ms info.
  split; [exact El |]. split; [exact Hi |]. reflexivity.
Qed.

Lemma set_slots_with (s : section) (d t : nat) (data' : json) :
  set_slots s d t = Ok data' ->
  7 < first_meeting_size (obj s) /\ data' = with_slots (obj s) d t.
Proof.
  unfold set_slots. intros H.
  apply bind_ok in H. destruct H as (s1 & H1 & H).
  apply bind_ok in H. destruct H as (s2 & H2 & H).
  injection H as <-.
  change 6%Z with (Z.of_nat 6) in H1. change 7%Z with (Z.of_nat 7) in H2.
  destruct (set_nat _ _ _ _ H1) as (x0 & info & ms & xs & E1 & L1 & ->).
  destruct (set_nat _ _ _ _ H2) as (y0 & info2 & ms2 & ys & E2 & L2 & ->).
  cbn [obj] in E2. injection E2 as <- <- <- <-.
  rewrite update_length in L2.
  rewrite E1. cbn [first_meeting_size with_slots obj].
  split; [exact L2 | reflexivity].
Qed.

Lemma Section_obj (cache : list (string * json)) (data : json) (s : section) :
  Section cache data = Ok s -> obj s = data.
Proof.
  unfold Section. intros H.
  apply bind_ok in H. destruct H as (ms & _ & H).
  apply bind_ok in H. destruct H as (n & _ & H).
  destruct (n =? 0)%nat; [discriminate H |].
  repeat (apply bind_ok in H; destruct H as (? & _ & H)).
  injection H as <-. reflexivity.
Qed.

Lemma where_bound (l : list value) (v : value) (i : nat) :
  where_ l v = Ok i -> i < List.length l.
Proof.
  revert i; induction l as [| x l IH]; intros i H; cbn [where_] in H.
  - discriminate H.
  - destruct (value_eqb x v).
    + injection H as <-. cbn; lia.
    + bind_inv H. injection H as <-. apply IH in Hx. cbn; lia.
Qed.

Lemma where_zip_bound (l : list value) (vs : list value) (i : nat) :
  where_zip l vs = Ok i -> i < List.length l.
Proof.
  revert vs i; induction l as [| x l IH]; intros [| v vs] i H;
    cbn [where_zip] in H; try discriminate H.
  destruct (value_eqb x v).
  - injection H as <-. cbn; lia.
  - bind_inv H. injection H as <-. apply IH in Hx. cbn; lia.
Qed.

Lemma position_of_bound {A} (l : list value) (f : found A)
    (col : A -> value) (i : nat) :
  position_of l f col = Ok i -> i < List.length l.
Proof.
  destruct f as [r | rs]; cbn [position_of].
  - apply where_bound.
  - unfold where_all. destruct (_ =? _)%nat; [| discriminate].
    apply where_zip_bound.
Qed.

(** X13.  What [process] does to a section's entry: nothing, or it sets
    positions 6 and 7 of the first meeting, which has at least eight
    fields, to a position in [dates] and a position in [times]; nothing
    else of the entry changes. *)
Theorem process_section_frame :
  forall (schedule : list srow) (common : option (list crow))
         (cache : list (string * json)) (dates times : list value)
         (course : string) (data data' : json),
  process_section schedule common cache dates times course data = Ok data' ->
  data' = data
  \/ exists d t,
       d < List.length dates /\ t < List.length times
       /\ 7 < first_meeting_size data
       /\ data' = with_slots data d t.
Proof.
  intros schedule common cache dates times course data data' H.
  unfold process_section in H.
  destruct (Section cache data) as [s | e] eqn:ES;
    [| injection H as <-; left; reflexivity].
  pose proof (Section_obj _ _ _ ES) as Eo.
  destruct (negb _ || _); [injection H as <-; left; reflexivity |].
  destruct (in_common_index common course) as [row |].
  - apply bind_ok in H. destruct H as (d & Hd & H).
    apply bind_ok in H. destruct H as (t & Ht & H).
    destruct (set_slots_with _ _ _ _ H) as [L E]. rewrite Eo in L, E.
    right. exists d, t.
    split; [exact (position_of_bound _ _ _ _ Hd) |].
    split; [exact (position_of_bound _ _ _ _ Ht) |].
    split; assumption.
  - destruct (Revise.lookup schedule (days s) (period s)) as [row |];
      [| injection H as <-; left; reflexivity].
    apply bind_ok in H. destruct H as (d & Hd & H).
    apply bind_ok in H. destruct H as (t & Ht & H).
    destruct (set_slots_with _ _ _ _ H) as [L E]. rewrite Eo in L, E.
    right. exists d, t.
    split; [exact (position_of_bound _ _ _ _ Hd) |].
    split; [exact (position_of_bound _ _ _ _ Ht) |].
    split; assumption.
Qed.

Lemma process_section_frame_witness :
  process_section
    [mkRow (Str "MW") (Str "0800 - 0915") (Str "Apr 28, 2025")
           (Str "1440 - 1730")]
    (Some []) Examples.cache [Str "Apr 28, 2025"] [Str "1440 - 1730"] "CS 1331"
    Examples.lecture
  = Ok (with_slots Examples.lecture 0 0)
  /\ (with_slots Examples.lecture 0 0 = Examples.lecture
      \/ exists d t,
           d < List.length [Str "Apr 28, 2025"]
           /\ t < List.length [Str "1440 - 1730"]
           /\ 7 < first_meeting_size Examples.lecture
           /\ with_slots Examples.lecture 0 0 = with_slots Examples.lecture d t).
Proof.
  assert (H : process_section
    [mkRow (Str "MW") (Str "0800 - 0915") (Str "Apr 28, 2025")
           (Str "1440 - 1730")]
    (Some []) Examples.cache [Str "Apr 28, 2025"] [Str "1440 - 1730"] "CS 1331"
    Examples.lecture
  = Ok (with_slots Examples.lecture 0 0)) by (vm_compute; reflexivity).
  split; [exact H |].
  exact (process_section_frame _ _ _ _ _ _ _ _ H).
Defined.

(** ** The lists [dates] and [times] of [process] *)

Lemma compare_OT (a b : string) :
  String.compare a b = String_as_OT.compare a b.
Proof.
  revert b; induction a as [| x a IH]; intros [| y b]; cbn; reflexivity.
Qed.

Lemma before_trans (a b c : string) : before a b -> before b c -> before a c.
Proof.
  unfold before. rewrite !compare_OT.
  apply (@RelationClasses.StrictOrder_Transitive _ _ String_as_OT.lt_strorder).
Qed.

Lemma compare_gt_before (a b : string) :
  String.compare a b = Gt -> before b a.
Proof.
  unfold before. intros H. rewrite String.compare_antisym, H. reflexivity.
Qed.

Lemma insert_sorted_in (x : string) (l : list string) :
  forall y, In y (insert_sorted x l) <-> y = x \/ In y l.
Proof.
  induction l as [| z l IH]; intros y; cbn [insert_sorted].
  - cbn. intuition congruence.
  - destruct (String.compare x z) eqn:E.
    + apply String.compare_eq_iff in E. subst z. cbn. intuition congruence.
    + cbn. intuition congruence.
    + cbn [In]. rewrite IH. intuition congruence.
Qed.

Lemma insert_sorted_sorted (x : string) (l : list string) :
  StronglySorted before l -> StronglySorted before (insert_sorted x l).
Proof.
  induction 1 as [| z l Hs IH Hz]; cbn [insert_sorted].
  - constructor; constructor.
  - destruct (String.compare x z) eqn:E.
    + constructor; assumption.
    + constructor; [constructor; assumption |].
      constructor; [exact E |].
      apply Forall_forall. intros y Hy.
      apply (before_trans x z y E).
      exact (proj1 (Forall_forall _ _) Hz y Hy).
    + constructor; [exact IH |].
      apply Forall_forall. intros y Hy.
      apply insert_sorted_in in Hy. destruct Hy as [-> | Hy].
      * apply compare_gt_before. exact E.
      * exact (proj1 (Forall_forall _ _) Hz y Hy).
Qed.

Lemma unique_in (l : list string) : forall y, In y (unique l) <-> In y l.
Proof.
  induction l as [| x l IH]; intros y; [reflexivity |].
  unfold unique in *. cbn [fold_right In].
  rewrite insert_sorted_in, IH. intuition congruence.
Qed.

Lemma unique_sorted (l : list string) : StronglySorted before (unique l).
Proof.
  induction l as [| x l IH]; [constructor |].
  unfold unique in *. cbn [fold_right]. apply insert_sorted_sorted. exact IH.
Qed.

Lemma strings_map (vs : list value) (l : list string) :
  strings vs = Ok l -> vs = map Str l.
Proof.
  revert l; induction vs as [| v vs IH]; intros l H.
  - injection H as <-. reflexivity.
  - unfold strings in H. cbn [mapM] in H.
    destruct v as [| s]; [discriminate H |]. cbn [bind] in H.
    bind_inv H. injection H as <-. cbn [map]. f_equal. apply IH. exact Hx.
Qed.

Lemma where_complete (l : list value) (x : value) :
  In x l -> exists i, where_ l x = Ok i /\ nth_error l i = Some x.
Proof.
  induction l as [| y l IH]; intros H; [contradiction |].
  cbn [where_].
  destruct (value_eqb y x) eqn:E.
  - apply value_eqb_eq in E. subst y. exists 0. split; reflexivity.
  - destruct H as [-> | H].
    + pose proof (proj2 (value_eqb_eq x x) eq_refl) as R.
      rewrite R in E. discriminate E.
    + destruct (IH H) as (i & Hi & Hn). exists (S i).
      rewrite Hi. split; [reflexivity | exact Hn].
Qed.

Lemma first_seen_from (l : list value) :
  forall seen v,
  In v (fold_left (fun seen v =>
                     if existsb (value_eqb v) seen then seen
                     else (seen ++ [v])%list) l seen)
  <-> In v seen \/ In v l.
Proof.
  induction l as [| x l IH]; intros seen v; cbn [fold_left].
  - cbn. tauto.
  - rewrite IH. destruct (existsb (value_eqb x) seen) eqn:E.
    + apply existsb_value in E. cbn [In]. split; [tauto |].
      intros [H | [<- | H]]; tauto.
    + rewrite in_app_iff. cbn [In]. tauto.
Qed.

Lemma first_seen_in (l : list value) (v : value) :
  In v (first_seen l) <-> In v l.
Proof. unfold first_seen. rewrite first_seen_from. cbn. tauto. Qed.

Lemma strings_raise (l : list value) (e : exn) :
  strings l = Raise e -> e = TypeError.
Proof.
  induction l as [| v l IH]; intros H; [discriminate H |].
  unfold strings in *. cbn [mapM] in H.
  destruct v as [| s]; [injection H as <-; reflexivity |].
  cbn [bind] in H.
  destruct (mapM _ l) as [x | e'] eqn:E; [discriminate H |].
  cbn [bind] in H. injection H as <-. apply IH. reflexivity.
Qed.

Lemma strings_null (l : list value) (s : list string) :
  strings l = Ok s -> ~ In Null l.
Proof.
  intros H. apply strings_map in H. subst l. intros Hin.
  apply in_map_iff in Hin. destruct Hin as (x & E & _). discriminate E.
Qed.

Lemma np_unique_in (l l' : list value) :
  np_unique l = Ok l' -> forall v, In v l' <-> In v l.
Proof.
  intros H v. unfold np_unique in H.
  destruct l as [| a [| b l]]; try (injection H as <-; reflexivity).
  bind_inv H. injection H as <-. apply strings_map in Hx. rewrite Hx.
  split; intros Hv; apply in_map_iff in Hv; destruct Hv as (y & <- & Hy);
    apply in_map; apply unique_in; exact Hy.
Qed.

Lemma np_unique_shape (l l' : list value) :
  np_unique l = Ok l' ->
  l' = [Null] \/ exists ss, l' = map Str ss /\ StronglySorted before ss.
Proof.
  intros H. unfold np_unique in H.
  destruct l as [| a [| b l]].
  - injection H as <-. right. exists []. split; [reflexivity | constructor].
  - injection H as <-. destruct a as [| y]; [left; reflexivity |].
    right. exists [y]. split; [reflexivity |]. repeat constructor.
  - bind_inv H. injection H as <-. right.
    exists (unique x). split; [reflexivity | apply unique_sorted].
Qed.

Lemma two_members {A} (l : list A) (a b : A) :
  In a l -> In b l -> a <> b -> 2 <= List.length l.
Proof.
  destruct l as [| x [| y l]]; cbn; intros Ha Hb Hab; try lia.
  destruct Ha as [Ea | []], Hb as [Eb | []]. congruence.
Qed.

Lemma np_unique_mixed (l : list value) :
  In Null l -> 2 <= List.length l -> np_unique l = Raise TypeError.
Proof.
  intros Hn Hl. unfold np_unique.
  destruct l as [| a [| b l]]; cbn in Hl; try lia.
  destruct (strings (a :: b :: l)) as [s | e] eqn:E.
  - exfalso. exact (strings_null _ _ E Hn).
  - rewrite (strings_raise _ _ E). reflexivity.
Qed.

Lemma distinct_in :
  forall (schedule : list srow) (cs : list crow)
         (of_row : srow -> value) (of_common : crow -> string)
         (l : list value),
  schedule <> [] ->
  distinct schedule (Some cs) of_row of_common = Ok l ->
  forall v,
    In v l <->
    (exists r, In r schedule /\ of_row r = v)
    \/ (exists c, In c cs /\ Str (of_common c) = v).
Proof.
  intros schedule cs of_row of_common l Hne H v. unfold distinct in H.
  destruct schedule as [| r0 schedule]; [contradiction |].
  rewrite (np_unique_in _ _ H), in_app_iff, !first_seen_in, !in_map_iff.
  split; (intros [(x & Hx) | (x & Hx)]; [left | right]; exists x; tauto).
Qed.

Lemma distinct_search :
  forall (schedule : list srow) (cs : list crow)
         (of_row : srow -> value) (of_common : crow -> string)
         (l : list value) (r : srow),
  distinct schedule (Some cs) of_row of_common = Ok l ->
  In r schedule ->
  exists i, where_ l (of_row r) = Ok i /\ nth_error l i = Some (of_row r).
Proof.
  intros schedule cs of_row of_common l r H Hr.
  apply where_complete.
  apply (distinct_in schedule cs of_row of_common l); [| exact H |].
  - intros ->. contradiction.
  - left. exists r. split; [exact Hr | reflexivity].
Qed.

(** X14.  The lists [dates] and [times] that [process] writes into the caches and
    searches.  With an empty schedule they are empty, whatever the common
    table holds.  Otherwise, when they are made, they hold exactly the
    values of the schedule column and of the common column; they are the
    single missing value, or strings, each once, in increasing order; and
    the search for the value of any row of either table succeeds at a
    position that holds that value.  They are not made ([TypeError]) when
    the schedule column has a missing value beside another value of either
    column: a missing value cannot be ordered. *)
Theorem dates_and_times :
  forall (schedule : list srow) (common : option (list crow))
         (of_row : srow -> value) (of_common : crow -> string),
  (forall l : list value,
     distinct schedule common of_row of_common = Ok l ->
     (l = [Null] \/ exists ss, l = map Str ss /\ StronglySorted before ss)
     /\ (schedule = [] -> l = [])
     /\ (schedule <> [] ->
         exists cs,
           common = Some cs
           /\ (forall v,
                 In v l <->
                 (exists r, In r schedule /\ of_row r = v)
                 \/ (exists c, In c cs /\ Str (of_common c) = v))
           /\ (forall r,
                 In r schedule ->
                 exists i,
                   where_ l (of_row r) = Ok i
                   /\ nth_error l i = Some (of_row r))
           /\ (forall c,
                 In c cs ->
                 exists i,
                   where_ l (Str (of_common c)) = Ok i
                   /\ nth_error l i = Some (Str (of_common c)))))
  /\ (forall cs r,
        common = Some cs ->
        In r schedule -> of_row r = Null ->
        cs <> [] \/ (exists r', In r' schedule /\ of_row r' <> Null) ->
        distinct schedule common of_row of_common = Raise TypeError).
Proof.
  intros schedule common of_row of_common. split.
  - intros l H.
    destruct schedule as [| r0 schedule].
    { injection H as <-. split; [| split; [reflexivity | intros N; contradiction]].
      right. exists []. split; [reflexivity | constructor]. }
    destruct common as [cs |]; [| discriminate H].
    split; [exact (np_unique_shape _ _ H) |].
    split; [discriminate |].
    intros _. exists cs. split; [reflexivity |].
    pose proof (distinct_in (r0 :: schedule) cs of_row of_common l
                  ltac:(discriminate) H) as Hin.
    split; [exact Hin |]. split.
    + intros r Hr. apply where_complete, Hin. left.
      exists r. split; [exact Hr | reflexivity].
    + intros c Hc. apply where_complete, Hin. right.
      exists c. split; [exact Hc | reflexivity].
  - intros cs r -> Hr Hnull Hother. unfold distinct.
    destruct schedule as [| r0 schedule]; [contradiction |].
    apply np_unique_mixed.
    + apply in_app_iff. left. apply first_seen_in.
      rewrite <- Hnull. apply in_map. exact Hr.
    + destruct Hother as [Hcs | (r' & Hr' & Hv)].
      * destruct cs as [| c cs]; [contradiction |].
        apply (two_members _ Null (Str (of_common c))); [| | discriminate].
        -- apply in_app_iff. left. apply first_seen_in.
           rewrite <- Hnull. apply in_map. exact Hr.
        -- apply in_app_iff. right. apply first_seen_in. left. reflexivity.
      * apply (two_members _ Null (of_row r'));
          [| | intros E; apply Hv; symmetry; exact E].
        -- apply in_app_iff. left. apply first_seen_in.
           rewrite <- Hnull. apply in_map. exact Hr.
        -- apply in_app_iff. left. apply first_seen_in.
           apply in_map. exact Hr'.
Qed.

Lemma dates_and_times_witness :
  distinct
    [mkRow (Str "MW") (Str "0800 - 0915") (Str "Dec 09, 2024") (Str "0800 - 1050");
     mkRow (Str "TR") (Str "0800 - 0915") (Str "Apr 28, 2025") (Str "0800 - 1050")]
    (Some [mkCrow "CS 1331" "Apr 25, 2025" "1800 - 2050"]) finalDate Date
  = Ok [Str "Apr 25, 2025"; Str "Apr 28, 2025"; Str "Dec 09, 2024"]
  /\ ([Str "Apr 25, 2025"; Str "Apr 28, 2025"; Str "Dec 09, 2024"] = [Null]
      \/ exists ss,
           [Str "Apr 25, 2025"; Str "Apr 28, 2025"; Str "Dec 09, 2024"]
           = map Str ss /\ StronglySorted before ss)
  /\ distinct
       [mkRow (Str "MW") (Str "0800 - 0915") Null (Str "0800 - 1050");
        mkRow (Str "TR") (Str "0800 - 0915") Null (Str "0800 - 1050")]
       (Some []) finalDate Date
     = Ok [Null]
  /\ distinct
       [mkRow (Str "MW") (Str "0800 - 0915") Null (Str "0800 - 1050");
        mkRow (Str "TR") (Str "0800 - 0915") (Str "Apr 28, 2025")
              (Str "0800 - 1050")]
       (Some []) finalDate Date
     = Raise TypeError.
Proof.
  assert (H : distinct
    [mkRow (Str "MW") (Str "0800 - 0915") (Str "Dec 09, 2024") (Str "0800 - 1050");
     mkRow (Str "TR") (Str "0800 - 0915") (Str "Apr 28, 2025") (Str "0800 - 1050")]
    (Some [mkCrow "CS 1331" "Apr 25, 2025" "1800 - 2050"]) finalDate Date
  = Ok [Str "Apr 25, 2025"; Str "Apr 28, 2025"; Str "Dec 09, 2024"])
    by (vm_compute; reflexivity).
  split; [exact H |].
  split; [exact (proj1 (proj1 (dates_and_times _ _ _ _) _ H)) |].
  split; [vm_compute; reflexivity |].
  apply (proj2 (dates_and_times _ (Some []) finalDate Date) []
           (mkRow (Str "MW") (Str "0800 - 0915") Null (Str "0800 - 1050")));
    [reflexivity | left; reflexivity | reflexivity |].
  right.
  exists (mkRow (Str "TR") (Str "0800 - 0915") (Str "Apr 28, 2025")
                (Str "0800 - 1050")).
  split; [right; left; reflexivity | discriminate].
Defined.

(** ** The local function [lookup] and the slots of a lecture *)

Lemma key_eqb_eq (a b : value * value) : key_eqb a b = true <-> a = b.
Proof.
  destruct a as [a1 a2], b as [b1 b2]. unfold key_eqb. cbn [fst snd].
  rewrite andb_true_iff, !value_eqb_eq. split.
  - intros [-> ->]. reflexivity.
  - intros H; injection H as -> ->. split; reflexivity.
Qed.

Lemma unique_keys_filter (l : list srow) (k : value * value) :
  unique_keys l = true ->
  List.length (filter (fun r => key_eqb (key r) k) l) <= 1.
Proof.
  induction l as [| r l IH]; intros H; [cbn; lia |].
  cbn [unique_keys] in H. apply andb_prop in H. destruct H as [Hr Hl].
  cbn [filter]. destruct (key_eqb (key r) k) eqn:E; [| exact (IH Hl)].
  apply key_eqb_eq in E.
  replace (filter (fun r0 => key_eqb (key r0) k) l) with (@nil srow);
    [cbn; lia |].
  symmetry. apply negb_true_iff in Hr.
  destruct (filter (fun r0 => key_eqb (key r0) k) l) as [| r' f] eqn:Ef;
    [reflexivity |].
  assert (Hin : In r' (filter (fun r0 => key_eqb (key r0) k) l))
    by (rewrite Ef; left; reflexivity).
  apply filter_In in Hin. destruct Hin as [Hin Hk].
  apply key_eqb_eq in Hk.
  assert (Hex : existsb (fun r'0 => key_eqb (key r) (key r'0)) l = true).
  { apply existsb_exists. exists r'. split; [exact Hin |].
    apply key_eqb_eq. congruence. }
  rewrite Hex in Hr. discriminate Hr.
Qed.

Lemma lookup_one_in :
  forall (schedule : list srow) (days period : json) (r : srow),
  Revise.lookup schedule days period = Some (One_row r) -> In r schedule.
Proof.
  intros schedule days period r H. unfold Revise.lookup in H.
  destruct days as [| | | | d | |]; try discriminate H.
  destruct period as [| | | | p | |]; try discriminate H.
  destruct (filter (fun r => key_eqb (key r) (Str d, Str p)) schedule)
    as [| r0 rs] eqn:Ef; [discriminate H |].
  destruct (unique_keys schedule); [| discriminate H].
  destruct rs as [| r1 rs]; [| discriminate H].
  injection H as ->.
  assert (H0 : In r (filter (fun r => key_eqb (key r) (Str d, Str p)) schedule))
    by (rewrite Ef; left; reflexivity).
  apply filter_In in H0. exact (proj1 H0).
Qed.

(** X15.  [lookup(days, period)]: [None] exactly when no row of the schedule
    carries the pair (or when one of the two is not a string); the row
    itself when the keys of the schedule are all distinct, and it is then
    the only row with the pair; a frame of rows only when some key of the
    schedule is repeated. *)
Theorem lookup_row :
  forall (schedule : list srow) (days period : json),
  match Revise.lookup schedule days period with
  | None =>
      forall d p r,
        days = JStr d -> period = JStr p -> In r schedule ->
        key r <> (Str d, Str p)
  | Some (One_row r) =>
      exists d p,
        days = JStr d /\ period = JStr p
        /\ In r schedule /\ Days r = Str d /\ Time r = Str p
        /\ forall r', In r' schedule -> key r' = key r -> r' = r
  | Some (Rows rs) =>
      exists d p,
        days = JStr d /\ period = JStr p
        /\ rs = filter (fun r => key_eqb (key r) (Str d, Str p)) schedule
        /\ rs <> []
        /\ unique_keys schedule = false
  end.
Proof.
  intros schedule days period. unfold Revise.lookup.
  destruct days as [| | | | d | |]; try (intros; discriminate).
  destruct period as [| | | | p | |]; try (intros; discriminate).
  destruct (filter (fun r => key_eqb (key r) (Str d, Str p)) schedule)
    as [| r0 rs] eqn:Ef.
  - intros d' p' r Ed Ep Hin Hk. injection Ed as <-. injection Ep as <-.
    assert (H : In r (filter (fun r => key_eqb (key r) (Str d, Str p)) schedule)).
    { apply filter_In. split; [exact Hin | apply key_eqb_eq; exact Hk]. }
    rewrite Ef in H. contradiction.
  - destruct (unique_keys schedule) eqn:Eu.
    + pose proof (unique_keys_filter schedule (Str d, Str p) Eu) as Hl.
      rewrite Ef in Hl. destruct rs as [| r1 rs]; [| cbn in Hl; lia].
      assert (H0 : In r0 (filter (fun r => key_eqb (key r) (Str d, Str p))
                            schedule)) by (rewrite Ef; left; reflexivity).
      apply filter_In in H0. destruct H0 as [Hin Hk]. apply key_eqb_eq in Hk.
      exists d, p. split; [reflexivity |]. split; [reflexivity |].
      split; [exact Hin |].
      unfold key in Hk. injection Hk as Hd Ht.
      split; [exact Hd |]. split; [exact Ht |].
      intros r' Hin' Hk'.
      assert (H' : In r' (filter (fun r => key_eqb (key r) (Str d, Str p))
                            schedule)).
      { apply filter_In. split; [exact Hin' |]. apply key_eqb_eq.
        rewrite Hk'. unfold key. congruence. }
      rewrite Ef in H'. destruct H' as [<- | []]. reflexivity.
    + exists d, p. split; [reflexivity |]. split; [reflexivity |].
      split; [symmetry; exact Ef |]. split; [discriminate | reflexivity].
Qed.

Lemma getitem_list (l : list json) (k : nat) :
  getitem (JList l) (Z.of_nat k)
  = if (k <? List.length l)%nat then Ok (nth k l JNull) else Raise IndexError.
Proof.
  cbn [getitem]. rewrite position_nat.
  destruct (k <? List.length l)%nat; reflexivity.
Qed.

Lemma setitem_list_eq (l : list json) (k : nat) (v : json) :
  setitem (JList l) (Z.of_nat k) v
  = if (k <? List.length l)%nat then Ok (JList (Revise.update l k v))
    else Raise IndexError.
Proof.
  cbn [setitem]. rewrite position_nat.
  destruct (k <? List.length l)%nat; reflexivity.
Qed.

Lemma set_shape (pe da : json) (cr : Z) (ty x0 : json)
    (info ms xs : list json) (k : nat) (v : json) :
  k < List.length info ->
  set (mkSection pe da cr ty (JList (x0 :: JList (JList info :: ms) :: xs)))
      (Z.of_nat k) v
  = Ok (mkSection pe da cr ty
          (JList (x0 :: JList (JList (Revise.update info k v) :: ms) :: xs))).
Proof.
  intros H. unfold set. cbn [obj period days credits scheduleType].
  change 1%Z with (Z.of_nat 1). change 0%Z with (Z.of_nat 0).
  rewrite (getitem_list (x0 :: JList (JList info :: ms) :: xs) 1).
  cbn [List.length Nat.ltb Nat.leb nth bind].
  rewrite (getitem_list (JList info :: ms) 0).
  cbn [List.length Nat.ltb Nat.leb nth bind].
  rewrite (setitem_list_eq info k v).
  replace (k <? List.length info)%nat with true
    by (symmetry; apply Nat.ltb_lt; exact H).
  cbn [bind].
  rewrite (setitem_list_eq (JList info :: ms) 0).
  cbn [List.length Nat.ltb Nat.leb bind Revise.update].
  rewrite (setitem_list_eq (x0 :: JList (JList info :: ms) :: xs) 1).
  cbn [List.length Nat.ltb Nat.leb bind Revise.update].
  reflexivity.
Qed.

Lemma set_slots_shape (s : section) (d t : nat) :
  7 < first_meeting_size (obj s) ->
  set_slots s d t = Ok (with_slots (obj s) d t).
Proof.
  intros H. destruct s as [pe da cr ty o]. cbn [obj] in *.
  destruct o as [| | | | | [| x0 [| [| | | | | [| [| | | | | info |] ms] |] xs]] |];
    cbn [first_meeting_size] in H; try lia.
  unfold set_slots. cbn [with_slots].
  change 6%Z with (Z.of_nat 6). change 7%Z with (Z.of_nat 7).
  rewrite set_shape by lia. cbn [bind].
  rewrite set_shape by (rewrite update_length; lia). cbn [bind obj].
  reflexivity.
Qed.

Lemma lookup_row_witness :
  exists d p,
    JStr "MW" = JStr d /\ JStr "0800 - 0915" = JStr p
    /\ In (mkRow (Str "MW") (Str "0800 - 0915") (Str "Apr 28, 2025")
                 (Str "1440 - 1730"))
          [mkRow (Str "MW") (Str "0800 - 0915") (Str "Apr 28, 2025")
                 (Str "1440 - 1730");
           mkRow (Str "TR") (Str "0800 - 0915") (Str "Apr 29, 2025")
                 (Str "0800 - 1050")]
    /\ Str "MW" = Str d /\ Str "0800 - 0915" = Str p
    /\ forall r',
         In r' [mkRow (Str "MW") (Str "0800 - 0915") (Str "Apr 28, 2025")
                      (Str "1440 - 1730");
                mkRow (Str "TR") (Str "0800 - 0915") (Str "Apr 29, 2025")
                      (Str "0800 - 1050")] ->
         key r' = key (mkRow (Str "MW") (Str "0800 - 0915")
                         (Str "Apr 28, 2025") (Str "1440 - 1730")) ->
         r' = mkRow (Str "MW") (Str "0800 - 0915") (Str "Apr 28, 2025")
                    (Str "1440 - 1730").
Proof.
  exact (lookup_row
           [mkRow (Str "MW") (Str "0800 - 0915") (Str "Apr 28, 2025")
                  (Str "1440 - 1730");
            mkRow (Str "TR") (Str "0800 - 0915") (Str "Apr 29, 2025")
                  (Str "0800 - 1050")]
           (JStr "MW") (JStr "0800 - 0915")).
Defined.

(** X16.  A lecture of at least two credit hours whose course is not in the
    common table and whose (days, period) is a key of a schedule without
    repeated keys: [process] sets the two slots of its first meeting (of
    at least eight fields) to the positions, in [dates] and [times], of the
    [finalDate] and the [finalTime] of the row with that key. *)
Theorem lecture_slots :
  forall (schedule : list srow) (cs : list crow)
         (cache : list (string * json)) (dates times : list value)
         (course : string) (data : json) (s : section) (r : srow),
  distinct schedule (Some cs) finalDate Date = Ok dates ->
  distinct schedule (Some cs) finalTime CTime = Ok times ->
  Section cache data = Ok s ->
  scheduleType s = JStr "Lecture*" ->
  (2 <= credits s)%Z ->
  common_loc cs course = None ->
  Revise.lookup schedule (days s) (period s) = Some (One_row r) ->
  7 < first_meeting_size data ->
  exists d t,
    process_section schedule (Some cs) cache dates times course data
    = Ok (with_slots data d t)
    /\ nth_error dates d = Some (finalDate r)
    /\ nth_error times t = Some (finalTime r).
Proof.
  intros schedule cs cache dates times course data s r
         Hd Ht HS Hty Hcr Hc Hl Hsize.
  pose proof (lookup_one_in _ _ _ _ Hl) as Hin.
  destruct (distinct_search _ _ _ _ _ r Hd Hin) as (d & Wd & Nd).
  destruct (distinct_search _ _ _ _ _ r Ht Hin) as (t & Wt & Nt).
  exists d, t.
  split; [| split; assumption].
  unfold process_section. rewrite HS, Hty. rewrite String.eqb_refl.
  replace (credits s <? 2)%Z with false by (symmetry; apply Z.ltb_ge; lia).
  cbn [negb orb]. unfold in_common_index. rewrite Hc, Hl.
  cbn [position_of]. rewrite Wd. cbn [bind]. rewrite Wt. cbn [bind].
  rewrite <- (Section_obj _ _ _ HS) in Hsize |- *.
  apply set_slots_shape. exact Hsize.
Qed.

Lemma lecture_slots_witness :
  process_section
    [mkRow (Str "MW") (Str "0800 - 0915") (Str "Apr 28, 2025")
           (Str "1440 - 1730")]
    (Some [mkCrow "CS 1332" "Apr 25, 2025" "1800 - 2050"])
    Examples.cache [Str "Apr 25, 2025"; Str "Apr 28, 2025"]
    [Str "1440 - 1730"; Str "1800 - 2050"] "CS 1331" Examples.lecture
  = Ok (with_slots Examples.lecture 1 0)
  /\ exists d t,
       process_section
         [mkRow (Str "MW") (Str "0800 - 0915") (Str "Apr 28, 2025")
                (Str "1440 - 1730")]
         (Some [mkCrow "CS 1332" "Apr 25, 2025" "1800 - 2050"])
         Examples.cache [Str "Apr 25, 2025"; Str "Apr 28, 2025"]
         [Str "1440 - 1730"; Str "1800 - 2050"] "CS 1331" Examples.lecture
       = Ok (with_slots Examples.lecture d t)
       /\ nth_error [Str "Apr 25, 2025"; Str "Apr 28, 2025"] d
          = Some (Str "Apr 28, 2025")
       /\ nth_error [Str "1440 - 1730"; Str "1800 - 2050"] t
          = Some (Str "1440 - 1730").
Proof.
  split; [vm_compute; reflexivity |].
  apply (lecture_slots
           [mkRow (Str "MW") (Str "0800 - 0915") (Str "Apr 28, 2025")
                  (Str "1440 - 1730")]
           [mkCrow "CS 1332" "Apr 25, 2025" "1800 - 2050"]
           Examples.cache [Str "Apr 25, 2025"; Str "Apr 28, 2025"]
           [Str "1440 - 1730"; Str "1800 - 2050"] "CS 1331" Examples.lecture
           (mkSection (JStr "0800 - 0915") (JStr "MW") 3 (JStr "Lecture*")
              Examples.lecture)
           (mkRow (Str "MW") (Str "0800 - 0915") (Str "Apr 28, 2025")
                  (Str "1440 - 1730"))).
  - vm_compute; reflexivity.
  - vm_compute; reflexivity.
  - vm_compute; reflexivity.
  - reflexivity.
  - cbn [credits]. lia.
  - vm_compute; reflexivity.
  - vm_compute; reflexivity.
  - cbn. lia.
Defined.

(** ** [Revise.iterFiles]: what halts the run, and what passes *)

(** X17.  A document that a parser accepts with a schedule of at least one row
    and without a "Common Exams" chunk: [process] asks the empty frame
    [self.common] for its column 'Date', the [KeyError] is outside every
    [try], and the run ends there; the remaining files are not visited. *)
Theorem missing_common_halts :
  forall (world : version -> string -> fetched) (b : batch) (name : string)
         (data d : term) (files : list (string * term)) (yr : nat)
         (p : parser),
  rematch false term_file name <> None ->
  year_of (stem name) = Ok yr ->
  attempts world (stem name) yr = Some p ->
  schedule p <> [] ->
  common p = None ->
  assoc name (disk b) = Some d ->
  iter_from world b ((name, data) :: files) = Raise KeyError.
Proof.
  intros world b name data d files yr p Hm Hy Ha Hs Hc Hd.
  cbn [iter_from]. unfold iter_file. cbn [fst].
  destruct (rematch false term_file name); [| contradiction].
  rewrite Hy. cbn [bind]. rewrite Ha, Hd.
  unfold process, distinct. rewrite Hc.
  destruct (schedule p); [contradiction | reflexivity].
Qed.

Lemma missing_common_halts_witness :
  rematch false term_file "202402.json" <> None
  /\ year_of (stem "202402.json") = Ok 2024
  /\ attempts Samples.one_block_world (stem "202402.json") 2024
     = Some (mkParser
               [mkRow (Str "MW") (Str "0800 - 0915") (Str "Apr 28, 2024")
                      (Str "0800 - 1050")] None)
  /\ iter_from Samples.one_block_world
       (mkBatch [] [("202402.json", Examples.document)])
       [("202402.json", Examples.document); ("202408.json", Examples.document)]
     = Raise KeyError.
Proof.
  assert (Hm : rematch false term_file "202402.json" <> None)
    by (vm_compute; discriminate).
  assert (Hy : year_of (stem "202402.json") = Ok 2024)
    by (vm_compute; reflexivity).
  assert (Ha : attempts Samples.one_block_world (stem "202402.json") 2024
     = Some (mkParser
               [mkRow (Str "MW") (Str "0800 - 0915") (Str "Apr 28, 2024")
                      (Str "0800 - 1050")] None))
    by (vm_compute; reflexivity).
  split; [exact Hm |]. split; [exact Hy |]. split; [exact Ha |].
  apply (missing_common_halts Samples.one_block_world _ "202402.json"
           Examples.document Examples.document _ 2024 _ Hm Hy Ha).
  - discriminate.
  - reflexivity.
  - reflexivity.
Defined.

Lemma process_section_empty (cache : list (string * json))
    (course : string) (data : json) :
  process_section [] None cache [] [] course data = Ok data.
Proof.
  unfold process_section.
  destruct (Section cache data) as [s | e]; [| reflexivity].
  destruct (negb _ || _); [reflexivity |].
  cbn [in_common_index]. unfold Revise.lookup.
  destruct (days s); try reflexivity. destruct (period s); reflexivity.
Qed.

Lemma process_sections_empty (cache : list (string * json))
    (course : string) (l : list (string * json)) :
  process_sections [] None cache [] [] course l = Ok l.
Proof.
  induction l as [| [t d] l IH]; [reflexivity |].
  cbn [process_sections]. rewrite process_section_empty. cbn [bind].
  rewrite IH. reflexivity.
Qed.

Lemma process_courses_empty (cache : list (string * json))
    (l : list (string * json)) :
  Forall walkable l -> process_courses [] None cache [] [] l = Ok l.
Proof.
  induction 1 as [| [course cd] l Hw _ IH]; [reflexivity |].
  cbn [process_courses].
  assert (E : process_course [] None cache [] [] course cd = Ok cd).
  { unfold process_course.
    destruct (finditer vip course) as [| m ms] eqn:Ev; [| reflexivity].
    destruct Hw as [Hv | (x0 & sections & xs & Hs)];
      [cbn [fst] in Hv; contradiction |].
    cbn [snd] in Hs. subst cd.
    change 1%Z with (Z.of_nat 1). rewrite getitem_list.
    cbn [List.length Nat.ltb Nat.leb nth bind].
    rewrite process_sections_empty. cbn [bind].
    rewrite setitem_list_eq. reflexivity. }
  rewrite E. cbn [bind]. rewrite IH. reflexivity.
Qed.

(** X18.  A term that is not a key of [matrix.json] (or whose tables could not
    be fetched by version 1) counts as parsed, with an empty schedule and
    no common table: it is not added to [failed], and [process] rewrites
    its document with the two caches [finalTimes] and [finalDates] emptied
    and every course as it was. *)
Theorem unlisted_term_passes :
  forall (world : version -> string -> fetched) (b : batch) (name : string)
         (data d : term) (yr : nat),
  rematch false term_file name <> None ->
  year_of (stem name) = Ok yr ->
  world V1 (stem name) = Not_listed \/ world V1 (stem name) = Gave_up None ->
  assoc name (disk b) = Some d ->
  Forall walkable (courses d) ->
  attempts world (stem name) yr = Some (mkParser [] None)
  /\ iter_file world b (name, data)
     = Ok (mkBatch (failed b)
             (setkey (disk b) name (mkTerm (emptied (caches d)) (courses d)))).
Proof.
  intros world b name data d yr Hm Hy Hw Hd Hc.
  assert (Ha : attempts world (stem name) yr = Some (mkParser [] None)).
  { unfold attempts, run, parseFile.
    destruct Hw as [-> | ->]; reflexivity. }
  split; [exact Ha |].
  unfold iter_file. cbn [fst].
  destruct (rematch false term_file name); [| contradiction].
  rewrite Hy. cbn [bind]. rewrite Ha, Hd. cbn [schedule common].
  unfold process. cbn [distinct bind].
  change (tolist []) with (JList []).
  rewrite (process_courses_empty _ _ Hc). reflexivity.
Qed.

Lemma unlisted_term_passes_witness :
  rematch false term_file "202402.json" <> None
  /\ year_of (stem "202402.json") = Ok 2024
  /\ Forall walkable (courses Examples.document)
  /\ iter_file Samples.unlisted_world
       (mkBatch [] [("202402.json", Examples.document)])
       ("202402.json", Examples.document)
     = Ok (mkBatch []
             (setkey [("202402.json", Examples.document)] "202402.json"
                (mkTerm (emptied (caches Examples.document))
                        (courses Examples.document)))).
Proof.
  assert (Hm : rematch false term_file "202402.json" <> None)
    by (vm_compute; discriminate).
  assert (Hy : year_of (stem "202402.json") = Ok 2024)
    by (vm_compute; reflexivity).
  assert (Hc : Forall walkable (courses Examples.document)).
  { constructor; [| constructor]. right. cbn. do 3 eexists. reflexivity. }
  split; [exact Hm |]. split; [exact Hy |]. split; [exact Hc |].
  exact (proj2 (unlisted_term_passes Samples.unlisted_world
                  (mkBatch [] [("202402.json", Examples.document)])
                  "202402.json" Examples.document Examples.document 2024
                  Hm Hy (or_introl eq_refl) eq_refl Hc)).
Defined.

(** ** The names of the term files *)

Lemma rep_greedy_digits {A : Type} (ds : list ascii) :
  forall (lo : nat) (sn rest : list ascii) (cp : list (nat * string))
         (k : pos -> option A) (a : A),
  forallb is_digit ds = true ->
  lo <= List.length ds ->
  match rest with c :: _ => is_digit c = false | [] => True end ->
  k (mkPos (rev ds ++ sn)%list rest cp) = Some a ->
  rep_greedy false Digit lo None sn (ds ++ rest)%list cp k = Some a.
Proof.
  induction ds as [| d ds IH]; intros lo sn rest cp k a Hd Hlo Hrest Hk.
  - cbn in Hlo. assert (lo = 0) as -> by lia. cbn [app rev] in *.
    destruct rest as [| c rest]; cbn [rep_greedy Nat.eqb].
    + exact Hk.
    + cbn [mem_flag mem]. rewrite Hrest. cbn [andb]. exact Hk.
  - cbn [forallb] in Hd. apply andb_prop in Hd. destruct Hd as [Hd Hds].
    cbn [app rep_greedy mem_flag mem]. rewrite Hd. cbn [may_take andb dec_hi option_map].
    rewrite (IH (pred lo) (d :: sn) rest cp k a Hds); [reflexivity | | exact Hrest |].
    + cbn in Hlo. lia.
    + cbn [rev] in Hk. rewrite <- app_assoc in Hk. exact Hk.
Qed.

Lemma chars_app (s t : string) : chars (s ++ t) = (chars s ++ chars t)%list.
Proof.
  unfold chars. induction s as [| c s IH]; cbn; [reflexivity |].
  rewrite IH. reflexivity.
Qed.

Lemma chars_length (s : string) : List.length (chars s) = String.length s.
Proof.
  unfold chars. induction s as [| c s IH]; cbn; [reflexivity |].
  rewrite IH. reflexivity.
Qed.

Lemma string_length_app (s t : string) :
  String.length (s ++ t) = String.length s + String.length t.
Proof. induction s as [| c s IH]; cbn; [reflexivity | rewrite IH; reflexivity]. Qed.

Lemma take_app (s t : string) : take (String.length s) (s ++ t) = s.
Proof. induction s as [| c s IH]; cbn; [destruct t; reflexivity | rewrite IH; reflexivity]. Qed.

Lemma digit_not_dot (c : ascii) : is_digit c = true -> (code c =? 46)%nat = false.
Proof.
  unfold is_digit, between. intros H. apply andb_prop in H.
  destruct H as [H _]. apply Nat.leb_le in H. apply Nat.eqb_neq. lia.
Qed.

Lemma last_dot_digits (l r : list ascii) :
  forall i f,
  forallb is_digit l = true ->
  last_dot (l ++ r)%list i f = last_dot r (i + List.length l) f.
Proof.
  induction l as [| c l IH]; intros i f H.
  - cbn. rewrite Nat.add_0_r. reflexivity.
  - cbn [forallb] in H. apply andb_prop in H. destruct H as [Hc Hl].
    cbn [app last_dot]. rewrite (digit_not_dot c Hc), (IH (S i) f Hl).
    cbn [List.length]. f_equal. lia.
Qed.

Lemma all_digits_take (n : nat) (s : string) :
  all_digits s = true -> all_digits (take n s) = true.
Proof.
  unfold all_digits, chars. revert n; induction s as [| c s IH]; intros n H.
  - destruct n; reflexivity.
  - destruct n as [| n]; [reflexivity |].
    cbn in H |- *. apply andb_prop in H. destruct H as [Hc Hs].
    rewrite Hc, (IH n Hs). reflexivity.
Qed.

(** X19.  The files [iterFiles] takes for term documents.  A name made of at
    least one digit followed by ".json" is one: its term (the stem) is the
    digits and its year the number written by the first four of them.  A
    name that does not begin with a digit is none, and its turn changes
    nothing. *)
Theorem term_file_names :
  (forall ds : string,
     ds <> "" -> all_digits ds = true ->
     rematch false term_file (ds ++ ".json") <> None
     /\ stem (ds ++ ".json") = ds
     /\ year_of (stem (ds ++ ".json")) = Ok (int (take 4 ds)))
  /\ (forall (world : version -> string -> fetched) (b : batch)
             (name : string) (data : term),
        match name with
        | EmptyString => True
        | String c _ => is_digit c = false
        end ->
        iter_file world b (name, data) = Ok b).
Proof.
  split.
  - intros ds Hne Hd.
    assert (Hstem : stem (ds ++ ".json") = ds).
    { unfold stem. rewrite chars_app.
      rewrite (last_dot_digits (chars ds) (chars ".json") 0 None Hd).
      cbn [Nat.add]. rewrite chars_length.
      change (last_dot (chars ".json") (String.length ds) None)
        with (Some (String.length ds)).
      destruct ds as [| c ds]; [contradiction |].
      cbn [String.length].
      replace (S (S (String.length ds))
               <? String.length (String c ds ++ ".json"))%nat with true.
      - change (S (String.length ds)) with (String.length (String c ds)).
        apply take_app.
      - symmetry. apply Nat.ltb_lt. rewrite string_length_app. cbn. lia. }
    split; [| split; [exact Hstem |]].
    + unfold rematch, attempt, term_file. cbn [exec plus rest seen caps].
      rewrite chars_app.
      erewrite (rep_greedy_digits (chars ds) 1 [] (chars ".json") []);
        [discriminate | exact Hd | | reflexivity | reflexivity].
      rewrite chars_length. destruct ds; [contradiction | cbn; lia].
    + rewrite Hstem. unfold year_of.
      rewrite (all_digits_take 4 ds Hd).
      destruct ds as [| c ds]; [contradiction |]. reflexivity.
  - intros world b name data H. unfold iter_file. cbn [fst].
    replace (rematch false term_file name) with (@None rmatch); [reflexivity |].
    unfold rematch, attempt, term_file. cbn [exec plus rest seen caps].
    destruct name as [| c name]; [reflexivity |].
    cbn [chars list_ascii_of_string rep_greedy mem_flag mem Nat.eqb].
    rewrite H. reflexivity.
Qed.

Lemma term_file_names_witness :
  "202408" <> "" /\ all_digits "202408" = true
  /\ rematch false term_file ("202408" ++ ".json") <> None
  /\ stem ("202408" ++ ".json") = "202408"
  /\ year_of (stem ("202408" ++ ".json")) = Ok (int (take 4 "202408"))
  /\ iter_file Examples.dead_world (mkBatch [] []) ("README.md", Examples.document)
     = Ok (mkBatch [] []).
Proof.
  assert (H1 : "202408" <> "") by discriminate.
  assert (H2 : all_digits "202408" = true) by reflexivity.
  split; [exact H1 |]. split; [exact H2 |].
  destruct term_file_names as [P Q].
  destruct (P "202408" H1 H2) as (A & B & C).
  split; [exact A |]. split; [exact B |]. split; [exact C |].
  apply Q. reflexivity.
Defined.
